(** * Migraine tracker: the rule-based pattern engine ([patterns.js])

    The repository carries two variants of [patterns.js]: a basic one with
    five rules and an extended one with nine.  Both are embedded here, each
    in a module of its own ([Basic], [Extended]), over a common model of the
    JavaScript runtime they use ([JS]): strings, the [Date] object, IEEE
    doubles, arrays with their sort, and plain objects used as maps.

    Conventions of the embedding.
    - A time value is a [Z], the milliseconds since the epoch; an invalid
      [Date] (time value [NaN]) is [None].
    - The host's clock ([new Date()]) and time zone are explicit parameters
      [now] and [tz].  A zone gives the offset from UTC at every instant and
      for every local time, so that daylight saving transitions are
      covered; a number of minutes stands for the zone that keeps that
      offset all year.
    - Numbers that the code only ever uses as integers (lengths, counts,
      minutes, week numbers) are [Z]; numbers that can be fractional
      (averages, percentages) are IEEE binary64 values, Rocq's primitive
      [float], which is the type of a JavaScript Number.
    - Strings are [string]s of 8-bit characters; case mapping and trimming
      act on the ASCII range. *)

From Stdlib Require Import ZArith List String Ascii Bool Lia Floats.
From Stdlib Require Import Permutation Sorted.
Import ListNotations.
Open Scope string_scope.
Open Scope Z_scope.

(** ** The JavaScript runtime the rules rely on *)

Module JS.

(** *** Strings *)

Definition chars (s : string) : list ascii := list_ascii_of_string s.
Definition str (l : list ascii) : string := string_of_list_ascii l.

Definition code (c : ascii) : Z := Z.of_N (N_of_ascii c).
Definition chr (z : Z) : ascii := ascii_of_N (Z.to_N z).

(** [String.prototype.toLowerCase] and [toUpperCase], on ASCII letters. *)
Definition lowerChar (c : ascii) : ascii :=
  if (65 <=? code c) && (code c <=? 90) then chr (code c + 32) else c.
Definition upperChar (c : ascii) : ascii :=
  if (97 <=? code c) && (code c <=? 122) then chr (code c - 32) else c.

Fixpoint mapString (f : ascii -> ascii) (s : string) : string :=
  match s with
  | EmptyString => EmptyString
  | String c r => String (f c) (mapString f r)
  end.

Definition toLowerCase : string -> string := mapString lowerChar.
Definition toUpperCase : string -> string := mapString upperChar.

(** White space and line terminators that [trim] strips (the 8-bit ones:
    TAB, LF, VT, FF, CR, SPACE). *)
Definition isSpace (c : ascii) : bool :=
  ((9 <=? code c) && (code c <=? 13)) || (code c =? 32).

Fixpoint trimStart (s : string) : string :=
  match s with
  | EmptyString => EmptyString
  | String c r => if isSpace c then trimStart r else s
  end.

(** [trimEnd s] drops the trailing white space: a character is kept when it
    is not a space or when something is kept after it. *)
Fixpoint trimEnd (s : string) : string :=
  match s with
  | EmptyString => EmptyString
  | String c r =>
      match trimEnd r with
      | EmptyString => if isSpace c then EmptyString else String c EmptyString
      | r' => String c r'
      end
  end.

Definition trim (s : string) : string := trimEnd (trimStart s).

(** [s.slice(0, n)] for [0 <= n]. *)
Definition slice0 (n : nat) (s : string) : string := substring 0 n s.

(** [s.charAt(0)] and [s.slice(1)]. *)
Definition charAt0 (s : string) : string :=
  match s with EmptyString => EmptyString | String c _ => String c EmptyString end.
Definition slice1 (s : string) : string :=
  match s with EmptyString => EmptyString | String _ r => r end.

(** [Array.prototype.join]. *)
Fixpoint join (sep : string) (l : list string) : string :=
  match l with
  | [] => ""
  | [x] => x
  | x :: r => x ++ sep ++ join sep r
  end.

(** [s] occurs in [t] as a substring ([String.prototype.includes]). *)
Fixpoint includes (t s : string) : bool :=
  prefix s t || match t with EmptyString => false | String _ r => includes r s end.

(** Decimal rendering of an integer ([Number::toString] on an integral
    value below 1e21). *)
Fixpoint digitsPos (fuel : nat) (n : Z) (acc : string) : string :=
  match fuel with
  | O => acc
  | S f =>
      let acc' := String (chr (48 + n mod 10)) acc in
      if n / 10 =? 0 then acc' else digitsPos f (n / 10) acc'
  end.

Definition showNat (n : Z) : string := digitsPos (S (Z.to_nat (Z.log2 n))) n "".

Definition showZ (n : Z) : string :=
  if n <? 0 then "-" ++ showNat (- n) else showNat n.

(** [s.padStart(k, '0')]. *)
Fixpoint zeros (k : nat) : string :=
  match k with O => "" | S k' => String "0" (zeros k') end.
Definition padStart0 (k : nat) (s : string) : string :=
  zeros (k - String.length s) ++ s.


(** *** Time values and the civil calendar

    [Day], [TimeWithinDay] and the year, month and date of a day number, as
    ECMAScript's [YearFromTime], [MonthFromTime] and [DateFromTime] define
    them on the proleptic Gregorian calendar.  The conversions work on
    years that start in March, so that the leap day comes last. *)

Definition msPerDay : Z := 86400000.
Definition msPerMinute : Z := 60000.
Definition msPerHour : Z := 3600000.

Definition Day (t : Z) : Z := t / msPerDay.
Definition TimeWithinDay (t : Z) : Z := t mod msPerDay.

(** Day number (days since 1970-01-01) of the civil date [y]-[m]-[d],
    [1 <= m <= 12]. *)
Definition dayOfCivil (y m d : Z) : Z :=
  let y' := if m <=? 2 then y - 1 else y in
  let cent := y' / 400 in
  let yoc := y' - cent * 400 in
  let mi := (m + 9) mod 12 in
  let doy := (153 * mi + 2) / 5 + d - 1 in
  cent * 146097 + (yoc * 365 + yoc / 4 - yoc / 100 + doy) - 719468.

(** Civil date [(year, month, date)] of a day number. *)
Definition civilOfDay (n : Z) : Z * Z * Z :=
  let z := n + 719468 in
  let cent := z / 146097 in
  let doc := z - cent * 146097 in
  let yoc := (doc - doc / 1460 + doc / 36524 - doc / 146096) / 365 in
  let doy := doc - (365 * yoc + yoc / 4 - yoc / 100) in
  let mi := (5 * doy + 2) / 153 in
  let d := doy - (153 * mi + 2) / 5 + 1 in
  let m := if mi <? 10 then mi + 3 else mi - 9 in
  let y := yoc + cent * 400 in
  (if m <=? 2 then y + 1 else y, m, d).

Definition YearFromTime (t : Z) : Z := fst (fst (civilOfDay (Day t))).
Definition MonthFromTime (t : Z) : Z := snd (fst (civilOfDay (Day t))).
Definition DateFromTime (t : Z) : Z := snd (civilOfDay (Day t)).
Definition WeekDay (t : Z) : Z := (Day t + 4) mod 7.

Definition isLeap (y : Z) : bool :=
  ((y mod 4 =? 0) && negb (y mod 100 =? 0)) || (y mod 400 =? 0).

Definition daysInMonth (y m : Z) : Z :=
  if m =? 2 then (if isLeap y then 29 else 28)
  else if (m =? 4) || (m =? 6) || (m =? 9) || (m =? 11) then 30 else 31.

(** *** Time zones

    What ECMAScript takes from the host: [offsetAt t] is the offset from
    UTC, in milliseconds, in force at the instant [t]
    ([LocalTZA(t, true)]), and [offsetOfLocal l] the offset by which the
    local time value [l] is read ([LocalTZA(l, false)]).  Where a
    transition makes a local time occur twice, or not at all, the standard
    has it read with the offset in force before the transition.  Two
    facts about the zones of the world are part of the model: a local time
    read back from an instant is never read as a later instant (they
    differ only in the repeated hour after clocks are set back), and local
    times at least a day apart are read in their order (no transition
    moves the clock by more than a day). *)
Record Zone : Type := {
  offsetAt : Z -> Z;
  offsetOfLocal : Z -> Z;
  read_back : forall t, offsetAt t <= offsetOfLocal (t + offsetAt t);
  days_in_order :
    forall x y, y + msPerDay <= x -> y - offsetOfLocal y <= x - offsetOfLocal x
}.

Lemma fixed_read_back (o : Z) : forall t : Z, o <= o.
Proof. intros _. apply Z.le_refl. Qed.

Lemma fixed_days_in_order (o : Z) :
  forall x y, y + msPerDay <= x -> y - o <= x - o.
Proof. intros x y. unfold msPerDay. lia. Qed.

(** The zone that keeps one offset, [minutes] east of UTC, all year. *)
Definition fixed (minutes : Z) : Zone :=
  {| offsetAt := fun _ => minutes * msPerMinute;
     offsetOfLocal := fun _ => minutes * msPerMinute;
     read_back := fixed_read_back (minutes * msPerMinute);
     days_in_order := fixed_days_in_order (minutes * msPerMinute) |}.

(** *** The [Date] object, in the zone [tz] *)

Section LocalTime.
Variable tz : Zone.

Definition LocalTime (t : Z) : Z := t + offsetAt tz t.
Definition UTC (l : Z) : Z := l - offsetOfLocal tz l.

Definition getFullYear (t : Z) : Z := YearFromTime (LocalTime t).
Definition getDate (t : Z) : Z := DateFromTime (LocalTime t).
Definition getDay (t : Z) : Z := WeekDay (LocalTime t).
Definition getHours (t : Z) : Z := (LocalTime t / msPerHour) mod 24.
Definition getMinutes (t : Z) : Z := (LocalTime t / msPerMinute) mod 60.

(** [MakeDay(year, month, date)] for the year and month of the local day
    [t] lies in: the day number of the first of that month, plus
    [date - 1]. *)
Definition MakeDayInMonthOf (t : Z) (date : Z) : Z :=
  (Day (LocalTime t) - (DateFromTime (LocalTime t) - 1)) + date - 1.

(** [d.setDate(date)]: the local day is replaced, the local time within the
    day is kept; the new time value is returned. *)
Definition setDate (t : Z) (date : Z) : Z :=
  UTC (MakeDayInMonthOf t date * msPerDay + TimeWithinDay (LocalTime t)).

(** [new Date(year, 0, 1)]: local midnight of the first of January. *)
Definition newDateJan1 (year : Z) : Z := UTC (dayOfCivil year 1 1 * msPerDay).

End LocalTime.

(** *** [Date.parse] on the ECMAScript date-time string format

    A small parser monad over the remaining characters.  The formats read
    are [YYYY-MM-DD] (a date alone is UTC) and
    [YYYY-MM-DDTHH:mm[:ss[.sss]]] followed by nothing (local time), [Z] or
    [+HH:mm] / [-HH:mm].  What the application stores is the output of
    [toISOString], which is of this form.  A string outside the format is
    left by ECMAScript to the implementation; here it is an invalid date. *)

Definition Parser (A : Type) : Type := list ascii -> option (A * list ascii).

Definition pret {A} (a : A) : Parser A := fun l => Some (a, l).
Definition pfail {A} : Parser A := fun _ => None.
Definition pbind {A B} (p : Parser A) (k : A -> Parser B) : Parser B :=
  fun l => match p l with Some (a, r) => k a r | None => None end.

Notation "x <- p ;; k" := (pbind p (fun x => k))
  (at level 100, p at next level, right associativity).
Notation "p ;;; k" := (pbind p (fun _ => k))
  (at level 100, right associativity).

Definition isDigit (c : ascii) : bool := (48 <=? code c) && (code c <=? 57).

Definition digit : Parser Z :=
  fun l => match l with
           | c :: r => if isDigit c then Some (code c - 48, r) else None
           | [] => None
           end.

Definition lit (c : ascii) : Parser unit :=
  fun l => match l with
           | c' :: r => if Ascii.eqb c c' then Some (tt, r) else None
           | [] => None
           end.

Fixpoint number (n : nat) (acc : Z) : Parser Z :=
  match n with
  | O => pret acc
  | S k => d <- digit ;; number k (10 * acc + d)
  end.

Definition orElse {A} (p q : Parser A) : Parser A :=
  fun l => match p l with Some r => Some r | None => q l end.

Definition guard (b : bool) : Parser unit := if b then pret tt else pfail.

Definition atEnd : Parser bool :=
  fun l => Some (match l with [] => true | _ => false end, l).

(** The offset a string names, in minutes east of UTC; [None] when the
    string names none. *)
Definition zone : Parser (option Z) :=
  orElse (lit "Z" ;;; pret (Some 0))
 (orElse (lit "+" ;;; h <- number 2 0 ;; lit ":" ;;; m <- number 2 0 ;;
          guard ((h <? 24) && (m <? 60)) ;;; pret (Some (h * 60 + m)))
 (orElse (lit "-" ;;; h <- number 2 0 ;; lit ":" ;;; m <- number 2 0 ;;
          guard ((h <? 24) && (m <? 60)) ;;; pret (Some (- (h * 60 + m))))
         (pret None))).

Definition timeOfDay : Parser Z :=
  h <- number 2 0 ;; lit ":" ;;; mi <- number 2 0 ;;
  sec <- orElse (lit ":" ;;; number 2 0) (pret 0) ;;
  ms <- orElse (lit "." ;;; number 3 0) (pret 0) ;;
  guard ((h <? 24) && (mi <? 60) && (sec <? 60)
         || (h =? 24) && (mi =? 0) && (sec =? 0) && (ms =? 0)) ;;;
  pret (h * msPerHour + mi * msPerMinute + sec * 1000 + ms).

(** The calendar date [YYYY-MM-DD] at the head of a string: its day
    number. *)
Definition calendarDate : Parser Z :=
  y <- number 4 0 ;; lit "-" ;;; m <- number 2 0 ;; lit "-" ;;;
  d <- number 2 0 ;;
  guard ((1 <=? m) && (m <=? 12) && (1 <=? d) && (d <=? daysInMonth y m)) ;;;
  pret (dayOfCivil y m d).

Definition dateTime (tz : Zone) : Parser Z :=
  day <- calendarDate ;;
  dateOnly <- atEnd ;;
  if dateOnly then pret (day * msPerDay)
  else
    lit "T" ;;; tod <- timeOfDay ;; off <- zone ;;
    fin <- atEnd ;; guard fin ;;;
    pret (match off with
          | Some o => day * msPerDay + tod - o * msPerMinute
          | None => UTC tz (day * msPerDay + tod)
          end).

(** [new Date(s)] for a string [s]: its time value, [None] for an invalid
    date. *)
Definition parseDate (tz : Zone) (s : string) : option Z :=
  match dateTime tz (chars s) with
  | Some (t, _) => Some t
  | None => None
  end.

(** [d.toISOString()] for a valid date.  (On an invalid date the method
    throws a [RangeError]; the callers below model that.) *)
Definition isoYear (y : Z) : string :=
  if (0 <=? y) && (y <=? 9999) then padStart0 4 (showZ y)
  else (if y <? 0 then "-" else "+") ++ padStart0 6 (showZ (Z.abs y)).

Definition toISOString (t : Z) : string :=
  let w := TimeWithinDay t in
  isoYear (YearFromTime t) ++ "-" ++ padStart0 2 (showZ (MonthFromTime t))
  ++ "-" ++ padStart0 2 (showZ (DateFromTime t))
  ++ "T" ++ padStart0 2 (showZ (w / msPerHour))
  ++ ":" ++ padStart0 2 (showZ ((w / msPerMinute) mod 60))
  ++ ":" ++ padStart0 2 (showZ ((w / 1000) mod 60))
  ++ "." ++ padStart0 3 (showZ (w mod 1000)) ++ "Z".

(** [d >= c], [d < c] and [a - b] on dates: a comparison with an invalid
    date is false, a difference with one is [NaN] ([None]). *)
Definition dateGe (d : option Z) (c : Z) : bool :=
  match d with Some t => c <=? t | None => false end.
Definition dateLt (d : option Z) (c : Z) : bool :=
  match d with Some t => t <? c | None => false end.
Definition dateSub (a b : option Z) : option Z :=
  match a, b with Some x, Some y => Some (x - y) | _, _ => None end.

(** *** Numbers: IEEE binary64 *)

Definition num : Type := float.

Definition ofZ (z : Z) : num :=
  if z <? 0 then PrimFloat.opp (PrimFloat.of_uint63 (Uint63.of_Z (- z)))
  else PrimFloat.of_uint63 (Uint63.of_Z z).

Definition NaN : num := PrimFloat.nan.

(** The exact value of a finite double is [n * 2^e]; [scaled k x] is
    [floor (k * x + 1/2)], computed exactly. *)
Definition scaled (k : Z) (x : num) : option Z :=
  match Prim2SF x with
  | S754_zero _ => Some 0
  | S754_finite s m e =>
      let n := if s then Z.neg m else Z.pos m in
      Some (if 0 <=? e then k * n * 2 ^ e
            else (2 * k * n + 2 ^ (- e)) / 2 ^ (1 - e))
  | _ => None
  end.

(** [Math.round(x)]: the integer closest to [x], the larger one on a tie.
    (An infinite or [NaN] argument is returned as it is; the callers only
    render the result, and the rendering below is then ["NaN"].) *)
Definition MathRound (x : num) : option Z := scaled 1 x.

(** [`${Math.round(x)}`]. *)
Definition showRounded (x : num) : string :=
  match MathRound x with
  | Some n => showZ n
  | None => if PrimFloat.is_nan x then "NaN"
            else if PrimFloat.ltb x 0 then "-Infinity" else "Infinity"
  end.

(** [x.toFixed(1)] for [|x| < 1e21]: with [n] the integer closest to
    [10 * |x|] (the larger on a tie), the digits of [n] with a point before
    the last one, after the sign of a negative [x]. *)
Definition toFixed1 (x : num) : string :=
  match scaled 10 (PrimFloat.abs x) with
  | Some n =>
      (if PrimFloat.ltb x 0 then "-" else "")
      ++ showZ (n / 10) ++ "." ++ showZ (n mod 10)
  | None => if PrimFloat.is_nan x then "NaN"
            else if PrimFloat.ltb x 0 then "-Infinity" else "Infinity"
  end.

(** [Number(v || 0)] on a field that may be absent: [undefined], [0], [-0]
    and [NaN] are falsy and give [0]. *)
Definition numberOrZero (v : option num) : num :=
  match v with
  | Some x => if PrimFloat.is_nan x || PrimFloat.eqb x 0 then 0%float else x
  | None => 0%float
  end.

(** A field read where a number is expected: [undefined] in an addition is
    [NaN]. *)
Definition toNumber (v : option num) : num :=
  match v with Some x => x | None => NaN end.

(** *** Arrays *)

(** [Array.prototype.sort(cmp)].  The sort is stable; a comparator result
    that is [NaN] ([None]) counts as [0].  The model is the stable
    insertion sort: for a comparator that is a consistent ordering, every
    stable sort gives this same array. *)
Definition positive (r : option Z) : bool :=
  match r with Some z => 0 <? z | None => false end.

Fixpoint insertBy {A} (cmp : A -> A -> option Z) (x : A) (l : list A) : list A :=
  match l with
  | [] => [x]
  | y :: r => if positive (cmp x y) then y :: insertBy cmp x r else x :: l
  end.

Definition sortBy {A} (cmp : A -> A -> option Z) (l : list A) : list A :=
  fold_right (insertBy cmp) [] l.

(** [(a, b) => a - b] on numbers. *)
Definition ascending (a b : Z) : option Z := Some (a - b).

(** [a.length] as a number. *)
Definition len {A} (l : list A) : Z := Z.of_nat (List.length l).

(** [Math.ceil(n * 0.25)] and [Math.ceil(n * 0.4)] for an array length
    [n].  The double nearest to 0.4 is [0.4 * (1 + 2^-54)]: when five
    divides [n] the product rounds to the integer [2n/5] itself, otherwise
    the real product is at least 0.2 away from an integer, far more than
    the rounding error, so the ceiling of the double is the ceiling of the
    fraction.  0.25 is a power of two and the product is exact. *)
Definition ceilDiv (a b : Z) : Z := - ((- a) / b).
Definition ceilQuarter (n : Z) : Z := ceilDiv n 4.
Definition ceilTwoFifths (n : Z) : Z := ceilDiv (2 * n) 5.

(** *** [Set] of strings: insertion order, no duplicates *)

Definition setHas (l : list string) (x : string) : bool :=
  existsb (String.eqb x) l.
Definition setAdd (l : list string) (x : string) : list string :=
  if setHas l x then l else (l ++ [x])%list.
Definition setOf (l : list string) : list string := fold_left setAdd l [].

(** *** Plain objects used as maps

    An object is the list of its own properties in the order of their
    creation.  [Object.entries] and [Object.keys] list the properties whose
    name is an array index (a canonical numeral below [2^32 - 1]) first, in
    ascending numeric order, then the other ones in creation order. *)

Definition Obj (V : Type) : Type := list (string * V).

Fixpoint objGet {V} (o : Obj V) (k : string) : option V :=
  match o with
  | [] => None
  | (k', v) :: r => if String.eqb k k' then Some v else objGet r k
  end.

Fixpoint objSet {V} (o : Obj V) (k : string) (v : V) : Obj V :=
  match o with
  | [] => [(k, v)]
  | (k', v') :: r => if String.eqb k k' then (k', v) :: r
                     else (k', v') :: objSet r k v
  end.

Fixpoint numeral (l : list ascii) (acc : Z) : option Z :=
  match l with
  | [] => Some acc
  | c :: r => if isDigit c then numeral r (10 * acc + (code c - 48)) else None
  end.

Definition arrayIndex (k : string) : option Z :=
  match chars k with
  | [] => None
  | c :: r =>
      if Ascii.eqb c "0" && negb (match r with [] => true | _ => false end)
      then None
      else match numeral (c :: r) 0 with
           | Some n => if n <? 4294967295 then Some n else None
           | None => None
           end
  end.

Definition isIndex (k : string) : bool :=
  match arrayIndex k with Some _ => true | None => false end.

Definition byIndex {V} (a b : string * V) : option Z :=
  match arrayIndex (fst a), arrayIndex (fst b) with
  | Some x, Some y => Some (x - y)
  | _, _ => None
  end.

Definition entries {V} (o : Obj V) : list (string * V) :=
  (sortBy byIndex (filter (fun e => isIndex (fst e)) o)
   ++ filter (fun e => negb (isIndex (fst e))) o)%list.

Definition keys {V} (o : Obj V) : list string := map fst (entries o).

(** [Number(k)] for a property name: the index it spells, [NaN] ([None])
    for a name that is no index. *)
Definition NumberOfKey (k : string) : option Z := arrayIndex k.

(** The names every plain object inherits from [Object.prototype]. *)
Definition inheritedNames : list string :=
  [ "constructor"; "__defineGetter__"; "__defineSetter__"; "hasOwnProperty";
    "__lookupGetter__"; "__lookupSetter__"; "isPrototypeOf";
    "propertyIsEnumerable"; "toString"; "valueOf"; "__proto__";
    "toLocaleString" ].
Definition inherited (k : string) : bool := setHas inheritedNames k.

(** The value of a property that the code means to be a count.  Reading a
    name that is inherited from [Object.prototype] gives a function (an
    object, for [__proto__]), which is truthy, and adding 1 to it gives a
    string: such a property holds text, and adding 1 to text gives text. *)
Inductive Tally : Type :=
  | Counted (n : Z)
  | Text.

(** [o[k] = (o[k] || 0) + 1].  The assignment to [__proto__] reaches the
    inherited setter, which ignores a string: no property is created. *)
Definition bump (o : Obj Tally) (k : string) : Obj Tally :=
  match objGet o k with
  | Some (Counted n) => objSet o k (Counted (n + 1))
  | Some Text => objSet o k Text
  | None =>
      if String.eqb k "__proto__" then o
      else if inherited k then objSet o k Text
      else objSet o k (Counted 1)
  end.

(** [count >= threshold] on such a value: text is not a numeral, its
    number is [NaN], the comparison is false. *)
Definition tallyGe (v : Tally) (threshold : Z) : bool :=
  match v with Counted n => threshold <=? n | Text => false end.

End JS.

(** A number of minutes is read as the zone with that fixed offset. *)
Coercion JS.fixed : Z >-> JS.Zone.

(** ** The data model *)

Record Medication : Type := {
  name : string;
  doseMg : option JS.num
}.

(** An episode as stored.  [None] is an absent field. *)
Record Episode : Type := {
  id : string;
  datetime : string;
  intensity : option JS.num;
  durationMinutes : Z;
  triggers : option (list string);
  medications : option (list Medication);
  notes : option string
}.

Record Finding : Type := {
  title : string;
  message : string
}.

(** [suggestions.push(f)]. *)
Definition push (suggestions : list Finding) (f : Finding) : list Finding :=
  (suggestions ++ [f])%list.

(** [x || []] on a field that holds an array when present. *)
Definition orEmpty {A} (x : option (list A)) : list A :=
  match x with Some l => l | None => [] end.

(** The outcome of a call: it returns, or an exception leaves it. *)
Inductive Completion (A : Type) : Type :=
  | Normal (a : A)
  | Throw (error : string).
Arguments Normal {A} a.
Arguments Throw {A} error.

Definition andThen {A B} (c : Completion A) (k : A -> Completion B) : Completion B :=
  match c with Normal a => k a | Throw e => Throw e end.

Definition weekdays : list string :=
  ["Sunday"; "Monday"; "Tuesday"; "Wednesday"; "Thursday"; "Friday"; "Saturday"].

(** The two-pointer sweep of the time-of-day rule, which both variants
    share word for word.  [gap] is the loop test
    [minutes[i] - minutes[windowStartIdx] > 240]: with an index past the
    end the difference is [NaN] and the test false. *)
Module Sweep.

Definition gap (minutes : list Z) (i w : nat) : bool :=
  match nth_error minutes i, nth_error minutes w with
  | Some a, Some b => 240 <? a - b
  | _, _ => false
  end.

(** The [while] loop, with the number of iterations it may still make. *)
Fixpoint advance (fuel : nat) (minutes : list Z) (i w : nat) : nat :=
  match fuel with
  | O => w
  | S f => if gap minutes i w then advance f minutes i (S w) else w
  end.

Record State : Type := {
  windowStartIdx : nat;
  maxCount : Z;
  windowStartTime : Z
}.

(** One turn of the [for] loop, at index [i]. *)
Definition step (minutes : list Z) (i : nat) (st : State) : State :=
  let w := advance (S i) minutes i (windowStartIdx st) in
  let count := Z.of_nat i - Z.of_nat w + 1 in
  if maxCount st <? count
  then {| windowStartIdx := w; maxCount := count;
          windowStartTime := nth w minutes 0 |}
  else {| windowStartIdx := w; maxCount := maxCount st;
          windowStartTime := windowStartTime st |}.

(** The turns [i], [i+1], ..., [i+k-1]. *)
Fixpoint loop (minutes : list Z) (k i : nat) (st : State) : State :=
  match k with
  | O => st
  | S k' => loop minutes k' (S i) (step minutes i st)
  end.

Definition run (minutes : list Z) : State :=
  loop minutes (List.length minutes) 0
       {| windowStartIdx := 0; maxCount := 0; windowStartTime := 0 |}.

End Sweep.

(** ** Arrays in the store

    The rules receive the caller's array by reference and derive other
    arrays from it.  [filter], [map], [slice] and the spread of a [Set]
    create a new array; [sort] reorders its receiver in place.  To follow
    which array a [sort] reaches, the arrays live in a store, a list of
    arrays indexed by location, and the array methods are computations on
    the store.  Episode records are never assigned to: an array holds the
    records themselves.  (Objects and the arrays that [groupBy] builds
    inside them are created and read within one rule; they stay values.) *)

Module Store.

Inductive Arr : Type :=
  | Episodes (l : list Episode)
  | Numbers (l : list Z)
  | Strings (l : list string).

Definition store : Type := list Arr.
Definition loc : Type := nat.

(** A computation on the store. *)
Definition M (A : Type) : Type := store -> A * store.

Definition ret {A} (a : A) : M A := fun h => (a, h).
Definition bind {A B} (c : M A) (k : A -> M B) : M B :=
  fun h => let (a, h') := c h in k a h'.

Declare Scope store_scope.
Delimit Scope store_scope with store.
Notation "x <- c ;; k" := (bind c (fun x => k))
  (at level 100, c at next level, right associativity) : store_scope.
Notation "c ;;; k" := (bind c (fun _ => k))
  (at level 100, right associativity) : store_scope.

Fixpoint setNth (h : store) (r : loc) (a : Arr) : store :=
  match h, r with
  | [], _ => []
  | _ :: t, O => a :: t
  | x :: t, S r' => x :: setNth t r' a
  end.

(** A new array; its location is returned. *)
Definition alloc (a : Arr) : M loc := fun h => (List.length h, (h ++ [a])%list).

(** The elements of the array at a location. *)
Definition episodesAt (r : loc) : M (list Episode) :=
  fun h => (match nth_error h r with Some (Episodes l) => l | _ => [] end, h).
Definition numbersAt (r : loc) : M (list Z) :=
  fun h => (match nth_error h r with Some (Numbers l) => l | _ => [] end, h).
Definition stringsAt (r : loc) : M (list string) :=
  fun h => (match nth_error h r with Some (Strings l) => l | _ => [] end, h).

(** The array at a location is overwritten. *)
Definition write (r : loc) (a : Arr) : M unit := fun h => (tt, setNth h r a).

Local Open Scope store_scope.

(** [a.filter(p)], [a.slice()], [a.map(f)]: a new array. *)
Definition filterE (r : loc) (p : Episode -> bool) : M loc :=
  l <- episodesAt r ;; alloc (Episodes (filter p l)).
Definition sliceE (r : loc) : M loc :=
  l <- episodesAt r ;; alloc (Episodes l).
Definition mapEN (r : loc) (f : Episode -> Z) : M loc :=
  l <- episodesAt r ;; alloc (Numbers (map f l)).
Definition mapES (r : loc) (f : Episode -> string) : M loc :=
  l <- episodesAt r ;; alloc (Strings (map f l)).

(** [a.sort(cmp)]: the receiver is reordered in place. *)
Definition sortE (r : loc) (cmp : Episode -> Episode -> option Z) : M unit :=
  l <- episodesAt r ;; write r (Episodes (JS.sortBy cmp l)).
Definition sortN (r : loc) (cmp : Z -> Z -> option Z) : M unit :=
  l <- numbersAt r ;; write r (Numbers (JS.sortBy cmp l)).
Definition sortS (r : loc) (cmp : string -> string -> option Z) : M unit :=
  l <- stringsAt r ;; write r (Strings (JS.sortBy cmp l)).

End Store.

(** ** The basic variant of [patterns.js] (five rules)

    Every rule is given twice: as a function of the episode list, and as a
    computation on the store that takes the location of the caller's array
    ([...M]).  The two share the parts of a rule that only read. *)

Module Basic.

(** [capitalize(str)]. *)
Definition capitalize (s : string) : string :=
  JS.toUpperCase (JS.charAt0 s) ++ JS.slice1 s.

(** [formatTime(minutes)]. *)
Definition formatTime (minutes : Z) : string :=
  let hh := minutes / 60 in
  let mm := minutes mod 60 in
  JS.padStart0 2 (JS.showZ hh) ++ ":" ++ JS.padStart0 2 (JS.showZ mm).

(** [counts[day]++] on the array of seven counters. *)
Fixpoint incrAt (counts : list Z) (day : nat) : list Z :=
  match counts, day with
  | [], _ => []
  | c :: r, O => (c + 1) :: r
  | c :: r, S d => c :: incrAt r d
  end.

(** [Math.max(...counts)] on a non-empty array. *)
Definition maxOf (counts : list Z) : Z :=
  match counts with [] => 0 | c :: r => fold_left Z.max r c end.

(** [counts.indexOf(m)]; the length stands for "not found". *)
Fixpoint indexOf (counts : list Z) (m : Z) : nat :=
  match counts with
  | [] => O
  | c :: r => if c =? m then O else S (indexOf r m)
  end.

(** The double written [1.2]. *)
Definition onePointTwo : JS.num := 0x1.3333333333333p+0%float.

(** [window.reduce((sum, ep) => sum + ep.intensity, 0) / window.length]. *)
Definition average (window : list Episode) : JS.num :=
  PrimFloat.div
    (fold_left (fun sum ep => PrimFloat.add sum (JS.toNumber (intensity ep)))
               window 0%float)
    (JS.ofZ (JS.len window)).

Definition countTriggers (recent : list Episode) : JS.Obj JS.Tally :=
  fold_left
    (fun counts ep =>
       fold_left (fun counts t => JS.bump counts (JS.toLowerCase (JS.trim t)))
                 (orEmpty (triggers ep)) counts)
    recent [].

(** The labels that reach the threshold, in the order of [Object.entries]. *)
Definition commonTriggers (recent : list Episode) : list string :=
  let triggerCounts := countTriggers recent in
  let threshold := JS.ceilQuarter (JS.len recent) in
  map fst (filter (fun e => JS.tallyGe (snd e) threshold)
                  (JS.entries triggerCounts)).

(** The top-triggers rule, from the window on. *)
Definition topTriggersOn (recent : list Episode) (suggestions : list Finding)
  : list Finding :=
  if JS.len recent =? 0 then suggestions
  else
    let commonTriggers := commonTriggers recent in
    if 0 <? JS.len commonTriggers then
      let list := JS.join ", " (map capitalize commonTriggers) in
      push suggestions
        {| title := "Frequent triggers";
           message := "You often report triggers like " ++ list
             ++ ". Consider what adjustments might help you avoid or mitigate these." |}
    else suggestions.

(** The time-of-day rule, from the sorted minutes on. *)
Definition timeOfDayOn (minutes : list Z) (suggestions : list Finding)
  : list Finding :=
  let total := JS.len minutes in
  let threshold := JS.ceilTwoFifths total in
  let st := Sweep.run minutes in
  if threshold <=? Sweep.maxCount st then
    let start := Sweep.windowStartTime st in
    let end_ := (start + 240) mod (24 * 60) in
    push suggestions
      {| title := "Time‑of‑day pattern";
         message := "Around "
           ++ JS.showRounded (PrimFloat.mul
                (PrimFloat.div (JS.ofZ (Sweep.maxCount st)) (JS.ofZ total))
                (JS.ofZ 100))
           ++ "% of your episodes happen between " ++ formatTime start
           ++ " and " ++ formatTime end_
           ++ ". You might try adjusting your routine or preparing for triggers during this period." |}
  else suggestions.

(** The rising-intensity rule, from its two halves on. *)
Definition risingIntensityOn (firstWindow secondWindow : list Episode)
    (suggestions : list Finding) : list Finding :=
  if (JS.len firstWindow =? 0) || (JS.len secondWindow =? 0) then suggestions
  else
    let avg1 := average firstWindow in
    let avg2 := average secondWindow in
    if PrimFloat.leb (PrimFloat.mul avg1 onePointTwo) avg2 then
      push suggestions
        {| title := "Rising intensity";
           message := "Your average migraine intensity over the last three weeks ("
             ++ JS.toFixed1 avg2
             ++ ") is noticeably higher than the preceding three weeks ("
             ++ JS.toFixed1 avg1
             ++ "). It may be worth discussing this with a healthcare professional." |}
    else suggestions.

Section Engine.

Variable tz : JS.Zone.             (* the host's zone *)
Variable now : Z.                  (* [new Date()] *)

(** [new Date(ep.datetime)]. *)
Definition when (ep : Episode) : option Z := JS.parseDate tz (datetime ep).

(** The time value of an episode that passed a window filter (its date is
    then valid; the default is never read). *)
Definition timeValue (ep : Episode) : Z :=
  match when ep with Some t => t | None => 0 end.

(** [cutoff = new Date(now); cutoff.setDate(cutoff.getDate() - days)]. *)
Definition cutoffDate (days : Z) : Z :=
  JS.setDate tz now (JS.getDate tz now - days).

(** [ep => new Date(ep.datetime) >= cutoff]. *)
Definition inWindow (days : Z) (ep : Episode) : bool :=
  JS.dateGe (when ep) (cutoffDate days).

(** [d.getHours() * 60 + d.getMinutes()]. *)
Definition minuteOfDay (ep : Episode) : Z :=
  JS.getHours tz (timeValue ep) * 60 + JS.getMinutes tz (timeValue ep).

Definition minutesOf (recent : list Episode) : list Z :=
  JS.sortBy JS.ascending (map minuteOfDay recent).

Definition dayOfWeekOn (recent : list Episode) (suggestions : list Finding)
  : list Finding :=
  if JS.len recent =? 0 then suggestions
  else
    let counts :=
      fold_left (fun counts ep => incrAt counts (Z.to_nat (JS.getDay tz (timeValue ep))))
                recent (repeat 0 7) in
    let total := JS.len recent in
    let threshold := JS.ceilTwoFifths total in
    let maxCount := maxOf counts in
    if threshold <=? maxCount then
      let dayIndex := indexOf counts maxCount in
      push suggestions
        {| title := "Day‑of‑week trend";
           message := "About "
             ++ JS.showRounded (PrimFloat.mul
                  (PrimFloat.div (JS.ofZ maxCount) (JS.ofZ total)) (JS.ofZ 100))
             ++ "% of recent episodes occur on " ++ nth dayIndex weekdays "undefined"
             ++ "s. There may be something about those days worth investigating." |}
    else suggestions.

(** One turn of the [forEach] of the medication rule.  [toISOString]
    throws a [RangeError] on an invalid date. *)
Definition noteMedicationDay (days : list string) (ep : Episode)
  : Completion (list string) :=
  if 0 <? JS.len (orEmpty (medications ep)) then
    match when ep with
    | Some t => Normal (JS.setAdd days (JS.slice0 10 (JS.toISOString t)))
    | None => Throw "RangeError: Invalid time value"
    end
  else Normal days.

Definition medicationDays (recent : list Episode) : Completion (list string) :=
  fold_left (fun acc ep => andThen acc (fun days => noteMedicationDay days ep))
            recent (Normal []).

Definition medicationOveruseOn (recent : list Episode) (suggestions : list Finding)
  : Completion (list Finding) :=
  andThen (medicationDays recent) (fun daysWithMeds =>
    Normal
      (if 10 <=? JS.len daysWithMeds then
         push suggestions
           {| title := "Medication use";
              message := "You've taken migraine medication on "
                ++ JS.showZ (JS.len daysWithMeds)
                ++ " days in the last month. Overuse can sometimes worsen migraines – consider discussing your medication plan with a doctor." |}
       else suggestions)).

(** *** On the episode list *)

Section OnList.

Variable episodes : list Episode.

Definition inLastDays (days : Z) : list Episode :=
  filter (inWindow days) episodes.

Definition topTriggersRule (suggestions : list Finding) : list Finding :=
  let recent := inLastDays 30 in
  topTriggersOn recent suggestions.

Definition timeOfDayRule (suggestions : list Finding) : list Finding :=
  let recent := inLastDays 30 in
  if JS.len recent =? 0 then suggestions
  else
    let minutes := minutesOf recent in
    timeOfDayOn minutes suggestions.

Definition dayOfWeekRule (suggestions : list Finding) : list Finding :=
  let recent := inLastDays 30 in
  dayOfWeekOn recent suggestions.

Definition risingIntensityRule (suggestions : list Finding) : list Finding :=
  let cutoff := cutoffDate 42 in
  let recent := filter (fun ep => JS.dateGe (when ep) cutoff) episodes in
  if JS.len recent <? 2 then suggestions
  else
    let midCutoff := cutoffDate 21 in
    let firstWindow := filter (fun ep => JS.dateLt (when ep) midCutoff) recent in
    let secondWindow := filter (fun ep => JS.dateGe (when ep) midCutoff) recent in
    risingIntensityOn firstWindow secondWindow suggestions.

Definition medicationOveruseRule (suggestions : list Finding)
  : Completion (list Finding) :=
  let recent := inLastDays 30 in
  medicationOveruseOn recent suggestions.

Definition analysePatterns : Completion (list Finding) :=
  let suggestions := [] in
  if JS.len episodes =? 0 then Normal suggestions
  else
    medicationOveruseRule
      (risingIntensityRule (dayOfWeekRule (timeOfDayRule (topTriggersRule suggestions)))).

End OnList.

(** *** On the store *)

Section OnStore.

Import Store.
Local Open Scope store_scope.

Variable episodes : loc.           (* the caller's array *)

Definition inLastDaysM (days : Z) : M loc := filterE episodes (inWindow days).

Definition topTriggersRuleM (suggestions : list Finding) : M (list Finding) :=
  r <- inLastDaysM 30 ;;
  recent <- episodesAt r ;;
  ret (topTriggersOn recent suggestions).

Definition timeOfDayRuleM (suggestions : list Finding) : M (list Finding) :=
  r <- inLastDaysM 30 ;;
  recent <- episodesAt r ;;
  if JS.len recent =? 0 then ret suggestions
  else
    m <- mapEN r minuteOfDay ;;
    sortN m JS.ascending ;;;
    minutes <- numbersAt m ;;
    ret (timeOfDayOn minutes suggestions).

Definition dayOfWeekRuleM (suggestions : list Finding) : M (list Finding) :=
  r <- inLastDaysM 30 ;;
  recent <- episodesAt r ;;
  ret (dayOfWeekOn recent suggestions).

Definition risingIntensityRuleM (suggestions : list Finding) : M (list Finding) :=
  let cutoff := cutoffDate 42 in
  r <- filterE episodes (fun ep => JS.dateGe (when ep) cutoff) ;;
  recent <- episodesAt r ;;
  if JS.len recent <? 2 then ret suggestions
  else
    let midCutoff := cutoffDate 21 in
    f <- filterE r (fun ep => JS.dateLt (when ep) midCutoff) ;;
    s <- filterE r (fun ep => JS.dateGe (when ep) midCutoff) ;;
    firstWindow <- episodesAt f ;;
    secondWindow <- episodesAt s ;;
    ret (risingIntensityOn firstWindow secondWindow suggestions).

Definition medicationOveruseRuleM (suggestions : list Finding)
  : M (Completion (list Finding)) :=
  r <- inLastDaysM 30 ;;
  recent <- episodesAt r ;;
  ret (medicationOveruseOn recent suggestions).

Definition analysePatternsM : M (Completion (list Finding)) :=
  let suggestions := [] in
  input <- episodesAt episodes ;;
  if JS.len input =? 0 then ret (Normal suggestions)
  else
    s1 <- topTriggersRuleM suggestions ;;
    s2 <- timeOfDayRuleM s1 ;;
    s3 <- dayOfWeekRuleM s2 ;;
    s4 <- risingIntensityRuleM s3 ;;
    medicationOveruseRuleM s4.

End OnStore.

End Engine.

End Basic.

(** ** The extended variant of [patterns.js] (nine rules) *)

Module Extended.

(** [capitalize(s)]. *)
Definition capitalize (s : string) : string :=
  match s with
  | EmptyString => ""
  | _ => JS.toUpperCase (JS.charAt0 s) ++ JS.slice1 s
  end.

(** [n.toString().padStart(2, '0')]. *)
Definition pad (n : Z) : string := JS.padStart0 2 (JS.showZ n).

(** Objects whose property names are array indices (weekdays, hours, week
    numbers) are modelled by the indices themselves; [Object.entries]
    lists them in ascending order, whatever the order of creation. *)
Definition IdxObj (V : Type) : Type := list (Z * V).

Fixpoint idxGet {V} (o : IdxObj V) (k : Z) : option V :=
  match o with
  | [] => None
  | (k', v) :: r => if k =? k' then Some v else idxGet r k
  end.

Fixpoint idxSet {V} (o : IdxObj V) (k : Z) (v : V) : IdxObj V :=
  match o with
  | [] => [(k, v)]
  | (k', v') :: r => if k =? k' then (k', v) :: r else (k', v') :: idxSet r k v
  end.

Definition idxEntries {V} (o : IdxObj V) : list (Z * V) :=
  JS.sortBy (fun a b => Some (fst a - fst b)) o.

(** [groupBy(array, keyFn)]. *)
Definition groupBy {A} (array : list A) (keyFn : A -> Z) : IdxObj (list A) :=
  fold_left
    (fun acc item =>
       let key := keyFn item in
       idxSet acc key
         (match idxGet acc key with Some g => g | None => [] end ++ [item])%list)
    array [].

(** [ep => ep.datetime.slice(0, 10)]. *)
Definition dayString (ep : Episode) : string := JS.slice0 10 (datetime ep).

(** [(a, b) => new Date(b) - new Date(a)] on day strings. *)
Definition latestFirst (tz : JS.Zone) (a b : string) : option Z :=
  JS.dateSub (JS.parseDate tz b) (JS.parseDate tz a).

(** The walk of [computeStreak] over the day strings, most recent
    first: [diff === 1] holds when the two dates are valid and exactly one
    day apart. *)
Fixpoint streakWalk (tz : JS.Zone) (dateStrings : list string) (streak : Z) : Z :=
  match dateStrings with
  | a :: ((b :: _) as r) =>
      match JS.dateSub (JS.parseDate tz a) (JS.parseDate tz b) with
      | Some diff => if diff =? JS.msPerDay then streakWalk tz r (streak + 1)
                     else streak
      | None => streak
      end
  | _ => streak
  end.

Definition computeStreak (tz : JS.Zone) (eps : list Episode) : Z :=
  if JS.len eps =? 0 then 0
  else
    let dateStrings :=
      JS.sortBy (latestFirst tz) (JS.setOf (map dayString eps)) in
    streakWalk tz dateStrings 1.

Record Bucket : Type := { sum : JS.num; count : Z }.

Record Mean : Type := { key : Z; avg : JS.num; samples : Z }.

(** [averages.reduce((max, entry) => entry.avg > max.avg ? entry : max, averages[0])]. *)
Definition highest (averages : list Mean) (first : Mean) : Mean :=
  fold_left (fun max entry => if PrimFloat.ltb (avg max) (avg entry) then entry else max)
            averages first.

(** The double written [1.2]. *)
Definition onePointTwo : JS.num := 0x1.3333333333333p+0%float.

(** [a.reduce((a, b) => a + b, 0) / 3]. *)
Definition meanOfThree (a : list JS.num) : JS.num :=
  PrimFloat.div (fold_left PrimFloat.add a 0%float) 3%float.

(** [eps.reduce((sum, ep) => sum + Number(ep.intensity || 0), 0) / eps.length]. *)
Definition weekAverage (eps : list Episode) : JS.num :=
  PrimFloat.div
    (fold_left (fun sum ep => PrimFloat.add sum (JS.numberOrZero (intensity ep)))
               eps 0%float)
    (JS.ofZ (JS.len eps)).

(** [weekNumbers.map(wn => ...)]: reading [reduce] off a week that is
    missing from the groups would be a [TypeError]. *)
Fixpoint weeklyAverages (weekGroups : IdxObj (list Episode)) (weekNumbers : list Z)
  : Completion (list JS.num) :=
  match weekNumbers with
  | [] => Normal []
  | wn :: r =>
      match idxGet weekGroups wn with
      | Some eps =>
          andThen (weeklyAverages weekGroups r)
                  (fun avgs => Normal (weekAverage eps :: avgs))
      | None => Throw "TypeError: Cannot read properties of undefined"
      end
  end.

(** [a.slice(len - 3)] and [a.slice(len - 6, len - 3)]. *)
Definition lastThree {A} (a : list A) : list A := skipn (List.length a - 3) a.
Definition previousThree {A} (a : list A) : list A :=
  firstn 3 (skipn (List.length a - 6) a).

Definition countTriggers (recent : list Episode) : JS.Obj JS.Tally :=
  fold_left
    (fun counts ep => fold_left JS.bump (orEmpty (triggers ep)) counts)
    recent [].

(** The labels that reach the threshold, in the order of [Object.entries]. *)
Definition common (recent : list Episode) : list string :=
  let triggerCounts := countTriggers recent in
  let threshold := JS.ceilQuarter (JS.len recent) in
  map fst (filter (fun e => JS.tallyGe (snd e) threshold)
                  (JS.entries triggerCounts)).

(** The top-triggers rule, from the window on. *)
Definition topTriggersOn (recent : list Episode) (suggestions : list Finding)
  : list Finding :=
  if JS.len recent =? 0 then suggestions
  else
    let common := common recent in
    if 0 <? JS.len common then
      let list := JS.join ", " (map capitalize common) in
      push suggestions
        {| title := "Frequent triggers";
           message := "You often report triggers like " ++ list
             ++ ". Gentle adjustments might help you avoid or mitigate these." |}
    else suggestions.

(** The time-of-day rule, from the sorted minutes on. *)
Definition timeOfDayOn (minutes : list Z) (suggestions : list Finding)
  : list Finding :=
  let total := JS.len minutes in
  let threshold := JS.ceilTwoFifths total in
  let st := Sweep.run minutes in
  if threshold <=? Sweep.maxCount st then
    let startHour := Sweep.windowStartTime st / 60 in
    let endHour := (Sweep.windowStartTime st + 240) / 60 in
    let range := pad startHour ++ ":00–" ++ pad endHour ++ ":00" in
    push suggestions
      {| title := "Time‑of‑day cluster";
         message := "A significant share of your episodes occur between "
           ++ range
           ++ ". Consider a pre‑emptive routine or relaxation practice then." |}
  else suggestions.

(** The rising-intensity rule, from the groups and the sorted week numbers
    on. *)
Definition risingIntensityOn (weekGroups : IdxObj (list Episode))
    (weekNumbers : list Z) (suggestions : list Finding)
  : Completion (list Finding) :=
  if JS.len weekNumbers <? 6 then Normal suggestions
  else
    andThen (weeklyAverages weekGroups weekNumbers) (fun weeklyAvg =>
      let last3 := meanOfThree (lastThree weeklyAvg) in
      let prev3 := meanOfThree (previousThree weeklyAvg) in
      Normal
        (if PrimFloat.ltb 0%float prev3
            && PrimFloat.leb (PrimFloat.mul prev3 onePointTwo) last3
         then
           push suggestions
             {| title := "Rising intensity trend";
                message := "Your 3‑week average intensity has risen by over 20%. Consider consulting a healthcare provider or reviewing possible triggers." |}
         else suggestions)).

Definition medicationDays (recent : list Episode) : list string :=
  fold_left
    (fun days ep =>
       if 0 <? JS.len (orEmpty (medications ep))
       then JS.setAdd days (JS.slice0 10 (datetime ep)) else days)
    recent [].

Definition medicationOveruseOn (recent : list Episode) (suggestions : list Finding)
  : list Finding :=
  let daysWithMed := medicationDays recent in
  if 10 <=? JS.len daysWithMed then
    push suggestions
      {| title := "Medication usage";
         message := "You've used medication on " ++ JS.showZ (JS.len daysWithMed)
           ++ " days in the last month. Over‑use can sometimes worsen migraines; speak with your doctor." |}
  else suggestions.

(** The streak rule, from the streak on. *)
Definition streakOn (streak : Z) (suggestions : list Finding) : list Finding :=
  if 3 <=? streak then
    push suggestions
      {| title := "Consistent tracking";
         message := "Great job! You've logged episodes for " ++ JS.showZ streak
           ++ " consecutive days. Keeping track consistently helps identify patterns." |}
  else suggestions.

(** The weekly-change rule, from its two windows on. *)
Definition weeklyChangeOn (lastWeek prevWeek : list Episode)
    (suggestions : list Finding) : list Finding :=
  let lastCount := JS.len lastWeek in
  let prevCount := JS.len prevWeek in
  if (0 <? prevCount) && (prevCount <? lastCount) then
    push suggestions
      {| title := "Increased frequency";
         message := "You logged " ++ JS.showZ lastCount
           ++ " episodes in the last week, up from " ++ JS.showZ prevCount
           ++ " the week before. Watch for triggers and consider adjustments." |}
  else if (0 <? prevCount) && (lastCount <? prevCount) then
    push suggestions
      {| title := "Decreased frequency";
         message := "Nice progress! You've logged fewer episodes this week ("
           ++ JS.showZ lastCount ++ ") than the previous week ("
           ++ JS.showZ prevCount ++ "). Keep it up!" |}
  else suggestions.

Section Engine.

Variable tz : JS.Zone.             (* the host's zone *)
Variable now : Z.                  (* [new Date()] *)

(** [new Date(ep.datetime)]. *)
Definition when (ep : Episode) : option Z := JS.parseDate tz (datetime ep).

(** The time value of an episode that passed a window filter (its date is
    then valid; the default is never read). *)
Definition timeValue (ep : Episode) : Z :=
  match when ep with Some t => t | None => 0 end.

(** [cutoff = new Date(now); cutoff.setDate(cutoff.getDate() - days)]. *)
Definition cutoffDate (days : Z) : Z :=
  JS.setDate tz now (JS.getDate tz now - days).

(** [ep => new Date(ep.datetime) >= cutoff]. *)
Definition inWindow (days : Z) (ep : Episode) : bool :=
  JS.dateGe (when ep) (cutoffDate days).

(** The test of the prior week: [d >= prevCutoff && d < prevWeekEnd]. *)
Definition inPrevWeek (ep : Episode) : bool :=
  let prevCutoff := cutoffDate 14 in
  let prevWeekEnd := cutoffDate 7 in
  JS.dateGe (when ep) prevCutoff && JS.dateLt (when ep) prevWeekEnd.

(** [(a, b) => new Date(b.datetime) - new Date(a.datetime)]. *)
Definition newestFirst (a b : Episode) : option Z :=
  JS.dateSub (when b) (when a).

(** [d.getHours() * 60 + d.getMinutes()]. *)
Definition minuteOfDay (ep : Episode) : Z :=
  JS.getHours tz (timeValue ep) * 60 + JS.getMinutes tz (timeValue ep).

Definition minutesOf (recent : list Episode) : list Z :=
  JS.sortBy JS.ascending (map minuteOfDay recent).

Definition dayOfWeekOn (recent : list Episode) (suggestions : list Finding)
  : list Finding :=
  if JS.len recent =? 0 then suggestions
  else
    let weekdayCounts : IdxObj Z :=
      fold_left
        (fun counts ep =>
           let day := JS.getDay tz (timeValue ep) in
           idxSet counts day
             (match idxGet counts day with Some n => n | None => 0 end + 1))
        recent [] in
    let total := JS.len recent in
    let threshold := JS.ceilTwoFifths total in
    let maxEntry : option Z * Z :=
      fold_left (fun max entry => if snd max <? snd entry
                                  then (Some (fst entry), snd entry) else max)
                (idxEntries weekdayCounts) (None, 0) in
    let day := fst maxEntry in
    let count := snd maxEntry in
    if threshold <=? count then
      push suggestions
        {| title := "Day‑of‑week cluster";
           message := "About "
             ++ JS.showRounded (PrimFloat.mul
                  (PrimFloat.div (JS.ofZ count) (JS.ofZ total)) (JS.ofZ 100))
             ++ "% of your episodes happen on "
             ++ match day with
                | Some d => nth (Z.to_nat d) weekdays "undefined"
                | None => "undefined"
                end
             ++ ". Reflect on factors specific to that day." |}
    else suggestions.

(** The grouping key of the rising-intensity rule. *)
Definition weekKey (ep : Episode) : Z :=
  let d := timeValue ep in
  let first := JS.newDateJan1 tz (JS.getFullYear tz d) in
  let dayOffset := (JS.getDay tz d + 6) mod 7 in
  let dayOfYear := (d - first) / (24 * 60 * 60 * 1000) + 1 in
  JS.ceilDiv (dayOfYear - dayOffset) 7.

(** The buckets of the two mean-intensity rules, by [keyFn] (the hour, the
    weekday), and their means. *)
Definition bucketsBy (keyFn : Z -> Z) (recent : list Episode) : IdxObj Bucket :=
  fold_left
    (fun buckets ep =>
       let k := keyFn (timeValue ep) in
       let b := match idxGet buckets k with
                | Some b => b
                | None => {| sum := 0%float; count := 0 |}
                end in
       idxSet buckets k
         {| sum := PrimFloat.add (sum b) (JS.numberOrZero (intensity ep));
            count := count b + 1 |})
    recent [].

Definition meansOf (buckets : IdxObj Bucket) : list Mean :=
  map (fun e => {| key := fst e;
                   avg := PrimFloat.div (sum (snd e)) (JS.ofZ (count (snd e)));
                   samples := count (snd e) |})
      (idxEntries buckets).

Definition averageIntensityByHourOn (recent : list Episode)
    (suggestions : list Finding) : list Finding :=
  if JS.len recent =? 0 then suggestions
  else
    match meansOf (bucketsBy (JS.getHours tz) recent) with
    | [] => suggestions
    | first :: _ as averages =>
        let maxEntry := highest averages first in
        if PrimFloat.leb 6%float (avg maxEntry) && (3 <=? samples maxEntry) then
          push suggestions
            {| title := "Peak intensity hour";
               message := "Episodes logged around " ++ pad (key maxEntry)
                 ++ ":00 tend to be more intense. Planning rest or adjustments then might help." |}
        else suggestions
    end.

Definition averageIntensityByWeekdayOn (recent : list Episode)
    (suggestions : list Finding) : list Finding :=
  if JS.len recent =? 0 then suggestions
  else
    match meansOf (bucketsBy (JS.getDay tz) recent) with
    | [] => suggestions
    | first :: _ as avgs =>
        let top := highest avgs first in
        if PrimFloat.leb 6%float (avg top) && (3 <=? samples top) then
          push suggestions
            {| title := "Toughest day";
               message := "Your migraines tend to be most intense on "
                 ++ nth (Z.to_nat (key top)) weekdays "undefined"
                 ++ ". Consider easing your schedule on those days." |}
        else suggestions
    end.

(** *** On the episode list *)

Section OnList.

Variable episodes : list Episode.

Definition inLastDays (days : Z) : list Episode :=
  filter (inWindow days) episodes.

Definition topTriggersRule (suggestions : list Finding) : list Finding :=
  let recent := inLastDays 30 in
  topTriggersOn recent suggestions.

Definition timeOfDayRule (suggestions : list Finding) : list Finding :=
  let recent := inLastDays 30 in
  if JS.len recent =? 0 then suggestions
  else
    let minutes := minutesOf recent in
    timeOfDayOn minutes suggestions.

Definition dayOfWeekRule (suggestions : list Finding) : list Finding :=
  let recent := inLastDays 30 in
  dayOfWeekOn recent suggestions.

Definition risingIntensityRule (suggestions : list Finding)
  : Completion (list Finding) :=
  let sixWeeks := inLastDays 42 in
  if JS.len sixWeeks <? 3 then Normal suggestions
  else
    let weekGroups := groupBy sixWeeks weekKey in
    let weekNumbers := JS.sortBy JS.ascending (map fst (idxEntries weekGroups)) in
    risingIntensityOn weekGroups weekNumbers suggestions.

Definition medicationOveruseRule (suggestions : list Finding) : list Finding :=
  let recent := inLastDays 30 in
  medicationOveruseOn recent suggestions.

Definition averageIntensityByHourRule (suggestions : list Finding) : list Finding :=
  let recent := inLastDays 30 in
  averageIntensityByHourOn recent suggestions.

Definition averageIntensityByWeekdayRule (suggestions : list Finding) : list Finding :=
  let recent := inLastDays 30 in
  averageIntensityByWeekdayOn recent suggestions.

Definition streakRule (suggestions : list Finding) : list Finding :=
  let sortedEpisodes := JS.sortBy newestFirst episodes in
  let streak := computeStreak tz sortedEpisodes in
  streakOn streak suggestions.

(** The two windows of the weekly-change rule. *)
Definition lastWeek : list Episode := inLastDays 7.
Definition prevWeek : list Episode := filter inPrevWeek episodes.

Definition weeklyChangeRule (suggestions : list Finding) : list Finding :=
  weeklyChangeOn lastWeek prevWeek suggestions.

Definition analysePatterns : Completion (list Finding) :=
  let suggestions := [] in
  if JS.len episodes =? 0 then Normal suggestions
  else
    andThen
      (risingIntensityRule
         (dayOfWeekRule (timeOfDayRule (topTriggersRule suggestions))))
      (fun suggestions =>
         Normal
           (weeklyChangeRule
              (streakRule
                 (averageIntensityByWeekdayRule
                    (averageIntensityByHourRule
                       (medicationOveruseRule suggestions)))))).

End OnList.

(** *** On the store *)

Section OnStore.

Import Store.
Local Open Scope store_scope.

Variable episodes : loc.           (* the caller's array *)

Definition inLastDaysM (days : Z) : M loc := filterE episodes (inWindow days).

(** [computeStreak(eps)] for the array at [eps]. *)
Definition computeStreakM (eps : loc) : M Z :=
  l <- episodesAt eps ;;
  if JS.len l =? 0 then ret 0
  else
    m <- mapES eps dayString ;;
    days <- stringsAt m ;;
    d <- alloc (Strings (JS.setOf days)) ;;
    sortS d (latestFirst tz) ;;;
    dateStrings <- stringsAt d ;;
    ret (streakWalk tz dateStrings 1).

Definition topTriggersRuleM (suggestions : list Finding) : M (list Finding) :=
  r <- inLastDaysM 30 ;;
  recent <- episodesAt r ;;
  ret (topTriggersOn recent suggestions).

Definition timeOfDayRuleM (suggestions : list Finding) : M (list Finding) :=
  r <- inLastDaysM 30 ;;
  recent <- episodesAt r ;;
  if JS.len recent =? 0 then ret suggestions
  else
    m <- mapEN r minuteOfDay ;;
    sortN m JS.ascending ;;;
    minutes <- numbersAt m ;;
    ret (timeOfDayOn minutes suggestions).

Definition dayOfWeekRuleM (suggestions : list Finding) : M (list Finding) :=
  r <- inLastDaysM 30 ;;
  recent <- episodesAt r ;;
  ret (dayOfWeekOn recent suggestions).

Definition risingIntensityRuleM (suggestions : list Finding)
  : M (Completion (list Finding)) :=
  r <- inLastDaysM 42 ;;
  sixWeeks <- episodesAt r ;;
  if JS.len sixWeeks <? 3 then ret (Normal suggestions)
  else
    let weekGroups := groupBy sixWeeks weekKey in
    k <- alloc (Numbers (map fst (idxEntries weekGroups))) ;;
    sortN k JS.ascending ;;;
    weekNumbers <- numbersAt k ;;
    ret (risingIntensityOn weekGroups weekNumbers suggestions).

Definition medicationOveruseRuleM (suggestions : list Finding) : M (list Finding) :=
  r <- inLastDaysM 30 ;;
  recent <- episodesAt r ;;
  ret (medicationOveruseOn recent suggestions).

Definition averageIntensityByHourRuleM (suggestions : list Finding)
  : M (list Finding) :=
  r <- inLastDaysM 30 ;;
  recent <- episodesAt r ;;
  ret (averageIntensityByHourOn recent suggestions).

Definition averageIntensityByWeekdayRuleM (suggestions : list Finding)
  : M (list Finding) :=
  r <- inLastDaysM 30 ;;
  recent <- episodesAt r ;;
  ret (averageIntensityByWeekdayOn recent suggestions).

Definition streakRuleM (suggestions : list Finding) : M (list Finding) :=
  sortedEpisodes <- sliceE episodes ;;
  sortE sortedEpisodes newestFirst ;;;
  streak <- computeStreakM sortedEpisodes ;;
  ret (streakOn streak suggestions).

Definition weeklyChangeRuleM (suggestions : list Finding) : M (list Finding) :=
  l <- inLastDaysM 7 ;;
  p <- filterE episodes inPrevWeek ;;
  lastWeek <- episodesAt l ;;
  prevWeek <- episodesAt p ;;
  ret (weeklyChangeOn lastWeek prevWeek suggestions).

Definition analysePatternsM : M (Completion (list Finding)) :=
  let suggestions := [] in
  input <- episodesAt episodes ;;
  if JS.len input =? 0 then ret (Normal suggestions)
  else
    s1 <- topTriggersRuleM suggestions ;;
    s2 <- timeOfDayRuleM s1 ;;
    s3 <- dayOfWeekRuleM s2 ;;
    c4 <- risingIntensityRuleM s3 ;;
    match c4 with
    | Throw e => ret (Throw e)
    | Normal s4 =>
        s5 <- medicationOveruseRuleM s4 ;;
        s6 <- averageIntensityByHourRuleM s5 ;;
        s7 <- averageIntensityByWeekdayRuleM s6 ;;
        s8 <- streakRuleM s7 ;;
        s9 <- weeklyChangeRuleM s8 ;;
        ret (Normal s9)
    end.

End OnStore.

End Engine.

End Extended.

(** * Properties *)

(** ** The runtime *)

Module JSFacts.
Import JS.

(** [setDate] to the current date less [days] moves the local time value
    back by that many whole days, and the result is read in the zone: the
    clock time is kept, the calendar day changes. *)
Lemma setDate_back (tz : Zone) (t days : Z) :
  setDate tz t (getDate tz t - days) = UTC tz (LocalTime tz t - days * msPerDay).
Proof.
  unfold setDate, MakeDayInMonthOf, getDate, TimeWithinDay, Day.
  set (l := LocalTime tz t).
  set (d := DateFromTime l).
  f_equal.
  replace (l / msPerDay - (d - 1) + (d - days) - 1) with (l / msPerDay - days) by ring.
  pose proof (Z.div_mod l msPerDay) as E.
  assert (msPerDay <> 0) as NZ by (unfold msPerDay; lia).
  specialize (E NZ). nia.
Qed.

(** *** Substrings *)

Lemma append_assoc (a b c : string) : (a ++ b) ++ c = a ++ b ++ c.
Proof. induction a as [|x a IH]; simpl; [reflexivity | rewrite IH; reflexivity]. Qed.

Lemma prefix_app (s q : string) : prefix s (s ++ q) = true.
Proof.
  induction s as [|c s IH]; simpl.
  - destruct q; reflexivity.
  - destruct (ascii_dec c c) as [_|N]; [exact IH | congruence].
Qed.

Lemma includes_here (s q : string) : includes (s ++ q) s = true.
Proof.
  destruct s as [|c s]; simpl.
  - destruct q; reflexivity.
  - destruct (ascii_dec c c) as [_|N]; [| congruence].
    rewrite prefix_app. reflexivity.
Qed.

Lemma includes_later (p t s : string) :
  includes t s = true -> includes (p ++ t) s = true.
Proof.
  intros H. induction p as [|c p IH]; simpl; [exact H |].
  rewrite IH. apply orb_true_r.
Qed.

Lemma includes_mid (p s q : string) : includes (p ++ s ++ q) s = true.
Proof. apply includes_later, includes_here. Qed.

End JSFacts.

(** Messages are built by nested appends; [found] finds a fragment in one. *)
Ltac found :=
  lazymatch goal with
  | |- JS.includes (?s ++ _) ?s = true => apply JSFacts.includes_here
  | |- JS.includes (_ ++ ?s ++ _) ?s = true => apply JSFacts.includes_mid
  | |- JS.includes (_ ++ _) _ = true => apply JSFacts.includes_later; found
  end.

(** ** Days before now *)

(** The instant [days] calendar days before [now] at which the clocks of
    the zone show the time they show at [now]: the local time value of
    [now], less [days] whole days, read in the zone.  Where the offset of
    the zone is the same at both ends this is [days] times 24 hours before
    [now]; across a daylight saving transition it is an hour more or
    less. *)
Definition daysBefore (tz : JS.Zone) (now days : Z) : Z :=
  JS.UTC tz (JS.LocalTime tz now - days * JS.msPerDay).

(** New York in 2024: five hours west of UTC, four between 10 March,
    07:00 UTC and 3 November, 06:00 UTC.  On the local clock the first
    transition skips the hour from 02:00, the second repeats the hour from
    01:00. *)
Definition newYorkOffset (inDaylightTime : bool) : Z :=
  if inDaylightTime then -4 * JS.msPerHour else -5 * JS.msPerHour.

Lemma newYork_read_back (t : Z) :
  newYorkOffset ((1710054000000 <=? t) && (t <? 1730613600000))
  <= newYorkOffset
       ((1710039600000 <=? t + newYorkOffset ((1710054000000 <=? t) && (t <? 1730613600000)))
        && (t + newYorkOffset ((1710054000000 <=? t) && (t <? 1730613600000))
            <? 1730599200000)).
Proof.
  unfold newYorkOffset, JS.msPerHour.
  destruct (1710054000000 <=? t) eqn:A, (t <? 1730613600000) eqn:B; cbn [andb];
    match goal with
    | |- _ <= (if (?a <=? ?b) && (?c <? ?d) then _ else _) =>
        destruct (a <=? b) eqn:C, (c <? d) eqn:D
    end; cbn [andb]; lia.
Qed.

Lemma newYork_days_in_order (x y : Z) :
  y + JS.msPerDay <= x ->
  y - newYorkOffset ((1710039600000 <=? y) && (y <? 1730599200000))
  <= x - newYorkOffset ((1710039600000 <=? x) && (x <? 1730599200000)).
Proof.
  unfold newYorkOffset, JS.msPerHour, JS.msPerDay.
  destruct ((1710039600000 <=? y) && (y <? 1730599200000)),
           ((1710039600000 <=? x) && (x <? 1730599200000)); lia.
Qed.

Definition newYork2024 : JS.Zone :=
  {| JS.offsetAt :=
       fun t => newYorkOffset ((1710054000000 <=? t) && (t <? 1730613600000));
     JS.offsetOfLocal :=
       fun l => newYorkOffset ((1710039600000 <=? l) && (l <? 1730599200000));
     JS.read_back := newYork_read_back;
     JS.days_in_order := newYork_days_in_order |}.

Section DaysBefore.

Variables (tz : JS.Zone) (now : Z).

Lemma daysBefore_mono (d1 d2 : Z) :
  d1 <= d2 -> daysBefore tz now d2 <= daysBefore tz now d1.
Proof.
  intros D. unfold daysBefore, JS.UTC.
  destruct (Z.eq_dec d1 d2) as [-> | NE]; [lia |].
  apply JS.days_in_order. unfold JS.msPerDay. lia.
Qed.

Lemma daysBefore_today : daysBefore tz now 0 <= now.
Proof.
  unfold daysBefore, JS.UTC, JS.LocalTime.
  replace (now + JS.offsetAt tz now - 0 * JS.msPerDay) with (now + JS.offsetAt tz now)
    by ring.
  pose proof (JS.read_back tz now). lia.
Qed.

Lemma daysBefore_past (days : Z) : 0 <= days -> daysBefore tz now days <= now.
Proof.
  intros D. pose proof (daysBefore_mono 0 days D). pose proof daysBefore_today. lia.
Qed.

Lemma daysBefore_same_offset (days : Z) :
  JS.offsetOfLocal tz (JS.LocalTime tz now - days * JS.msPerDay) = JS.offsetAt tz now ->
  daysBefore tz now days = now - days * JS.msPerDay.
Proof.
  intros E. unfold daysBefore, JS.UTC. rewrite E. unfold JS.LocalTime. ring.
Qed.

End DaysBefore.

(** In a zone that keeps its offset the days are of 24 hours. *)
Lemma daysBefore_fixed (minutes now days : Z) :
  daysBefore (JS.fixed minutes) now days = now - days * JS.msPerDay.
Proof. apply daysBefore_same_offset. reflexivity. Qed.

(** Across the start of daylight saving time they are not: at 12:00 in New
    York on 12 March 2024, seven days before is 12:00 on 5 March, which is
    an hour later than seven times 24 hours before. *)
Example daysBefore_across_transition :
  daysBefore newYork2024 1710259200000 7 = 1709658000000
  /\ 1710259200000 - 7 * JS.msPerDay = 1709654400000.
Proof. split; vm_compute; reflexivity. Qed.

(** ** The window helper *)

Section Windows.

Variables (tz : JS.Zone) (now : Z) (episodes : list Episode).

Lemma basic_cutoff (days : Z) :
  Basic.cutoffDate tz now days = daysBefore tz now days.
Proof. apply JSFacts.setDate_back. Qed.

Lemma extended_cutoff (days : Z) :
  Extended.cutoffDate tz now days = daysBefore tz now days.
Proof. apply JSFacts.setDate_back. Qed.

Lemma dateGe_spec (d : option Z) (c : Z) :
  JS.dateGe d c = true <-> exists t, d = Some t /\ c <= t.
Proof.
  destruct d as [t|]; simpl.
  - rewrite Z.leb_le. split.
    + intros H. exists t. auto.
    + intros (t' & E & H). injection E as ->. exact H.
  - split; [discriminate | intros (t & E & _); discriminate].
Qed.

Lemma dateLt_spec (d : option Z) (c : Z) :
  JS.dateLt d c = true <-> exists t, d = Some t /\ t < c.
Proof.
  destruct d as [t|]; simpl.
  - rewrite Z.ltb_lt. split.
    + intros H. exists t. auto.
    + intros (t' & E & H). injection E as ->. exact H.
  - split; [discriminate | intros (t & E & _); discriminate].
Qed.

Lemma extended_inLastDays_basic (days : Z) :
  Extended.inLastDays tz now episodes days = Basic.inLastDays tz now episodes days.
Proof. reflexivity. Qed.

Lemma in_inLastDays (days : Z) (ep : Episode) :
  In ep (Basic.inLastDays tz now episodes days)
  <-> In ep episodes
      /\ exists t, Basic.when tz ep = Some t /\ daysBefore tz now days <= t.
Proof.
  unfold Basic.inLastDays, Basic.inWindow.
  rewrite filter_In, dateGe_spec, basic_cutoff. reflexivity.
Qed.

(** Every episode of a window has a valid date. *)
Lemma inLastDays_valid (days : Z) (ep : Episode) :
  In ep (Basic.inLastDays tz now episodes days) ->
  exists t, Basic.when tz ep = Some t.
Proof.
  rewrite in_inLastDays. intros (_ & t & E & _). exists t. exact E.
Qed.

End Windows.

(** An episode logged for a moment that is still to come. *)
Definition episodeAt (dt : string) : Episode :=
  {| id := "e"; datetime := dt; intensity := Some 5%float;
     durationMinutes := 30; triggers := Some []; medications := Some [];
     notes := None |}.

(** C1, at a concrete input: at 2023-11-14T22:13:20Z an episode dated
    2023-12-25T08:00Z, which is after [now], is in the 30-day window of
    both variants; the window has no upper bound. *)
Lemma inLastDays_keeps_future_episode :
  let now := 1700000000000 in
  let future := episodeAt "2023-12-25T08:00:00.000Z" in
  Basic.when 0 future = Some 1703491200000
  /\ now < 1703491200000
  /\ In future (Basic.inLastDays 0 now [future] 30)
  /\ In future (Extended.inLastDays 0 now [future] 30).
Proof.
  cbv zeta.
  assert (Basic.when 0 (episodeAt "2023-12-25T08:00:00.000Z") = Some 1703491200000)
    as W by (vm_compute; reflexivity).
  assert (In (episodeAt "2023-12-25T08:00:00.000Z")
             (Basic.inLastDays 0 1700000000000
                [episodeAt "2023-12-25T08:00:00.000Z"] 30)) as I.
  { vm_compute. left. reflexivity. }
  split; [exact W |]. split; [reflexivity |]. split; [exact I |].
  rewrite extended_inLastDays_basic. exact I.
Qed.

(** C1, as amended: in both variants [inLastDays(days)] keeps, in their
    order, exactly the episodes whose date is valid and not before the
    cutoff, which is [now] moved back by [days] calendar days at the same
    local clock time (what [setDate] does); there is no upper bound, so an
    episode dated after [now] is kept.  Where the offset of the zone is the
    same at both ends the cutoff is [days] times 24 hours before [now]. *)
Theorem inLastDays_lower_bound_only (tz : JS.Zone) (now days : Z)
    (episodes : list Episode) :
  let cutoff := daysBefore tz now days in
  Basic.inLastDays tz now episodes days
  = filter (fun ep => match Basic.when tz ep with
                      | Some t => cutoff <=? t
                      | None => false
                      end) episodes
  /\ Extended.inLastDays tz now episodes days
     = Basic.inLastDays tz now episodes days
  /\ (forall ep,
        In ep (Basic.inLastDays tz now episodes days)
        <-> In ep episodes
            /\ exists t, Basic.when tz ep = Some t /\ cutoff <= t)
  /\ (forall ep t,
        In ep episodes -> Basic.when tz ep = Some t -> now < t -> 0 <= days ->
        In ep (Basic.inLastDays tz now episodes days))
  /\ (JS.offsetOfLocal tz (JS.LocalTime tz now - days * JS.msPerDay)
      = JS.offsetAt tz now ->
      cutoff = now - days * JS.msPerDay).
Proof.
  cbv zeta. split; [| split; [| split; [| split]]].
  - unfold Basic.inLastDays, Basic.inWindow, JS.dateGe.
    rewrite basic_cutoff. reflexivity.
  - reflexivity.
  - intros ep. apply in_inLastDays.
  - intros ep t I E L D. apply in_inLastDays. split; [exact I |].
    exists t. split; [exact E |].
    pose proof (daysBefore_past tz now days D). lia.
  - apply daysBefore_same_offset.
Qed.

(** ** The weekly-change rule (extended variant) *)

Section WeeklyChange.

Variables (tz : JS.Zone) (now : Z) (episodes : list Episode).

Lemma in_lastWeek (ep : Episode) :
  In ep (Extended.lastWeek tz now episodes)
  <-> In ep episodes
      /\ exists t, Extended.when tz ep = Some t /\ daysBefore tz now 7 <= t.
Proof. exact (in_inLastDays tz now episodes 7 ep). Qed.

Lemma in_prevWeek (ep : Episode) :
  In ep (Extended.prevWeek tz now episodes)
  <-> In ep episodes
      /\ exists t, Extended.when tz ep = Some t
                   /\ daysBefore tz now 14 <= t < daysBefore tz now 7.
Proof.
  unfold Extended.prevWeek, Extended.inPrevWeek. cbv zeta.
  rewrite filter_In, andb_true_iff, dateGe_spec, dateLt_spec, !extended_cutoff.
  split.
  - intros (I & (t & E & L) & (t' & E' & U)).
    split; [exact I |]. exists t. rewrite E in E'. injection E' as <-. auto.
  - intros (I & t & E & L & U). split; [exact I |]. split; exists t; auto.
Qed.

End WeeklyChange.

(** C9.  The two windows of the weekly-change rule are disjoint: no episode
    is in both the last week ([datetime >= now - 7 days]) and the week
    before ([now - 14 days <= datetime < now - 7 days]); an episode dated
    exactly at the boundary, the cutoff seven days before [now], is in the
    last week and not in the week before.  The boundary is [now] moved
    back by seven calendar days at the same local clock time. *)
Theorem weekly_windows_disjoint (tz : JS.Zone) (now : Z) (episodes : list Episode) :
  (forall ep,
     ~ (In ep (Extended.lastWeek tz now episodes)
        /\ In ep (Extended.prevWeek tz now episodes)))
  /\ (forall ep,
        In ep episodes ->
        Extended.when tz ep = Some (Extended.cutoffDate tz now 7) ->
        In ep (Extended.lastWeek tz now episodes)
        /\ ~ In ep (Extended.prevWeek tz now episodes))
  /\ Extended.cutoffDate tz now 7 = daysBefore tz now 7.
Proof.
  split; [| split].
  - intros ep (L & P).
    apply in_lastWeek in L. apply in_prevWeek in P.
    destruct L as (_ & t & E & Lo). destruct P as (_ & t' & E' & _ & Hi).
    rewrite E in E'. injection E' as <-. lia.
  - intros ep I E. rewrite extended_cutoff in E. split.
    + apply in_lastWeek. split; [exact I |]. exists (daysBefore tz now 7).
      split; [exact E | lia].
    + intros P. apply in_prevWeek in P. destruct P as (_ & t & E' & _ & Hi).
      rewrite E in E'. injection E' as <-. lia.
  - apply extended_cutoff.
Qed.

(** The boundary case of C9 at a concrete input, across the start of
    daylight saving time: at 12:00 in New York on 12 March 2024
    (16:00 UTC) the boundary is 12:00 on 5 March (17:00 UTC), and an
    episode dated then is in the last week and not in the week before. *)
Lemma weekly_windows_disjoint_witness :
  let now := 1710259200000 in
  let ep := episodeAt "2024-03-05T17:00:00.000Z" in
  Extended.when newYork2024 ep = Some (Extended.cutoffDate newYork2024 now 7)
  /\ In ep (Extended.lastWeek newYork2024 now [ep])
  /\ ~ In ep (Extended.prevWeek newYork2024 now [ep]).
Proof.
  cbv zeta.
  assert (Extended.when newYork2024 (episodeAt "2024-03-05T17:00:00.000Z")
          = Some (Extended.cutoffDate newYork2024 1710259200000 7)) as E
    by (vm_compute; reflexivity).
  split; [exact E |].
  apply (proj1 (proj2 (weekly_windows_disjoint newYork2024 1710259200000
                         [episodeAt "2024-03-05T17:00:00.000Z"]))).
  - simpl. left. reflexivity.
  - exact E.
Defined.

(** An hour earlier, seven times 24 hours before [now], an episode is
    before the boundary: it is in the week before and not in the last
    week. *)
Example seven_times_24_hours_is_before_the_boundary :
  let now := 1710259200000 in
  let ep := episodeAt "2024-03-05T16:00:00.000Z" in
  Extended.when newYork2024 ep = Some (now - 7 * JS.msPerDay)
  /\ Extended.lastWeek newYork2024 now [ep] = []
  /\ Extended.prevWeek newYork2024 now [ep] = [ep].
Proof. cbv zeta. repeat split; vm_compute; reflexivity. Qed.

Lemma singleton_inj {A} (a b : A) : [a] = [b] -> a = b.
Proof. congruence. Qed.

(** The number of episodes whose date is valid and passes a test. *)
Fixpoint countDated (tz : JS.Zone) (test : Z -> bool) (episodes : list Episode) : Z :=
  match episodes with
  | [] => 0
  | ep :: rest =>
      (match JS.parseDate tz (datetime ep) with
       | Some t => if test t then 1 else 0
       | None => 0
       end) + countDated tz test rest
  end.

Lemma countDated_filter (tz : JS.Zone) (test : Z -> bool) (p : Episode -> bool)
    (episodes : list Episode) :
  (forall ep, p ep = match JS.parseDate tz (datetime ep) with
                     | Some t => test t
                     | None => false
                     end) ->
  JS.len (filter p episodes) = countDated tz test episodes.
Proof.
  intros P. unfold JS.len.
  induction episodes as [|ep rest IH]; [reflexivity |].
  cbn [filter countDated]. rewrite (P ep), <- IH.
  destruct (JS.parseDate tz (datetime ep)) as [t|]; [destruct (test t) |];
    cbn [List.length]; lia.
Qed.

(** The two counts of the weekly-change rule. *)
Lemma lastWeek_count (tz : JS.Zone) (now : Z) (episodes : list Episode) :
  JS.len (Extended.lastWeek tz now episodes)
  = countDated tz (fun t => daysBefore tz now 7 <=? t) episodes.
Proof.
  apply countDated_filter. intros ep.
  unfold Extended.inWindow, JS.dateGe, Extended.when.
  rewrite extended_cutoff. reflexivity.
Qed.

Lemma prevWeek_count (tz : JS.Zone) (now : Z) (episodes : list Episode) :
  JS.len (Extended.prevWeek tz now episodes)
  = countDated tz (fun t => (daysBefore tz now 14 <=? t) && (t <? daysBefore tz now 7))
               episodes.
Proof.
  apply countDated_filter. intros ep.
  unfold Extended.inPrevWeek, JS.dateGe, JS.dateLt, Extended.when. cbv zeta.
  rewrite !extended_cutoff.
  destruct (JS.parseDate tz (datetime ep)); reflexivity.
Qed.

(** C8, at a concrete input (the clock reads 2023-11-14T22:13:20Z, the
    zone is UTC).  One episode is dated in the seven days up to [now], one
    in the seven days before those, and one on 25 December, after [now]:
    the counts of the last seven days and of the prior seven days are both
    1, for which the claim has no finding, yet the rule reports an increase
    from 1 to 2, because it counts the episode that is still to come with
    the last week. *)
Lemma weeklyChange_counts_episodes_to_come :
  let now := 1700000000000 in
  let eps := [ episodeAt "2023-11-05T12:00:00.000Z";
               episodeAt "2023-11-10T12:00:00.000Z";
               episodeAt "2023-12-25T08:00:00.000Z" ] in
  countDated 0 (fun t => (now - 7 * JS.msPerDay <=? t) && (t <=? now)) eps = 1
  /\ countDated 0 (fun t => (now - 14 * JS.msPerDay <=? t)
                            && (t <? now - 7 * JS.msPerDay)) eps = 1
  /\ exists f, Extended.weeklyChangeRule 0 now eps [] = [f]
               /\ title f = "Increased frequency"
               /\ JS.includes (message f)
                    "You logged 2 episodes in the last week, up from 1 the week before."
                  = true.
Proof.
  cbv zeta.
  split; [vm_compute; reflexivity |].
  split; [vm_compute; reflexivity |].
  eexists. split; [vm_compute; reflexivity |].
  split; vm_compute; reflexivity.
Qed.

(** C8, as amended.  The last-week count is the number of episodes with a
    valid date at or after the cutoff seven days before [now], with no
    upper bound, so that an episode dated after [now] is counted; the
    prior count is the number of those dated from the cutoff fourteen days
    before [now] on and before the cutoff seven days before [now].  The
    rule pushes nothing when the prior count is zero or the two counts are
    equal; with a positive prior count it pushes exactly one finding,
    "Increased frequency" when the last-week count is larger and
    "Decreased frequency" when it is smaller, and the message of either
    shows both counts. *)
Theorem weeklyChangeRule_cases (tz : JS.Zone) (now : Z) (episodes : list Episode)
    (suggestions : list Finding) :
  let sevenAgo := daysBefore tz now 7 in
  let fourteenAgo := daysBefore tz now 14 in
  let lastCount := countDated tz (fun t => sevenAgo <=? t) episodes in
  let prevCount :=
    countDated tz (fun t => (fourteenAgo <=? t) && (t <? sevenAgo)) episodes in
  let after := Extended.weeklyChangeRule tz now episodes suggestions in
  (prevCount = 0 -> after = suggestions)
  /\ (lastCount = prevCount -> after = suggestions)
  /\ (0 < prevCount -> prevCount < lastCount ->
      after
      = push suggestions
          {| title := "Increased frequency";
             message := "You logged " ++ JS.showZ lastCount
               ++ " episodes in the last week, up from " ++ JS.showZ prevCount
               ++ " the week before. Watch for triggers and consider adjustments." |})
  /\ (0 < prevCount -> lastCount < prevCount ->
      after
      = push suggestions
          {| title := "Decreased frequency";
             message := "Nice progress! You've logged fewer episodes this week ("
               ++ JS.showZ lastCount ++ ") than the previous week ("
               ++ JS.showZ prevCount ++ "). Keep it up!" |})
  /\ (forall f, after = push suggestions f ->
        JS.includes (message f) (JS.showZ lastCount) = true
        /\ JS.includes (message f) (JS.showZ prevCount) = true).
Proof.
  cbv zeta. unfold Extended.weeklyChangeRule, Extended.weeklyChangeOn. cbv zeta.
  rewrite lastWeek_count, prevWeek_count.
  set (l := countDated tz (fun t => daysBefore tz now 7 <=? t) episodes).
  set (p := countDated tz _ episodes).
  split; [| split; [| split; [| split]]].
  - intros E. rewrite E. reflexivity.
  - intros E. rewrite E, !Z.ltb_irrefl, !andb_false_r. reflexivity.
  - intros P L.
    apply Z.ltb_lt in P as P'. apply Z.ltb_lt in L as L'. rewrite P', L'.
    reflexivity.
  - intros P L.
    apply Z.ltb_lt in P as P'. apply Z.ltb_lt in L as L'.
    assert ((p <? l) = false) as N by (apply Z.ltb_ge; lia).
    rewrite P', L', N. reflexivity.
  - intros f.
    destruct ((0 <? p) && (p <? l)); [| destruct ((0 <? p) && (l <? p))].
    + intros E. apply app_inv_head, singleton_inj in E. subst f.
      split; cbn [message]; found.
    + intros E. apply app_inv_head, singleton_inj in E. subst f.
      split; cbn [message]; found.
    + intros E. exfalso. unfold push in E.
      apply (f_equal (@List.length Finding)) in E.
      rewrite length_app in E. simpl in E. lia.
Qed.

(** ** Sets of strings *)

Section Sets.

Lemma setHas_In (l : list string) (x : string) : JS.setHas l x = true <-> In x l.
Proof.
  unfold JS.setHas. rewrite existsb_exists. split.
  - intros (y & I & E). apply String.eqb_eq in E. subst. exact I.
  - intros I. exists x. split; [exact I | apply String.eqb_refl].
Qed.

Lemma setAdd_In (l : list string) (x y : string) :
  In y (JS.setAdd l x) <-> In y l \/ y = x.
Proof.
  unfold JS.setAdd. destruct (JS.setHas l x) eqn:H.
  - apply setHas_In in H. split; [auto | intros [I | ->]; assumption].
  - rewrite in_app_iff. simpl. intuition congruence.
Qed.

Lemma setAdd_NoDup (l : list string) (x : string) :
  NoDup l -> NoDup (JS.setAdd l x).
Proof.
  intros N. unfold JS.setAdd. destruct (JS.setHas l x) eqn:H; [exact N |].
  assert (~ In x l) as NI by (rewrite <- setHas_In, H; discriminate).
  clear H. induction N as [|a l NA N IH]; simpl.
  - constructor; [intros [] | constructor].
  - constructor.
    + rewrite in_app_iff. simpl in *. intuition.
    + apply IH. simpl in NI. tauto.
Qed.

(** A [forEach] that adds the key of every element passing a test. *)
Variable A : Type.
Variables (test : A -> bool) (keyOf : A -> string).

Definition collect (acc : list string) (l : list A) : list string :=
  fold_left (fun days x => if test x then JS.setAdd days (keyOf x) else days) l acc.

Lemma collect_In (l : list A) (acc : list string) (d : string) :
  In d (collect acc l)
  <-> In d acc \/ exists x, In x l /\ test x = true /\ keyOf x = d.
Proof.
  revert acc. induction l as [|a l IH]; intros acc; simpl.
  - split; [auto | intros [I | (x & [] & _)]; exact I].
  - unfold collect in *. simpl. rewrite IH. destruct (test a) eqn:T.
    + rewrite setAdd_In. split.
      * intros [[I | ->] | (x & I & Tx & K)]; eauto 7.
      * intros [I | (x & [-> | I] & Tx & K)]; eauto 7.
    + split.
      * intros [I | (x & I & Tx & K)]; eauto 7.
      * intros [I | (x & [-> | I] & Tx & K)]; eauto 7. congruence.
Qed.

Lemma collect_NoDup (l : list A) (acc : list string) :
  NoDup acc -> NoDup (collect acc l).
Proof.
  revert acc. induction l as [|a l IH]; intros acc N; simpl; [exact N |].
  unfold collect in *. simpl. apply IH.
  destruct (test a); [apply setAdd_NoDup |]; exact N.
Qed.

End Sets.

(** ** The medication rule *)

(** An episode has at least one medication entry. *)
Definition medicated (ep : Episode) : bool :=
  0 <? JS.len (orEmpty (medications ep)).

(** The day keys of the two variants: the UTC date of the instant
    ([toISOString]) in the basic one, the first ten characters of the
    stored string in the extended one. *)
Definition utcDayKey (tz : JS.Zone) (ep : Episode) : string :=
  JS.slice0 10 (JS.toISOString (Basic.timeValue tz ep)).
Definition storedDayKey (ep : Episode) : string :=
  JS.slice0 10 (datetime ep).

Section Medication.

Variables (tz : JS.Zone) (now : Z) (episodes : list Episode).

Lemma extended_medicationDays (recent : list Episode) :
  Extended.medicationDays recent = collect _ medicated storedDayKey [] recent.
Proof. reflexivity. Qed.

Lemma basic_medicationDays_from (recent : list Episode) (acc : list string) :
  (forall ep, In ep recent -> exists t, Basic.when tz ep = Some t) ->
  fold_left (fun acc ep => andThen acc (fun days => Basic.noteMedicationDay tz days ep))
            recent (Normal acc)
  = Normal (collect _ medicated (utcDayKey tz) acc recent).
Proof.
  revert acc. induction recent as [|ep recent IH]; intros acc V; [reflexivity |].
  simpl. unfold collect in *. simpl.
  destruct (V ep (or_introl eq_refl)) as (t & E).
  unfold Basic.noteMedicationDay at 2. fold (medicated ep).
  unfold utcDayKey at 2, Basic.timeValue. rewrite E.
  destruct (medicated ep); apply IH; intros e I; apply V; right; exact I.
Qed.

(** The [forEach] of the basic variant never meets an invalid date: the
    window filter has removed them. *)
Lemma basic_medicationDays :
  Basic.medicationDays tz (Basic.inLastDays tz now episodes 30)
  = Normal (collect _ medicated (utcDayKey tz) []
                    (Basic.inLastDays tz now episodes 30)).
Proof.
  apply basic_medicationDays_from. intros ep I.
  exact (inLastDays_valid tz now episodes 30 ep I).
Qed.

End Medication.

(** The number of distinct local calendar days of a list of episodes. *)
Definition localDay (tz : JS.Zone) (ep : Episode) : Z :=
  JS.Day (JS.LocalTime tz (Basic.timeValue tz ep)).
Definition distinctLocalDays (tz : JS.Zone) (eps : list Episode) : nat :=
  List.length (nodup Z.eq_dec (map (localDay tz) eps)).

Definition withMedication (dt : string) : Episode :=
  {| id := "m"; datetime := dt; intensity := Some 4%float;
     durationMinutes := 30; triggers := Some [];
     medications := Some [{| name := "painkiller"; doseMg := Some 50%float |}];
     notes := None |}.

(** Ten episodes of a user five hours west of UTC, stored as the
    application stores them ([toISOString]): one at 10:00 local time on
    5 November 2023 and one at 20:00 local time on each day from the 5th
    to the 13th, which in UTC is 01:00 of the next day. *)
Definition nineLocalDays : list Episode :=
  map withMedication
    [ "2023-11-05T15:00:00.000Z"; "2023-11-06T01:00:00.000Z";
      "2023-11-07T01:00:00.000Z"; "2023-11-08T01:00:00.000Z";
      "2023-11-09T01:00:00.000Z"; "2023-11-10T01:00:00.000Z";
      "2023-11-11T01:00:00.000Z"; "2023-11-12T01:00:00.000Z";
      "2023-11-13T01:00:00.000Z"; "2023-11-14T01:00:00.000Z" ].

(** C5, at a concrete input: the ten episodes above fall on nine local
    calendar days, all in the window and all with a medication entry, and
    both variants emit the finding, with a count of 10: the days they
    count are UTC dates. *)
Lemma medication_rule_counts_utc_days :
  let tz := JS.fixed (-300) in
  let now := 1700000000000 in
  distinctLocalDays tz nineLocalDays = 9%nat
  /\ Basic.inLastDays tz now nineLocalDays 30 = nineLocalDays
  /\ forallb medicated nineLocalDays = true
  /\ (exists f, Basic.medicationOveruseRule tz now nineLocalDays [] = Normal [f]
                /\ JS.includes (message f) "on 10 days" = true)
  /\ (exists f, Extended.medicationOveruseRule tz now nineLocalDays [] = [f]
                /\ JS.includes (message f) "on 10 days" = true).
Proof.
  cbv zeta.
  split; [vm_compute; reflexivity |].
  split; [vm_compute; reflexivity |].
  split; [vm_compute; reflexivity |].
  split; eexists; (split; [vm_compute; reflexivity | vm_compute; reflexivity]).
Qed.

(** C5, as amended.  In both variants the medication rule collects, over
    the episodes of the 30-day window that have at least one medication
    entry, the set of their day keys: the UTC date of the instant in the
    basic variant, the first ten characters of the stored date string in
    the extended one.  It pushes its finding exactly when that set has at
    least 10 members (with 9 it pushes nothing), and the message states the
    size of the set. *)
Theorem medicationOveruse_day_keys (tz : JS.Zone) (now : Z) (episodes : list Episode)
    (suggestions : list Finding) :
  (exists days,
      NoDup days
      /\ (forall d, In d days <->
            exists ep, In ep (Basic.inLastDays tz now episodes 30)
                       /\ medicated ep = true /\ utcDayKey tz ep = d)
      /\ (JS.len days < 10 ->
          Basic.medicationOveruseRule tz now episodes suggestions
          = Normal suggestions)
      /\ (10 <= JS.len days ->
          exists f, Basic.medicationOveruseRule tz now episodes suggestions
                    = Normal (push suggestions f)
                    /\ title f = "Medication use"
                    /\ JS.includes (message f) (JS.showZ (JS.len days)) = true))
  /\ (exists days,
      NoDup days
      /\ (forall d, In d days <->
            exists ep, In ep (Extended.inLastDays tz now episodes 30)
                       /\ medicated ep = true /\ storedDayKey ep = d)
      /\ (JS.len days < 10 ->
          Extended.medicationOveruseRule tz now episodes suggestions = suggestions)
      /\ (10 <= JS.len days ->
          exists f, Extended.medicationOveruseRule tz now episodes suggestions
                    = push suggestions f
                    /\ title f = "Medication usage"
                    /\ JS.includes (message f) (JS.showZ (JS.len days)) = true)).
Proof.
  split.
  - exists (collect _ medicated (utcDayKey tz) [] (Basic.inLastDays tz now episodes 30)).
    split; [apply collect_NoDup; constructor |].
    split.
    { intros d. rewrite collect_In. simpl. tauto. }
    unfold Basic.medicationOveruseRule, Basic.medicationOveruseOn. cbv zeta.
    rewrite basic_medicationDays. cbn [andThen].
    set (days := collect _ _ _ _ _).
    split.
    + intros L. apply Z.leb_gt in L. rewrite L. reflexivity.
    + intros L. apply Z.leb_le in L. rewrite L.
      eexists. split; [reflexivity |]. split; [reflexivity |].
      cbn [message]. found.
  - exists (collect _ medicated storedDayKey [] (Extended.inLastDays tz now episodes 30)).
    split; [apply collect_NoDup; constructor |].
    split.
    { intros d. rewrite collect_In. simpl. tauto. }
    unfold Extended.medicationOveruseRule, Extended.medicationOveruseOn. cbv zeta.
    change (Extended.medicationDays (Extended.inLastDays tz now episodes 30))
      with (collect _ medicated storedDayKey [] (Extended.inLastDays tz now episodes 30)).
    set (days := collect _ _ _ _ _).
    split.
    + intros L. apply Z.leb_gt in L. rewrite L. reflexivity.
    + intros L. apply Z.leb_le in L. rewrite L.
      eexists. split; [reflexivity |]. split; [reflexivity |].
      cbn [message]. found.
Qed.

(** ** Sorting *)

Section Sorting.

Context {A : Type}.
Variable cmp : A -> A -> option Z.

Lemma insertBy_perm (x : A) (l : list A) :
  Permutation (JS.insertBy cmp x l) (x :: l).
Proof.
  induction l as [|y l IH]; simpl; [reflexivity |].
  destruct (JS.positive (cmp x y)); [| reflexivity].
  rewrite IH. apply perm_swap.
Qed.

Lemma sortBy_perm (l : list A) : Permutation (JS.sortBy cmp l) l.
Proof.
  induction l as [|x l IH]; simpl; [reflexivity |].
  fold (JS.sortBy cmp l). rewrite insertBy_perm, IH. reflexivity.
Qed.

Lemma sortBy_In (l : list A) (x : A) : In x (JS.sortBy cmp l) <-> In x l.
Proof.
  split; apply Permutation_in; [| symmetry]; apply sortBy_perm.
Qed.

Lemma sortBy_length (l : list A) : List.length (JS.sortBy cmp l) = List.length l.
Proof. apply Permutation_length, sortBy_perm. Qed.

End Sorting.

(** ** Objects used as maps *)

Section Objects.

Context {V : Type}.

Lemma objGet_objSet (o : JS.Obj V) (k k' : string) (v : V) :
  JS.objGet (JS.objSet o k v) k'
  = if String.eqb k' k then Some v else JS.objGet o k'.
Proof.
  induction o as [|[k0 v0] o IH]; simpl.
  - reflexivity.
  - destruct (String.eqb k k0) eqn:E; simpl.
    + apply String.eqb_eq in E. subst k0.
      destruct (String.eqb k' k); reflexivity.
    + destruct (String.eqb k' k0) eqn:E'.
      * apply String.eqb_eq in E'. subst k0.
        rewrite String.eqb_sym in E. rewrite E. reflexivity.
      * exact IH.
Qed.

Lemma objSet_keys (o : JS.Obj V) (k : string) (v : V) :
  map fst (JS.objSet o k v)
  = if JS.setHas (map fst o) k then map fst o else (map fst o ++ [k])%list.
Proof.
  induction o as [|[k0 v0] o IH]; simpl; [reflexivity |].
  unfold JS.setHas in *. simpl.
  destruct (String.eqb k k0) eqn:E; simpl.
  - apply String.eqb_eq in E. subst. reflexivity.
  - rewrite IH. destruct (existsb (String.eqb k) (map fst o)); reflexivity.
Qed.

Lemma objSet_NoDup (o : JS.Obj V) (k : string) (v : V) :
  NoDup (map fst o) -> NoDup (map fst (JS.objSet o k v)).
Proof.
  intros N. rewrite objSet_keys. exact (setAdd_NoDup (map fst o) k N).
Qed.

Lemma objGet_In (o : JS.Obj V) (k : string) (v : V) :
  NoDup (map fst o) -> (In (k, v) o <-> JS.objGet o k = Some v).
Proof.
  induction o as [|[k0 v0] o IH]; simpl; intros N.
  - split; [intros [] | discriminate].
  - inversion N as [|? ? NI N']; subst.
    destruct (String.eqb k k0) eqn:E.
    + apply String.eqb_eq in E. subst k0. split.
      * intros [P | I]; [congruence |].
        exfalso. apply NI. apply (in_map fst) in I. exact I.
      * intros P. left. congruence.
    + apply String.eqb_neq in E. rewrite <- (IH N'). split.
      * intros [P | I]; [congruence | exact I].
      * auto.
Qed.

Lemma entries_perm (o : JS.Obj V) : Permutation (JS.entries o) o.
Proof.
  unfold JS.entries. rewrite sortBy_perm.
  induction o as [|e o IH]; simpl; [reflexivity |].
  destruct (JS.isIndex (fst e)); simpl.
  - apply perm_skip, IH.
  - rewrite <- Permutation_middle. apply perm_skip, IH.
Qed.

Lemma entries_In (o : JS.Obj V) (e : string * V) :
  In e (JS.entries o) <-> In e o.
Proof.
  split; apply Permutation_in; [| symmetry]; apply entries_perm.
Qed.

Lemma entries_NoDup (o : JS.Obj V) :
  NoDup (map fst o) -> NoDup (map fst (JS.entries o)).
Proof.
  apply Permutation_NoDup. apply Permutation_map. symmetry. apply entries_perm.
Qed.

Lemma filter_keys_NoDup (p : string * V -> bool) (l : list (string * V)) :
  NoDup (map fst l) -> NoDup (map fst (filter p l)).
Proof.
  induction l as [|e l IH]; simpl; intros N; [constructor |].
  inversion N as [|? ? NI N']; subst.
  destruct (p e); simpl; [| exact (IH N')].
  constructor; [| exact (IH N')].
  intros I. apply NI. apply in_map_iff in I. destruct I as (e' & F & I).
  apply filter_In in I. apply in_map_iff. exists e'. tauto.
Qed.

End Objects.

(** ** Counting trigger labels *)

Definition tallyOf (labels : list string) : JS.Obj JS.Tally :=
  fold_left JS.bump labels [].

(** How often a label occurs in a list of labels. *)
Definition occurrences (labels : list string) (k : string) : Z :=
  Z.of_nat (count_occ string_dec labels k).

(** The labels of a window after [normalize], one per trigger entry. *)
Definition labelsOf (normalize : string -> string) (recent : list Episode)
  : list string :=
  flat_map (fun ep => map normalize (orEmpty (triggers ep))) recent.

(** The normalisation of the basic variant. *)
Definition trimLower (t : string) : string := JS.toLowerCase (JS.trim t).

(** The entries of a tally that reach a threshold. *)
Definition frequent (labels : list string) (threshold : Z) : list string :=
  map fst (filter (fun e => JS.tallyGe (snd e) threshold)
                  (JS.entries (tallyOf labels))).

Section Tally.

Lemma ceilDiv_spec (a b : Z) :
  0 < b -> b * (JS.ceilDiv a b - 1) < a <= b * JS.ceilDiv a b.
Proof.
  intros B. unfold JS.ceilDiv.
  pose proof (Z.div_mod (- a) b ltac:(lia)) as E.
  pose proof (Z.mod_pos_bound (- a) b B) as M.
  nia.
Qed.

Lemma len_zero {A} (l : list A) : (JS.len l =? 0) = true <-> l = [].
Proof.
  unfold JS.len. rewrite Z.eqb_eq. destruct l; simpl; split; intros H;
    try reflexivity; try discriminate; lia.
Qed.

Lemma len_pos {A} (l : list A) : l <> [] -> 0 < JS.len l.
Proof. unfold JS.len. destruct l; [congruence | simpl; lia]. Qed.

Lemma occurrences_snoc (labels : list string) (x k : string) :
  occurrences (labels ++ [x]) k
  = occurrences labels k + (if String.eqb k x then 1 else 0).
Proof.
  unfold occurrences. rewrite count_occ_app. simpl.
  destruct (string_dec x k) as [->|N].
  - rewrite String.eqb_refl. lia.
  - assert (String.eqb k x = false) as E by (apply String.eqb_neq; congruence).
    rewrite E. lia.
Qed.

Lemma occurrences_nonneg (labels : list string) (k : string) :
  0 <= occurrences labels k.
Proof. unfold occurrences. lia. Qed.

Lemma tallyOf_snoc (labels : list string) (x : string) :
  tallyOf (labels ++ [x]) = JS.bump (tallyOf labels) x.
Proof. unfold tallyOf. rewrite fold_left_app. reflexivity. Qed.

Lemma bump_NoDup (o : JS.Obj JS.Tally) (x : string) :
  NoDup (map fst o) -> NoDup (map fst (JS.bump o x)).
Proof.
  intros N. unfold JS.bump.
  destruct (JS.objGet o x) as [[n|]|];
    [apply objSet_NoDup, N | apply objSet_NoDup, N |].
  destruct (String.eqb x "__proto__"); [exact N |].
  destruct (JS.inherited x); apply objSet_NoDup, N.
Qed.

Lemma tallyOf_NoDup (labels : list string) : NoDup (map fst (tallyOf labels)).
Proof.
  induction labels as [|x labels IH] using rev_ind; [constructor |].
  rewrite tallyOf_snoc. apply bump_NoDup, IH.
Qed.

(** What the object holds for a name after the labels have been counted:
    the count for an ordinary name, text for an inherited one, nothing
    for [__proto__]. *)
Lemma tallyOf_get (labels : list string) (k : string) :
  JS.objGet (tallyOf labels) k
  = if occurrences labels k =? 0 then None
    else if String.eqb k "__proto__" then None
    else if JS.inherited k then Some JS.Text
    else Some (JS.Counted (occurrences labels k)).
Proof.
  induction labels as [|x labels IH] using rev_ind; [reflexivity |].
  rewrite tallyOf_snoc, occurrences_snoc.
  pose proof (occurrences_nonneg labels k) as P.
  destruct (String.eqb k x) eqn:E.
  - apply String.eqb_eq in E. subst x.
    assert ((occurrences labels k + 1 =? 0) = false) as NZ by (apply Z.eqb_neq; lia).
    rewrite NZ. unfold JS.bump. rewrite IH.
    destruct (occurrences labels k =? 0) eqn:Z0.
    + apply Z.eqb_eq in Z0.
      destruct (String.eqb k "__proto__") eqn:PR; [exact IH |].
      destruct (JS.inherited k); cbv iota;
        rewrite objGet_objSet, String.eqb_refl, ?Z0; reflexivity.
    + destruct (String.eqb k "__proto__") eqn:PR; [exact IH |].
      destruct (JS.inherited k); cbv iota;
        rewrite objGet_objSet, String.eqb_refl; reflexivity.
  - rewrite Z.add_0_r, <- IH. unfold JS.bump.
    destruct (JS.objGet (tallyOf labels) x) as [[n|]|];
      [rewrite objGet_objSet, E; reflexivity
      | rewrite objGet_objSet, E; reflexivity |].
    destruct (String.eqb x "__proto__"); [reflexivity |].
    destruct (JS.inherited x); rewrite objGet_objSet, E; reflexivity.
Qed.

Lemma inherited_proto (k : string) :
  JS.inherited k = false -> String.eqb k "__proto__" = false.
Proof.
  intros H. destruct (String.eqb k "__proto__") eqn:E; [| reflexivity].
  apply String.eqb_eq in E. subst k. discriminate H.
Qed.

Lemma frequent_NoDup (labels : list string) (threshold : Z) :
  NoDup (frequent labels threshold).
Proof.
  unfold frequent. apply filter_keys_NoDup, entries_NoDup, tallyOf_NoDup.
Qed.

(** A label is reported exactly when it is no inherited name, occurs, and
    occurs at least [threshold] times. *)
Lemma frequent_In (labels : list string) (threshold : Z) (k : string) :
  In k (frequent labels threshold)
  <-> JS.inherited k = false
      /\ 0 < occurrences labels k /\ threshold <= occurrences labels k.
Proof.
  pose proof (occurrences_nonneg labels k) as P.
  unfold frequent. rewrite in_map_iff. split.
  - intros ([k' v] & F & I). simpl in F. subst k'.
    apply filter_In in I. destruct I as (I & G). simpl in G.
    apply (proj1 (entries_In _ _)) in I.
    apply (proj1 (objGet_In _ _ _ (tallyOf_NoDup labels))) in I.
    rewrite tallyOf_get in I.
    destruct (occurrences labels k =? 0) eqn:Z0; [discriminate |].
    apply Z.eqb_neq in Z0.
    destruct (String.eqb k "__proto__"); [discriminate |].
    destruct (JS.inherited k); injection I as <-; [discriminate G |].
    split; [reflexivity |]. simpl in G. apply Z.leb_le in G. lia.
  - intros (H & O & G). exists (k, JS.Counted (occurrences labels k)).
    split; [reflexivity |]. apply filter_In. split.
    + apply entries_In. apply objGet_In; [apply tallyOf_NoDup |].
      rewrite tallyOf_get, (inherited_proto k H), H.
      assert ((occurrences labels k =? 0) = false) as NZ by (apply Z.eqb_neq; lia).
      rewrite NZ. reflexivity.
    + simpl. apply Z.leb_le. exact G.
Qed.

Lemma bump_labels (normalize : string -> string) (ts : list string)
    (o : JS.Obj JS.Tally) :
  fold_left (fun counts t => JS.bump counts (normalize t)) ts o
  = fold_left JS.bump (map normalize ts) o.
Proof. revert o. induction ts as [|t ts IH]; intros o; simpl; auto. Qed.

Lemma countTriggers_from (normalize : string -> string) (recent : list Episode)
    (o : JS.Obj JS.Tally) :
  fold_left
    (fun counts ep =>
       fold_left (fun counts t => JS.bump counts (normalize t))
                 (orEmpty (triggers ep)) counts)
    recent o
  = fold_left JS.bump (labelsOf normalize recent) o.
Proof.
  revert o. induction recent as [|ep recent IH]; intros o; simpl; [reflexivity |].
  rewrite IH. unfold labelsOf. simpl. rewrite fold_left_app.
  rewrite <- (bump_labels normalize). reflexivity.
Qed.

Lemma basic_commonTriggers (recent : list Episode) :
  Basic.commonTriggers recent
  = frequent (labelsOf trimLower recent) (JS.ceilQuarter (JS.len recent)).
Proof.
  unfold Basic.commonTriggers, Basic.countTriggers, frequent, tallyOf. cbv zeta.
  rewrite (countTriggers_from trimLower). reflexivity.
Qed.

Lemma extended_common (recent : list Episode) :
  Extended.common recent
  = frequent (labelsOf (fun t => t) recent) (JS.ceilQuarter (JS.len recent)).
Proof.
  unfold Extended.common, Extended.countTriggers, frequent, tallyOf. cbv zeta.
  rewrite <- (countTriggers_from (fun t => t)). reflexivity.
Qed.

End Tally.

(** ** The frequent-triggers rule *)

Definition withTriggers (dt : string) (ts : list string) : Episode :=
  {| id := "t"; datetime := dt; intensity := Some 5%float;
     durationMinutes := 60; triggers := Some ts; medications := Some [];
     notes := None |}.

(** C3, at concrete inputs (the clock reads 2023-11-14T22:13:20Z).  Of five
    episodes in the window one is tagged ["Coffee"] and one [" coffee "]:
    the threshold is 2, the basic variant reports "Coffee", the extended
    variant counts the two spellings apart and reports nothing.  And a
    label that is the name of a property every object inherits is reported
    by neither variant, though it is on the only episode of the window. *)
Lemma frequent_triggers_not_normalised :
  let now := 1700000000000 in
  let five :=
    [ withTriggers "2023-11-10T12:00:00.000Z" ["Coffee"];
      withTriggers "2023-11-11T12:00:00.000Z" [" coffee "];
      withTriggers "2023-11-12T12:00:00.000Z" [];
      withTriggers "2023-11-13T12:00:00.000Z" [];
      withTriggers "2023-11-14T12:00:00.000Z" [] ] in
  let one := [ withTriggers "2023-11-14T12:00:00.000Z" ["constructor"] ] in
  JS.len (Extended.inLastDays 0 now five 30) = 5
  /\ occurrences (labelsOf trimLower five) "coffee" = 2
  /\ (exists f, Basic.topTriggersRule 0 now five [] = [f]
                /\ JS.includes (message f) "Coffee" = true)
  /\ Extended.topTriggersRule 0 now five [] = []
  /\ occurrences (labelsOf trimLower one) "constructor" = 1
  /\ JS.ceilQuarter (JS.len (Basic.inLastDays 0 now one 30)) = 1
  /\ Basic.topTriggersRule 0 now one [] = []
  /\ Extended.topTriggersRule 0 now one [] = [].
Proof.
  cbv zeta.
  split; [vm_compute; reflexivity |].
  split; [vm_compute; reflexivity |].
  split; [eexists; split; vm_compute; reflexivity |].
  repeat split; vm_compute; reflexivity.
Qed.

Lemma nonempty_len {A} (l : list A) :
  (0 <? JS.len l) = match l with [] => false | _ => true end.
Proof. destruct l; reflexivity. Qed.

(** C3, as amended.  With [recent] the 30-day window and [threshold] the
    ceiling of a quarter of its size, the rule of either variant pushes
    nothing on an empty window and otherwise pushes exactly one finding,
    titled "Frequent triggers", when some label is reported, and nothing
    when none is.  The reported labels are listed once each, capitalised
    and joined by [", "].  A label that is not the name of a property
    inherited from [Object.prototype] is reported exactly when it occurs
    and its number of occurrences reaches the threshold, where the basic
    variant counts labels after trimming and lowercasing (so ["Coffee"]
    and [" coffee "] are one label) and the extended variant counts them
    as they are written. *)
Theorem frequent_triggers_rule (tz : JS.Zone) (now : Z) (episodes : list Episode)
    (suggestions : list Finding) :
  let recent := Basic.inLastDays tz now episodes 30 in
  let threshold := JS.ceilQuarter (JS.len recent) in
  4 * (threshold - 1) < JS.len recent <= 4 * threshold
  /\ trimLower "Coffee" = trimLower " coffee "
  /\ (exists common,
        NoDup common
        /\ (forall k, JS.inherited k = false ->
              (In k common <->
               0 < occurrences (labelsOf trimLower recent) k
               /\ threshold <= occurrences (labelsOf trimLower recent) k))
        /\ Basic.topTriggersRule tz now episodes suggestions
           = match recent, common with
             | [], _ | _, [] => suggestions
             | _, _ =>
                 push suggestions
                   {| title := "Frequent triggers";
                      message := "You often report triggers like "
                        ++ JS.join ", " (map Basic.capitalize common)
                        ++ ". Consider what adjustments might help you avoid or mitigate these." |}
             end)
  /\ (exists common,
        NoDup common
        /\ (forall k, JS.inherited k = false ->
              (In k common <->
               0 < occurrences (labelsOf (fun t => t) recent) k
               /\ threshold <= occurrences (labelsOf (fun t => t) recent) k))
        /\ Extended.topTriggersRule tz now episodes suggestions
           = match recent, common with
             | [], _ | _, [] => suggestions
             | _, _ =>
                 push suggestions
                   {| title := "Frequent triggers";
                      message := "You often report triggers like "
                        ++ JS.join ", " (map Extended.capitalize common)
                        ++ ". Gentle adjustments might help you avoid or mitigate these." |}
             end).
Proof.
  cbv zeta.
  set (recent := Basic.inLastDays tz now episodes 30).
  split; [apply ceilDiv_spec; lia |].
  split; [reflexivity |].
  split.
  - exists (Basic.commonTriggers recent).
    rewrite basic_commonTriggers.
    split; [apply frequent_NoDup |].
    split.
    + intros k H. rewrite frequent_In. tauto.
    + unfold Basic.topTriggersRule, Basic.topTriggersOn. cbv zeta. fold recent.
      rewrite basic_commonTriggers, nonempty_len.
      destruct recent as [|ep recent']; [reflexivity |].
      change (JS.len (ep :: recent') =? 0) with false. cbv iota.
      destruct (frequent _ _); reflexivity.
  - exists (Extended.common recent).
    rewrite extended_common.
    split; [apply frequent_NoDup |].
    split.
    + intros k H. rewrite frequent_In. tauto.
    + unfold Extended.topTriggersRule, Extended.topTriggersOn. cbv zeta.
      change (Extended.inLastDays tz now episodes 30) with recent.
      rewrite extended_common, nonempty_len.
      destruct recent as [|ep recent']; [reflexivity |].
      change (JS.len (ep :: recent') =? 0) with false. cbv iota.
      destruct (frequent _ _); reflexivity.
Qed.

(** ** The two-pointer sweep *)

Module SweepFacts.
Import Sweep.

(** The minute values are in ascending order. *)
Definition ascendingList (m : list Z) : Prop :=
  forall a b, (a <= b < List.length m)%nat -> nth a m 0 <= nth b m 0.

Lemma insert_sorted (x : Z) (l : list Z) :
  StronglySorted Z.le l -> StronglySorted Z.le (JS.insertBy JS.ascending x l).
Proof.
  induction 1 as [|y l S IH F]; simpl.
  - constructor; constructor.
  - destruct (0 <? x - y) eqn:C.
    + apply Z.ltb_lt in C. constructor; [exact IH |].
      apply Forall_forall. intros z I.
      apply (Permutation_in _ (insertBy_perm JS.ascending x l)) in I.
      destruct I as [<- | I]; [lia |].
      rewrite Forall_forall in F. apply F, I.
    + apply Z.ltb_ge in C. constructor; [constructor; assumption |].
      constructor; [lia |].
      rewrite Forall_forall in F |- *. intros z I. specialize (F z I). lia.
Qed.

Lemma sortBy_sorted (l : list Z) : StronglySorted Z.le (JS.sortBy JS.ascending l).
Proof.
  induction l as [|x l IH]; simpl; [constructor |].
  apply insert_sorted, IH.
Qed.

Lemma sorted_ascending (m : list Z) : StronglySorted Z.le m -> ascendingList m.
Proof.
  induction 1 as [|x m S IH F]; intros a b (AB & B); simpl in *; [lia |].
  destruct a as [|a], b as [|b]; try lia.
  - rewrite Forall_forall in F. apply F, nth_In. lia.
  - apply IH. lia.
Qed.

Lemma sortBy_ascending (l : list Z) : ascendingList (JS.sortBy JS.ascending l).
Proof. apply sorted_ascending, sortBy_sorted. Qed.

Section Invariant.

Variable m : list Z.

Lemma gap_spec (i w : nat) :
  (i < List.length m)%nat -> (w < List.length m)%nat ->
  gap m i w = (240 <? nth i m 0 - nth w m 0).
Proof.
  intros I W. unfold gap.
  rewrite (nth_error_nth' m 0 I), (nth_error_nth' m 0 W). reflexivity.
Qed.

(** The [while] loop stops at or before [i]; what it returns, given enough
    turns, does not depend on how many more it was allowed. *)
Lemma advance_spec (fuel i w : nat) :
  (w <= i < List.length m)%nat -> (i - w < fuel)%nat ->
  let w' := advance fuel m i w in
  (w <= w' <= i)%nat
  /\ nth i m 0 - nth w' m 0 <= 240
  /\ (forall j, (w <= j < w')%nat -> 240 < nth i m 0 - nth j m 0).
Proof.
  revert w. induction fuel as [|fuel IH]; intros w R F; [lia |].
  cbv zeta. simpl. rewrite gap_spec by lia.
  destruct (240 <? nth i m 0 - nth w m 0) eqn:G.
  - apply Z.ltb_lt in G.
    assert (w <> i) as NE by (intros ->; lia).
    destruct (IH (S w)) as (B & E & L); [lia | lia |].
    split; [lia |]. split; [exact E |].
    intros j J. destruct (Nat.eq_dec j w) as [-> | N]; [exact G |].
    apply L. lia.
  - apply Z.ltb_ge in G. split; [lia |]. split; [exact G |]. intros j J. lia.
Qed.

Lemma advance_stable (fuel fuel' i w : nat) :
  (w <= i < List.length m)%nat -> (i - w < fuel)%nat -> (i - w < fuel')%nat ->
  advance fuel m i w = advance fuel' m i w.
Proof.
  revert fuel' w. induction fuel as [|fuel IH]; intros fuel' w R F F'; [lia |].
  destruct fuel' as [|fuel']; [lia |].
  simpl. rewrite gap_spec by lia.
  destruct (240 <? nth i m 0 - nth w m 0) eqn:G; [| reflexivity].
  apply Z.ltb_lt in G.
  assert (w <> i) as NE by (intros ->; lia).
  apply IH; lia.
Qed.

Hypothesis sorted : ascendingList m.

(** The state before the turn at index [i]. *)
Record Inv (i : nat) (st : State) : Prop := {
  inv_left : (windowStartIdx st <= i)%nat;
  inv_minimal :
    forall j i', (j < windowStartIdx st)%nat -> (i <= i' < List.length m)%nat ->
                 240 < nth i' m 0 - nth j m 0;
  inv_bound :
    forall w' i', (w' <= i' < i)%nat -> nth i' m 0 - nth w' m 0 <= 240 ->
                  Z.of_nat i' - Z.of_nat w' + 1 <= maxCount st;
  inv_found :
    (i = 0%nat /\ maxCount st = 0)
    \/ exists w' i', (w' <= i' < i)%nat
                     /\ nth i' m 0 - nth w' m 0 <= 240
                     /\ maxCount st = Z.of_nat i' - Z.of_nat w' + 1
                     /\ windowStartTime st = nth w' m 0
}.

Lemma Inv_step (i : nat) (st : State) :
  (i < List.length m)%nat -> Inv i st -> Inv (S i) (step m i st).
Proof.
  intros I [L M B F].
  destruct (advance_spec (S i) i (windowStartIdx st)) as (W & E & V); [lia | lia |].
  set (w := advance (S i) m i (windowStartIdx st)) in *.
  assert (forall j i', (j < w)%nat -> (i <= i' < List.length m)%nat ->
                       240 < nth i' m 0 - nth j m 0) as M'.
  { intros j i' J R.
    assert (nth i m 0 <= nth i' m 0) as S by (apply sorted; lia).
    destruct (Nat.lt_ge_cases j (windowStartIdx st)) as [C | C].
    - apply M; [exact C | lia].
    - specialize (V j ltac:(lia)). lia. }
  assert (forall w' i', (w' <= i' < S i)%nat -> nth i' m 0 - nth w' m 0 <= 240 ->
            Z.of_nat i' - Z.of_nat w' + 1
            <= Z.max (maxCount st) (Z.of_nat i - Z.of_nat w + 1)) as B'.
  { intros w' i' R G.
    destruct (Nat.eq_dec i' i) as [-> | N].
    - destruct (Nat.lt_ge_cases w' w) as [C | C]; [| lia].
      specialize (M' w' i C ltac:(lia)). lia.
    - specialize (B w' i' ltac:(lia) G). lia. }
  unfold step. fold w.
  destruct (maxCount st <? Z.of_nat i - Z.of_nat w + 1) eqn:C.
  - apply Z.ltb_lt in C. constructor; simpl.
    + lia.
    + intros j i' J R. apply M'; [exact J | lia].
    + intros w' i' R G. specialize (B' w' i' R G). lia.
    + right. exists w, i. repeat split; try lia.
  - apply Z.ltb_ge in C. constructor; simpl.
    + lia.
    + intros j i' J R. apply M'; [exact J | lia].
    + intros w' i' R G. specialize (B' w' i' R G). lia.
    + right. destruct F as [(-> & Z0) | (w' & i' & R & G & MC & WS)].
      * lia.
      * exists w', i'. repeat split; try lia.
Qed.

Lemma Inv_loop (k i : nat) (st : State) :
  (i + k <= List.length m)%nat -> Inv i st -> Inv (i + k) (loop m k i st).
Proof.
  revert i st. induction k as [|k IH]; intros i st L H; simpl.
  - rewrite Nat.add_0_r. exact H.
  - replace (i + S k)%nat with (S i + k)%nat by lia.
    apply IH; [lia |]. apply Inv_step; [lia | exact H].
Qed.

Lemma Inv_run : Inv (List.length m) (run m).
Proof.
  apply (Inv_loop (List.length m) 0); [lia |].
  constructor; simpl; lia.
Qed.

End Invariant.

End SweepFacts.

(** ** Rounding *)

(** [scaled k x] is the integer nearest to [k] times the exact value
    [N / 2^(-e)] of the double [x], the larger one on a tie; with [k = 1]
    this is [Math.round], with [k = 10] the digits of [toFixed(1)]. *)
Lemma scaled_nearest (k : Z) (x : JS.num) (s : bool) (mant : positive) (e n : Z) :
  Prim2SF x = S754_finite s mant e ->
  JS.scaled k x = Some n ->
  let N := if s then Z.neg mant else Z.pos mant in
  (0 <= e -> n = k * N * 2 ^ e)
  /\ (e < 0 ->
      (2 * n - 1) * 2 ^ (- e) <= 2 * k * N < (2 * n + 1) * 2 ^ (- e)).
Proof.
  intros P S. unfold JS.scaled in S. rewrite P in S. cbv zeta.
  set (N := if s then Z.neg mant else Z.pos mant) in *.
  destruct (0 <=? e) eqn:E.
  - apply Z.leb_le in E. split; [congruence | lia].
  - apply Z.leb_gt in E. split; [lia |]. intros _.
    assert (n = (2 * k * N + 2 ^ (- e)) / 2 ^ (1 - e)) as -> by congruence.
    clear S.
    replace (2 ^ (1 - e)) with (2 * 2 ^ (- e))
      by (replace (1 - e) with (Z.succ (- e)) by lia; rewrite Z.pow_succ_r; lia).
    assert (0 < 2 ^ (- e)) as D by (apply Z.pow_pos_nonneg; lia).
    set (d := 2 ^ (- e)) in *.
    pose proof (Z.div_mod (2 * k * N + d) (2 * d) ltac:(lia)) as Q.
    pose proof (Z.mod_pos_bound (2 * k * N + d) (2 * d) ltac:(lia)) as R.
    set (q := (2 * k * N + d) / (2 * d)) in *.
    set (r := (2 * k * N + d) mod (2 * d)) in *.
    split; nia.
Qed.

(** ** The time-of-day rule *)

(** C4, at a concrete input (the clock reads 2023-11-14T22:13:20Z, the
    zone is UTC).  Three episodes at 23:00: the extended variant names the
    range 23:00-27:00, an end hour past 24, and states no percentage; the
    basic variant names 23:00 and 03:00 and states 100%. *)
Lemma timeOfDay_extended_range_not_wrapped :
  let now := 1700000000000 in
  let late :=
    [ episodeAt "2023-11-11T23:00:00.000Z";
      episodeAt "2023-11-12T23:00:00.000Z";
      episodeAt "2023-11-13T23:00:00.000Z" ] in
  (exists f, Extended.timeOfDayRule 0 now late [] = [f]
             /\ JS.includes (message f) "between 23:00–27:00." = true
             /\ JS.includes (message f) "%" = false)
  /\ (exists f, Basic.timeOfDayRule 0 now late [] = [f]
                /\ JS.includes (message f) "Around 100% " = true
                /\ JS.includes (message f) "between 23:00 and 03:00." = true).
Proof.
  cbv zeta.
  split; eexists;
    (split; [vm_compute; reflexivity | split; vm_compute; reflexivity]).
Qed.

Lemma minutesOf_length (tz : JS.Zone) (recent : list Episode) :
  List.length (Basic.minutesOf tz recent) = List.length recent.
Proof. unfold Basic.minutesOf. rewrite sortBy_length, length_map. reflexivity. Qed.

Section Minutes.

Variable tz : JS.Zone.

Lemma minuteOfDay_range (ep : Episode) : 0 <= Basic.minuteOfDay tz ep < 1440.
Proof.
  unfold Basic.minuteOfDay, JS.getHours, JS.getMinutes.
  pose proof (Z.mod_pos_bound (JS.LocalTime tz (Basic.timeValue tz ep) / JS.msPerHour)
                24 ltac:(lia)).
  pose proof (Z.mod_pos_bound (JS.LocalTime tz (Basic.timeValue tz ep) / JS.msPerMinute)
                60 ltac:(lia)).
  lia.
Qed.

Lemma minutesOf_range (recent : list Episode) (m : Z) :
  In m (Basic.minutesOf tz recent) -> 0 <= m < 1440.
Proof.
  unfold Basic.minutesOf. rewrite sortBy_In, in_map_iff.
  intros (ep & <- & _). apply minuteOfDay_range.
Qed.

(** The sweep over the sorted minutes of a non-empty window ends with a
    count between 1 and the size of the window and a start that is one of
    the minute values. *)
Lemma sweep_bounds (recent : list Episode) :
  recent <> [] ->
  let st := Sweep.run (Basic.minutesOf tz recent) in
  1 <= Sweep.maxCount st <= JS.len recent
  /\ In (Sweep.windowStartTime st) (Basic.minutesOf tz recent).
Proof.
  intros NE. cbv zeta.
  pose proof (SweepFacts.Inv_run (Basic.minutesOf tz recent)
                (SweepFacts.sortBy_ascending _)) as [_ _ _ F].
  rewrite minutesOf_length in F.
  destruct F as [(E & _) | (w & i & R & _ & MC & WS)].
  - destruct recent; [congruence | discriminate E].
  - rewrite MC, WS. unfold JS.len. split; [lia |].
    apply nth_In. rewrite minutesOf_length. lia.
Qed.

End Minutes.

Lemma below (n : nat) (z : Z) : 0 <= z < Z.of_nat n -> In z (map Z.of_nat (seq 0 n)).
Proof.
  intros R. apply in_map_iff. exists (Z.to_nat z). split; [lia |].
  apply in_seq. lia.
Qed.

(** The text of the extended variant for a window that starts at minute
    [start] of the day. *)
Definition clusterMessage (start : Z) : string :=
  "A significant share of your episodes occur between "
  ++ (Extended.pad (start / 60) ++ ":00–" ++ Extended.pad ((start + 240) / 60) ++ ":00")
  ++ ". Consider a pre‑emptive routine or relaxation practice then.".

(** It holds no percent sign, whatever the minute of the day. *)
Lemma clusterMessage_all :
  forallb (fun m => negb (JS.includes (clusterMessage m) "%"))
          (map Z.of_nat (seq 0 1440)) = true.
Proof. vm_compute. reflexivity. Qed.

(** C4, as amended.  With [minutes] the sorted minutes since local
    midnight of the 30-day window and [st] the state the two-pointer sweep
    ends in: the threshold is the ceiling of two fifths of the window's
    size; [maxCount st] bounds the number of values in every stretch of the
    sorted array that spans at most 240 minutes, and on a non-empty window
    it is attained by a stretch whose first value is [windowStartTime st].
    Either variant pushes nothing on an empty window and otherwise pushes
    exactly one finding when [maxCount st] reaches the threshold, nothing
    when it does not.  The message of the basic variant names the times
    [windowStartTime st] and [windowStartTime st + 240] modulo 1440, whose
    hour is below 24, and the rounded percentage [maxCount / total * 100];
    the message of the extended variant is a fixed text that names the
    hour of [windowStartTime st], which is below 24, and holds no percent
    sign: it states no percentage. *)
Theorem timeOfDay_rule (tz : JS.Zone) (now : Z) (episodes : list Episode)
    (suggestions : list Finding) :
  let recent := Basic.inLastDays tz now episodes 30 in
  let minutes := Basic.minutesOf tz recent in
  let total := JS.len recent in
  let threshold := JS.ceilTwoFifths total in
  let st := Sweep.run minutes in
  let start := Sweep.windowStartTime st in
  5 * (threshold - 1) < 2 * total <= 5 * threshold
  /\ (forall w i, (w <= i < List.length minutes)%nat ->
                  nth i minutes 0 - nth w minutes 0 <= 240 ->
                  Z.of_nat i - Z.of_nat w + 1 <= Sweep.maxCount st)
  /\ (recent = [] /\ Sweep.maxCount st = 0
      \/ exists w i, (w <= i < List.length minutes)%nat
                     /\ nth i minutes 0 - nth w minutes 0 <= 240
                     /\ Sweep.maxCount st = Z.of_nat i - Z.of_nat w + 1
                     /\ start = nth w minutes 0)
  /\ Basic.timeOfDayRule tz now episodes suggestions
     = match recent with
       | [] => suggestions
       | _ =>
           if threshold <=? Sweep.maxCount st then
             push suggestions
               {| title := "Time‑of‑day pattern";
                  message := "Around "
                    ++ JS.showRounded
                         (PrimFloat.mul
                            (PrimFloat.div (JS.ofZ (Sweep.maxCount st)) (JS.ofZ total))
                            (JS.ofZ 100))
                    ++ "% of your episodes happen between "
                    ++ Basic.formatTime start ++ " and "
                    ++ Basic.formatTime ((start + 240) mod 1440)
                    ++ ". You might try adjusting your routine or preparing for triggers during this period." |}
           else suggestions
       end
  /\ 0 <= ((start + 240) mod 1440) / 60 < 24
  /\ (recent = [] \/ Sweep.maxCount st < threshold ->
      Extended.timeOfDayRule tz now episodes suggestions = suggestions)
  /\ (recent <> [] -> threshold <= Sweep.maxCount st ->
      exists f, Extended.timeOfDayRule tz now episodes suggestions
                = push suggestions f
                /\ title f = "Time‑of‑day cluster"
                /\ JS.includes (message f) (Extended.pad (start / 60) ++ ":00–") = true)
  /\ Extended.timeOfDayRule tz now episodes suggestions
     = match recent with
       | [] => suggestions
       | _ =>
           if threshold <=? Sweep.maxCount st then
             push suggestions
               {| title := "Time‑of‑day cluster";
                  message := "A significant share of your episodes occur between "
                    ++ (Extended.pad (start / 60) ++ ":00–"
                        ++ Extended.pad ((start + 240) / 60) ++ ":00")
                    ++ ". Consider a pre‑emptive routine or relaxation practice then." |}
           else suggestions
       end
  /\ (recent <> [] ->
      0 <= start / 60 < 24
      /\ JS.includes
           ("A significant share of your episodes occur between "
            ++ (Extended.pad (start / 60) ++ ":00–"
                ++ Extended.pad ((start + 240) / 60) ++ ":00")
            ++ ". Consider a pre‑emptive routine or relaxation practice then.")
           "%" = false).
Proof.
  cbv zeta.
  set (recent := Basic.inLastDays tz now episodes 30).
  set (minutes := Basic.minutesOf tz recent).
  assert (JS.len minutes = JS.len recent) as LEN
    by (unfold JS.len, minutes; rewrite minutesOf_length; reflexivity).
  pose proof (SweepFacts.Inv_run minutes
                (SweepFacts.sortBy_ascending _)) as [_ _ B F].
  assert (Extended.timeOfDayRule tz now episodes suggestions
          = match recent with
            | [] => suggestions
            | _ =>
                if JS.ceilTwoFifths (JS.len recent) <=? Sweep.maxCount (Sweep.run minutes)
                then
                  push suggestions
                    {| title := "Time‑of‑day cluster";
                       message := clusterMessage (Sweep.windowStartTime (Sweep.run minutes)) |}
                else suggestions
            end) as EXT.
  { unfold Extended.timeOfDayRule, Extended.timeOfDayOn. cbv zeta.
    change (Extended.inLastDays tz now episodes 30) with recent.
    change (Extended.minutesOf tz recent) with minutes.
    rewrite LEN. destruct recent as [|ep r]; reflexivity. }
  split; [apply ceilDiv_spec; lia |].
  split; [exact B |].
  split.
  { destruct F as [(E & Z0) | F]; [| right; exact F].
    left. split; [| exact Z0].
    apply length_zero_iff_nil. rewrite <- (minutesOf_length tz). exact E. }
  split.
  { unfold Basic.timeOfDayRule, Basic.timeOfDayOn. cbv zeta. fold recent. fold minutes.
    rewrite LEN. destruct recent as [|ep r]; reflexivity. }
  split.
  { pose proof (Z.mod_pos_bound (Sweep.windowStartTime (Sweep.run minutes) + 240)
                  1440 ltac:(lia)) as M.
    split; [apply Z.div_pos; lia | apply Z.div_lt_upper_bound; lia]. }
  split.
  { intros C. rewrite EXT. destruct C as [-> | C]; [reflexivity |].
    apply Z.leb_gt in C. rewrite C. destruct recent; reflexivity. }
  split.
  { intros NE C. rewrite EXT. apply Z.leb_le in C. rewrite C.
    destruct recent as [|ep r]; [congruence |].
    eexists. split; [reflexivity |]. split; [reflexivity |].
    cbn [message]. unfold clusterMessage.
    apply JSFacts.includes_later.
    rewrite !JSFacts.append_assoc, <- (JSFacts.append_assoc (Extended.pad _) ":00–").
    apply JSFacts.includes_here. }
  split; [exact EXT |].
  intros NE.
  destruct (sweep_bounds tz recent NE) as (_ & I). fold minutes in I.
  pose proof (minutesOf_range tz recent _ I) as R.
  split; [split; [apply Z.div_pos; lia | apply Z.div_lt_upper_bound; lia] |].
  pose proof clusterMessage_all as A. rewrite forallb_forall in A.
  specialize (A _ (below 1440 _ R)).
  apply negb_true_iff in A. exact A.
Qed.

(** ** The rising-intensity rule *)

Section IdxObjects.

Context {V : Type}.

Lemma idxGet_idxSet (o : Extended.IdxObj V) (k k' : Z) (v : V) :
  Extended.idxGet (Extended.idxSet o k v) k'
  = if k' =? k then Some v else Extended.idxGet o k'.
Proof.
  induction o as [|[k0 v0] o IH]; simpl; [reflexivity |].
  destruct (k =? k0) eqn:E; simpl.
  - apply Z.eqb_eq in E. subst k0. destruct (k' =? k); reflexivity.
  - destruct (k' =? k0) eqn:E'; [| exact IH].
    apply Z.eqb_eq in E'. subst k0.
    rewrite Z.eqb_sym in E. rewrite E. reflexivity.
Qed.

Lemma idxGet_key (o : Extended.IdxObj V) (k : Z) :
  In k (map fst o) -> exists v, Extended.idxGet o k = Some v.
Proof.
  induction o as [|[k0 v0] o IH]; simpl; [intros [] |].
  intros [-> | I].
  - rewrite Z.eqb_refl. eauto.
  - destruct (k =? k0); [eauto | exact (IH I)].
Qed.

Lemma idxEntries_keys (o : Extended.IdxObj V) (k : Z) :
  In k (map fst (Extended.idxEntries o)) <-> In k (map fst o).
Proof.
  unfold Extended.idxEntries.
  split; apply Permutation_in, Permutation_map;
    [| symmetry]; apply sortBy_perm.
Qed.

End IdxObjects.

(** The weekly means, read off the groups without the possibility of a
    missing week. *)
Definition meansOfWeeks (weekGroups : Extended.IdxObj (list Episode))
    (weekNumbers : list Z) : list JS.num :=
  map (fun wn => Extended.weekAverage
                   (match Extended.idxGet weekGroups wn with
                    | Some eps => eps
                    | None => []
                    end))
      weekNumbers.

Lemma weeklyAverages_normal (weekGroups : Extended.IdxObj (list Episode))
    (weekNumbers : list Z) :
  (forall wn, In wn weekNumbers -> In wn (map fst weekGroups)) ->
  Extended.weeklyAverages weekGroups weekNumbers
  = Normal (meansOfWeeks weekGroups weekNumbers).
Proof.
  induction weekNumbers as [|wn r IH]; intros K; [reflexivity |].
  simpl. destruct (idxGet_key weekGroups wn (K wn (or_introl eq_refl))) as (eps & E).
  rewrite E, IH; [reflexivity |]. intros k I. apply K. right. exact I.
Qed.

Section RisingIntensity.

Variables (tz : JS.Zone) (now : Z) (episodes : list Episode).

(** The week numbers and weekly means of the extended variant. *)
Definition weekGroupsOf : Extended.IdxObj (list Episode) :=
  Extended.groupBy (Extended.inLastDays tz now episodes 42) (Extended.weekKey tz).

Definition weekNumbersOf : list Z :=
  JS.sortBy JS.ascending (map fst (Extended.idxEntries weekGroupsOf)).

Definition weeklyAvgOf : list JS.num := meansOfWeeks weekGroupsOf weekNumbersOf.

Definition last3 : JS.num := Extended.meanOfThree (Extended.lastThree weeklyAvgOf).
Definition prev3 : JS.num := Extended.meanOfThree (Extended.previousThree weeklyAvgOf).

(** The gate of the extended variant: three episodes in the window, six
    week buckets. *)
Definition gateExtended : bool :=
  (3 <=? JS.len (Extended.inLastDays tz now episodes 42))
  && (6 <=? JS.len weekNumbersOf).

(** The two halves of the basic variant, their means and its gate. *)
Definition firstWindow : list Episode :=
  filter (fun ep => JS.dateLt (Basic.when tz ep) (Basic.cutoffDate tz now 21))
         (Basic.inLastDays tz now episodes 42).
Definition secondWindow : list Episode :=
  filter (fun ep => JS.dateGe (Basic.when tz ep) (Basic.cutoffDate tz now 21))
         (Basic.inLastDays tz now episodes 42).
Definition avg1 : JS.num := Basic.average firstWindow.
Definition avg2 : JS.num := Basic.average secondWindow.

Definition gateBasic : bool :=
  (2 <=? JS.len (Basic.inLastDays tz now episodes 42))
  && negb (JS.len firstWindow =? 0) && negb (JS.len secondWindow =? 0).

Lemma weekNumbers_keys (wn : Z) :
  In wn weekNumbersOf -> In wn (map fst weekGroupsOf).
Proof.
  unfold weekNumbersOf. rewrite sortBy_In, idxEntries_keys. auto.
Qed.

Lemma extended_rising (suggestions : list Finding) :
  Extended.risingIntensityRule tz now episodes suggestions
  = Normal
      (if gateExtended
          && PrimFloat.ltb 0%float prev3
          && PrimFloat.leb (PrimFloat.mul prev3 Extended.onePointTwo) last3
       then
         push suggestions
           {| title := "Rising intensity trend";
              message := "Your 3‑week average intensity has risen by over 20%. Consider consulting a healthcare provider or reviewing possible triggers." |}
       else suggestions).
Proof.
  unfold Extended.risingIntensityRule, Extended.risingIntensityOn, gateExtended.
  cbv zeta.
  fold weekGroupsOf. fold weekNumbersOf.
  rewrite (Z.leb_antisym _ 3), (Z.leb_antisym _ 6).
  destruct (JS.len (Extended.inLastDays tz now episodes 42) <? 3); [reflexivity |].
  destruct (JS.len weekNumbersOf <? 6); [reflexivity |].
  rewrite (weeklyAverages_normal _ _ weekNumbers_keys).
  reflexivity.
Qed.

Lemma basic_rising (suggestions : list Finding) :
  Basic.risingIntensityRule tz now episodes suggestions
  = if gateBasic && PrimFloat.leb (PrimFloat.mul avg1 Basic.onePointTwo) avg2
    then
      push suggestions
        {| title := "Rising intensity";
           message := "Your average migraine intensity over the last three weeks ("
             ++ JS.toFixed1 avg2
             ++ ") is noticeably higher than the preceding three weeks ("
             ++ JS.toFixed1 avg1
             ++ "). It may be worth discussing this with a healthcare professional." |}
    else suggestions.
Proof.
  unfold Basic.risingIntensityRule, Basic.risingIntensityOn, gateBasic. cbv zeta.
  change (filter (fun ep => JS.dateGe (Basic.when tz ep) (Basic.cutoffDate tz now 42))
                 episodes)
    with (Basic.inLastDays tz now episodes 42).
  fold firstWindow. fold secondWindow. fold avg1. fold avg2.
  rewrite (Z.leb_antisym _ 2).
  destruct (JS.len (Basic.inLastDays tz now episodes 42) <? 2); [reflexivity |].
  destruct (JS.len firstWindow =? 0); [reflexivity |].
  destruct (JS.len secondWindow =? 0); reflexivity.
Qed.

End RisingIntensity.

Definition withIntensity (dt : string) (i : JS.num) : Episode :=
  {| id := "i"; datetime := dt; intensity := Some i; durationMinutes := 30;
     triggers := Some []; medications := Some []; notes := None |}.

(** A single digit is rendered by one character. *)
Lemma showZ_digit (d : Z) : 0 <= d < 10 -> String.length (JS.showZ d) = 1%nat.
Proof.
  intros R.
  assert (d = 0 \/ d = 1 \/ d = 2 \/ d = 3 \/ d = 4 \/ d = 5 \/ d = 6
          \/ d = 7 \/ d = 8 \/ d = 9) as C by lia.
  repeat (destruct C as [-> | C]; [reflexivity |]). subst d. reflexivity.
Qed.

(** [toFixed(1)] of a finite number ends in a point and one digit. *)
Lemma toFixed1_one_decimal (x : JS.num) (n : Z) :
  JS.scaled 10 (PrimFloat.abs x) = Some n ->
  exists sign digit,
    JS.toFixed1 x = sign ++ JS.showZ (n / 10) ++ "." ++ digit
    /\ String.length digit = 1%nat.
Proof.
  intros S. unfold JS.toFixed1. rewrite S.
  exists (if PrimFloat.ltb x 0 then "-" else ""), (JS.showZ (n mod 10)).
  split; [reflexivity |]. apply showZ_digit. apply Z.mod_pos_bound. lia.
Qed.

(** ** The store: what the rules write *)

Module StoreFacts.
Import Store.
Local Open Scope list_scope.

Lemma read_scratch (h ext : store) (k : nat) :
  nth_error (h ++ ext) (List.length h + k) = nth_error ext k.
Proof.
  rewrite nth_error_app2 by lia. f_equal. lia.
Qed.

Lemma read_base (h ext : store) (r : loc) (a : Arr) :
  nth_error h r = Some a -> nth_error (h ++ ext) r = Some a.
Proof.
  intros E. rewrite nth_error_app1; [exact E |].
  apply nth_error_Some. congruence.
Qed.

Lemma write_scratch (h ext : store) (k : nat) (a : Arr) :
  setNth (h ++ ext) (List.length h + k)%nat a = h ++ setNth ext k a.
Proof.
  induction h as [|x h IH]; simpl; [reflexivity |]. rewrite IH. reflexivity.
Qed.

Lemma grow (h ext : store) (a : Arr) :
  ((h ++ ext) ++ [a] = h ++ (ext ++ [a]))%list.
Proof. symmetry. apply app_assoc. Qed.

Lemma size (h ext : store) :
  List.length (h ++ ext) = (List.length h + List.length ext)%nat.
Proof. apply length_app. Qed.

(** A computation started in [h] returns [a] and leaves a store that is
    [h] followed by new arrays. *)
Definition yields {A} (c : M A) (h : store) (a : A) : Prop :=
  exists ext, c h = (a, h ++ ext).

(** What [h] holds, [h'] holds at the same place. *)
Definition keeps (h h' : store) : Prop :=
  forall r x, nth_error h r = Some x -> nth_error h' r = Some x.

Lemma yields_ret {A} (a : A) (h : store) : yields (ret a) h a.
Proof. exists []. unfold ret. rewrite app_nil_r. reflexivity. Qed.

Lemma yields_then {A B} (c : M A) (k : A -> M B) (h : store) (a : A) (b : B) :
  yields c h a ->
  (forall h', keeps h h' -> yields (k a) h' b) ->
  yields (bind c k) h b.
Proof.
  intros (ext & E) K.
  destruct (K (h ++ ext)) as (ext' & E').
  { intros r x R. apply read_base. exact R. }
  exists (ext ++ ext'). unfold bind. rewrite E, E', app_assoc. reflexivity.
Qed.

Lemma yields_read (h : store) (r : loc) (l : list Episode) :
  nth_error h r = Some (Episodes l) -> yields (episodesAt r) h l.
Proof.
  intros E. exists []. unfold episodesAt. rewrite E, app_nil_r. reflexivity.
Qed.

Lemma yields_keeps {A} (c : M A) (h : store) (a : A) :
  yields c h a -> keeps h (snd (c h)).
Proof.
  intros (ext & E) r x R. rewrite E. simpl. apply read_base. exact R.
Qed.

Lemma yields_scratch {A} (c : M A) (h : store) (a : A) :
  (exists ext, c (h ++ []) = (a, h ++ ext)) -> yields c h a.
Proof. rewrite app_nil_r. auto. Qed.

End StoreFacts.

(** Symbolic execution of a computation on a store [h ++ ext] whose
    scratch part [ext] is a list of known length. *)
Ltac store_run :=
  repeat (progress
    (cbv beta iota delta
       [Store.bind Store.ret Store.alloc Store.episodesAt Store.numbersAt
        Store.stringsAt Store.write Store.filterE Store.sliceE
        Store.mapEN Store.mapES Store.sortE Store.sortN Store.sortS];
     rewrite <- ?app_assoc, ?StoreFacts.size;
     cbn [List.length Nat.add app];
     rewrite ?StoreFacts.read_scratch, ?StoreFacts.write_scratch;
     cbn [nth_error Store.setNth app])).

(** A rule on the store against the rule on the list: run it, decide the
    tests that both make, compare. *)
Ltac store_rule I :=
  apply StoreFacts.yields_scratch;
  store_run; rewrite ?(StoreFacts.read_base _ _ _ _ I); store_run;
  repeat (lazymatch goal with
          | |- context [(if ?b then _ else _) _] => destruct b
          end; store_run);
  eexists; reflexivity.

Section BasicOnStore.

Import Store StoreFacts.
Local Open Scope list_scope.

Variables (tz : JS.Zone) (now : Z) (input : loc) (eps : list Episode).
Variable h : store.
Hypothesis I : nth_error h input = Some (Episodes eps).

Lemma basic_topTriggers_store (s : list Finding) :
  yields (Basic.topTriggersRuleM tz now input s) h
         (Basic.topTriggersRule tz now eps s).
Proof.
  unfold Basic.topTriggersRuleM, Basic.inLastDaysM, Basic.topTriggersRule,
    Basic.inLastDays.
  store_rule I.
Qed.

Lemma basic_timeOfDay_store (s : list Finding) :
  yields (Basic.timeOfDayRuleM tz now input s) h
         (Basic.timeOfDayRule tz now eps s).
Proof.
  unfold Basic.timeOfDayRuleM, Basic.inLastDaysM, Basic.timeOfDayRule,
    Basic.inLastDays, Basic.minutesOf; cbv zeta.
  store_rule I.
Qed.

Lemma basic_dayOfWeek_store (s : list Finding) :
  yields (Basic.dayOfWeekRuleM tz now input s) h
         (Basic.dayOfWeekRule tz now eps s).
Proof.
  unfold Basic.dayOfWeekRuleM, Basic.inLastDaysM, Basic.dayOfWeekRule,
    Basic.inLastDays.
  store_rule I.
Qed.

Lemma basic_risingIntensity_store (s : list Finding) :
  yields (Basic.risingIntensityRuleM tz now input s) h
         (Basic.risingIntensityRule tz now eps s).
Proof.
  unfold Basic.risingIntensityRuleM, Basic.risingIntensityRule; cbv zeta.
  store_rule I.
Qed.

Lemma basic_medicationOveruse_store (s : list Finding) :
  yields (Basic.medicationOveruseRuleM tz now input s) h
         (Basic.medicationOveruseRule tz now eps s).
Proof.
  unfold Basic.medicationOveruseRuleM, Basic.inLastDaysM,
    Basic.medicationOveruseRule, Basic.inLastDays.
  store_rule I.
Qed.

End BasicOnStore.

Section BasicEngineOnStore.

Import Store StoreFacts.
Local Open Scope list_scope.

Variables (tz : JS.Zone) (now : Z) (input : loc) (eps : list Episode).

Lemma basic_analysePatterns_store (h : store) :
  nth_error h input = Some (Episodes eps) ->
  yields (Basic.analysePatternsM tz now input) h
         (Basic.analysePatterns tz now eps).
Proof.
  intros I. unfold Basic.analysePatternsM, Basic.analysePatterns. cbv zeta.
  eapply yields_then; [apply yields_read, I |]. intros h0 K0.
  destruct (JS.len eps =? 0); [apply yields_ret |].
  pose proof (K0 _ _ I) as I0.
  eapply yields_then; [apply basic_topTriggers_store, I0 |]. intros h1 K1.
  pose proof (K1 _ _ I0) as I1.
  eapply yields_then; [apply basic_timeOfDay_store, I1 |]. intros h2 K2.
  pose proof (K2 _ _ I1) as I2.
  eapply yields_then; [apply basic_dayOfWeek_store, I2 |]. intros h3 K3.
  pose proof (K3 _ _ I2) as I3.
  eapply yields_then; [apply basic_risingIntensity_store, I3 |]. intros h4 K4.
  pose proof (K4 _ _ I3) as I4.
  apply basic_medicationOveruse_store, I4.
Qed.

End BasicEngineOnStore.

Section ExtendedOnStore.

Import Store StoreFacts.
Local Open Scope list_scope.

Variables (tz : JS.Zone) (now : Z) (input : loc) (eps : list Episode).
Variable h : store.
Hypothesis I : nth_error h input = Some (Episodes eps).

Lemma extended_topTriggers_store (s : list Finding) :
  yields (Extended.topTriggersRuleM tz now input s) h
         (Extended.topTriggersRule tz now eps s).
Proof.
  unfold Extended.topTriggersRuleM, Extended.inLastDaysM,
    Extended.topTriggersRule, Extended.inLastDays.
  store_rule I.
Qed.

Lemma extended_timeOfDay_store (s : list Finding) :
  yields (Extended.timeOfDayRuleM tz now input s) h
         (Extended.timeOfDayRule tz now eps s).
Proof.
  unfold Extended.timeOfDayRuleM, Extended.inLastDaysM, Extended.timeOfDayRule,
    Extended.inLastDays, Extended.minutesOf; cbv zeta.
  store_rule I.
Qed.

Lemma extended_dayOfWeek_store (s : list Finding) :
  yields (Extended.dayOfWeekRuleM tz now input s) h
         (Extended.dayOfWeekRule tz now eps s).
Proof.
  unfold Extended.dayOfWeekRuleM, Extended.inLastDaysM, Extended.dayOfWeekRule,
    Extended.inLastDays.
  store_rule I.
Qed.

Lemma extended_risingIntensity_store (s : list Finding) :
  yields (Extended.risingIntensityRuleM tz now input s) h
         (Extended.risingIntensityRule tz now eps s).
Proof.
  unfold Extended.risingIntensityRuleM, Extended.inLastDaysM,
    Extended.risingIntensityRule, Extended.inLastDays; cbv zeta.
  store_rule I.
Qed.

Lemma extended_medicationOveruse_store (s : list Finding) :
  yields (Extended.medicationOveruseRuleM tz now input s) h
         (Extended.medicationOveruseRule tz now eps s).
Proof.
  unfold Extended.medicationOveruseRuleM, Extended.inLastDaysM,
    Extended.medicationOveruseRule, Extended.inLastDays.
  store_rule I.
Qed.

Lemma extended_byHour_store (s : list Finding) :
  yields (Extended.averageIntensityByHourRuleM tz now input s) h
         (Extended.averageIntensityByHourRule tz now eps s).
Proof.
  unfold Extended.averageIntensityByHourRuleM, Extended.inLastDaysM,
    Extended.averageIntensityByHourRule, Extended.inLastDays.
  store_rule I.
Qed.

Lemma extended_byWeekday_store (s : list Finding) :
  yields (Extended.averageIntensityByWeekdayRuleM tz now input s) h
         (Extended.averageIntensityByWeekdayRule tz now eps s).
Proof.
  unfold Extended.averageIntensityByWeekdayRuleM, Extended.inLastDaysM,
    Extended.averageIntensityByWeekdayRule, Extended.inLastDays.
  store_rule I.
Qed.

Lemma extended_streak_store (s : list Finding) :
  yields (Extended.streakRuleM tz input s) h
         (Extended.streakRule tz eps s).
Proof.
  unfold Extended.streakRuleM, Extended.computeStreakM, Extended.streakRule,
    Extended.computeStreak; cbv zeta.
  store_rule I.
Qed.

Lemma extended_weeklyChange_store (s : list Finding) :
  yields (Extended.weeklyChangeRuleM tz now input s) h
         (Extended.weeklyChangeRule tz now eps s).
Proof.
  unfold Extended.weeklyChangeRuleM, Extended.inLastDaysM,
    Extended.weeklyChangeRule, Extended.lastWeek, Extended.prevWeek,
    Extended.inLastDays.
  store_rule I.
Qed.

End ExtendedOnStore.

Section ExtendedEngineOnStore.

Import Store StoreFacts.
Local Open Scope list_scope.

Variables (tz : JS.Zone) (now : Z) (input : loc) (eps : list Episode).

Lemma extended_analysePatterns_store (h : store) :
  nth_error h input = Some (Episodes eps) ->
  yields (Extended.analysePatternsM tz now input) h
         (Extended.analysePatterns tz now eps).
Proof.
  intros I. unfold Extended.analysePatternsM, Extended.analysePatterns. cbv zeta.
  eapply yields_then; [apply yields_read, I |]. intros h0 K0.
  destruct (JS.len eps =? 0); [apply yields_ret |].
  pose proof (K0 _ _ I) as I0.
  eapply yields_then; [apply extended_topTriggers_store, I0 |]. intros h1 K1.
  pose proof (K1 _ _ I0) as I1.
  eapply yields_then; [apply extended_timeOfDay_store, I1 |]. intros h2 K2.
  pose proof (K2 _ _ I1) as I2.
  eapply yields_then; [apply extended_dayOfWeek_store, I2 |]. intros h3 K3.
  pose proof (K3 _ _ I2) as I3.
  eapply yields_then; [apply extended_risingIntensity_store, I3 |]. intros h4 K4.
  pose proof (K4 _ _ I3) as I4.
  destruct (Extended.risingIntensityRule tz now eps _) as [s4 | e];
    [| apply yields_ret].
  cbn [andThen].
  eapply yields_then; [apply extended_medicationOveruse_store, I4 |]. intros h5 K5.
  pose proof (K5 _ _ I4) as I5.
  eapply yields_then; [apply extended_byHour_store, I5 |]. intros h6 K6.
  pose proof (K6 _ _ I5) as I6.
  eapply yields_then; [apply extended_byWeekday_store, I6 |]. intros h7 K7.
  pose proof (K7 _ _ I6) as I7.
  eapply yields_then; [apply extended_streak_store, I7 |]. intros h8 K8.
  pose proof (K8 _ _ I7) as I8.
  eapply yields_then; [apply extended_weeklyChange_store, I8 |]. intros h9 K9.
  apply yields_ret.
Qed.

End ExtendedEngineOnStore.

(** ** The caller's array is left as it was *)

(** Three episodes, not in date order. *)
Definition unsorted : list Episode :=
  [ episodeAt "2023-11-12T09:30:00.000Z";
    episodeAt "2023-11-14T07:00:00.000Z";
    episodeAt "2023-11-13T21:15:00.000Z" ].

(** In the model a sort does reorder its receiver: sorting the caller's
    array itself would change it. *)
Example sort_reorders_its_receiver :
  snd (Store.sortE 0%nat (Extended.newestFirst 0) [Store.Episodes unsorted])
  = [Store.Episodes
       [ episodeAt "2023-11-14T07:00:00.000Z";
         episodeAt "2023-11-13T21:15:00.000Z";
         episodeAt "2023-11-12T09:30:00.000Z" ]].
Proof. vm_compute. reflexivity. Qed.

(** C7.  Run on a store that holds the caller's array at [input], either
    variant of [analysePatterns] returns what it returns on the list of
    the array's elements, and leaves a store in which the caller's array,
    like every array that was there before the call, holds the same
    records in the same order: every sort reaches an array that the call
    itself created (the copy made by [slice] in the streak rule, the array
    made by [map] in the time-of-day rule). *)
Theorem analysePatterns_leaves_input (tz : JS.Zone) (now : Z) (h : Store.store)
    (input : Store.loc) (eps : list Episode) :
  nth_error h input = Some (Store.Episodes eps) ->
  (fst (Basic.analysePatternsM tz now input h) = Basic.analysePatterns tz now eps
   /\ nth_error (snd (Basic.analysePatternsM tz now input h)) input
      = Some (Store.Episodes eps)
   /\ StoreFacts.keeps h (snd (Basic.analysePatternsM tz now input h)))
  /\ (fst (Extended.analysePatternsM tz now input h)
      = Extended.analysePatterns tz now eps
      /\ nth_error (snd (Extended.analysePatternsM tz now input h)) input
         = Some (Store.Episodes eps)
      /\ StoreFacts.keeps h (snd (Extended.analysePatternsM tz now input h))).
Proof.
  intros I. split.
  - pose proof (basic_analysePatterns_store tz now input eps h I) as Y.
    pose proof (StoreFacts.yields_keeps _ _ _ Y) as K.
    destruct Y as (ext & E). rewrite E in *. simpl in *.
    split; [reflexivity |]. split; [apply K, I | exact K].
  - pose proof (extended_analysePatterns_store tz now input eps h I) as Y.
    pose proof (StoreFacts.yields_keeps _ _ _ Y) as K.
    destruct Y as (ext & E). rewrite E in *. simpl in *.
    split; [reflexivity |]. split; [apply K, I | exact K].
Qed.

(** C7 at a concrete store: the three unsorted episodes are still in their
    order after the extended variant has run. *)
Lemma analysePatterns_leaves_input_witness :
  nth_error [Store.Episodes unsorted] 0 = Some (Store.Episodes unsorted)
  /\ nth_error
       (snd (Extended.analysePatternsM 0 1700000000000 0%nat [Store.Episodes unsorted]))
       0
     = Some (Store.Episodes unsorted).
Proof.
  split; [reflexivity |].
  exact (proj1 (proj2 (proj2
           (analysePatterns_leaves_input 0 1700000000000
              [Store.Episodes unsorted] 0%nat unsorted eq_refl)))).
Defined.

(** ** Absent fields *)

(** An episode with its absent fields filled in: intensity 0, no triggers,
    no medications. *)
Definition withDefaults (ep : Episode) : Episode :=
  {| id := id ep;
     datetime := datetime ep;
     intensity := Some (match intensity ep with Some x => x | None => 0%float end);
     durationMinutes := durationMinutes ep;
     triggers := Some (orEmpty (triggers ep));
     medications := Some (orEmpty (medications ep));
     notes := notes ep |}.

(** The same for the two collections only. *)
Definition withEmptyCollections (ep : Episode) : Episode :=
  {| id := id ep;
     datetime := datetime ep;
     intensity := intensity ep;
     durationMinutes := durationMinutes ep;
     triggers := Some (orEmpty (triggers ep));
     medications := Some (orEmpty (medications ep));
     notes := notes ep |}.

Section ListFacts.

Context {A B : Type}.

Lemma fold_left_map_in {S : Type} (g : S -> B -> S) (f : A -> B) (l : list A) (a : S) :
  fold_left g (map f l) a = fold_left (fun a x => g a (f x)) l a.
Proof. revert a. induction l as [|x l IH]; intros a; simpl; auto. Qed.

Lemma fold_left_pointwise {S : Type} (g g' : S -> A -> S) (l : list A) (a : S) :
  (forall a x, g a x = g' a x) -> fold_left g l a = fold_left g' l a.
Proof.
  intros E. revert a. induction l as [|x l IH]; intros a; simpl; [reflexivity |].
  rewrite E. apply IH.
Qed.

Lemma filter_map_commute (p : B -> bool) (q : A -> bool) (f : A -> B) (l : list A) :
  (forall x, p (f x) = q x) -> filter p (map f l) = map f (filter q l).
Proof.
  intros E. induction l as [|x l IH]; simpl; [reflexivity |].
  rewrite E. destruct (q x); simpl; rewrite IH; reflexivity.
Qed.

Lemma len_map (f : A -> B) (l : list A) : JS.len (map f l) = JS.len l.
Proof. unfold JS.len. rewrite length_map. reflexivity. Qed.

Lemma insertBy_map (cmp : B -> B -> option Z) (cmp' : A -> A -> option Z)
    (f : A -> B) (x : A) (l : list A) :
  (forall a b, cmp (f a) (f b) = cmp' a b) ->
  JS.insertBy cmp (f x) (map f l) = map f (JS.insertBy cmp' x l).
Proof.
  intros E. induction l as [|y l IH]; simpl; [reflexivity |].
  rewrite E. destruct (JS.positive (cmp' x y)); simpl; [rewrite IH |]; reflexivity.
Qed.

Lemma sortBy_map (cmp : B -> B -> option Z) (cmp' : A -> A -> option Z)
    (f : A -> B) (l : list A) :
  (forall a b, cmp (f a) (f b) = cmp' a b) ->
  JS.sortBy cmp (map f l) = map f (JS.sortBy cmp' l).
Proof.
  intros E. induction l as [|x l IH]; simpl; [reflexivity |].
  fold (JS.sortBy cmp (map f l)). fold (JS.sortBy cmp' l).
  rewrite IH. apply insertBy_map, E.
Qed.

End ListFacts.

(** A fold over [map g l] against the fold over [l], when the step does
    not tell [g x] from [x]; [tac] proves that. *)
Ltac fold_view tac :=
  match goal with
  | |- context [fold_left ?F (map ?g ?l) ?a] =>
      replace (fold_left F (map g l) a) with (fold_left F l a);
      [| symmetry; rewrite fold_left_map_in; apply fold_left_pointwise;
         intros; cbv beta zeta; tac ]
  end.

(** The rules read an episode through its date, its triggers and
    medications after [|| []], and its intensity; [g] changes none of the
    first three. *)
Section Views.

Variable g : Episode -> Episode.
Hypothesis g_datetime : forall ep, datetime (g ep) = datetime ep.
Hypothesis g_triggers : forall ep, orEmpty (triggers (g ep)) = orEmpty (triggers ep).
Hypothesis g_medications :
  forall ep, orEmpty (medications (g ep)) = orEmpty (medications ep).

Variables (tz : JS.Zone) (now : Z).

Lemma view_when (ep : Episode) : Basic.when tz (g ep) = Basic.when tz ep.
Proof. unfold Basic.when. rewrite g_datetime. reflexivity. Qed.

Lemma view_timeValue (ep : Episode) :
  Basic.timeValue tz (g ep) = Basic.timeValue tz ep.
Proof. unfold Basic.timeValue. rewrite view_when. reflexivity. Qed.

Lemma view_inWindow (days : Z) (ep : Episode) :
  Basic.inWindow tz now days (g ep) = Basic.inWindow tz now days ep.
Proof. unfold Basic.inWindow. rewrite view_when. reflexivity. Qed.

Lemma view_inLastDays (eps : list Episode) (days : Z) :
  Basic.inLastDays tz now (map g eps) days
  = map g (Basic.inLastDays tz now eps days).
Proof. apply filter_map_commute, view_inWindow. Qed.

Lemma view_minutesOf (l : list Episode) :
  Basic.minutesOf tz (map g l) = Basic.minutesOf tz l.
Proof.
  unfold Basic.minutesOf. rewrite map_map. f_equal. apply map_ext.
  intros ep. unfold Basic.minuteOfDay. rewrite view_timeValue. reflexivity.
Qed.

Lemma view_basic_countTriggers (l : list Episode) :
  Basic.countTriggers (map g l) = Basic.countTriggers l.
Proof.
  unfold Basic.countTriggers. rewrite fold_left_map_in.
  apply fold_left_pointwise. intros o ep. rewrite g_triggers. reflexivity.
Qed.

Lemma view_extended_countTriggers (l : list Episode) :
  Extended.countTriggers (map g l) = Extended.countTriggers l.
Proof.
  unfold Extended.countTriggers. rewrite fold_left_map_in.
  apply fold_left_pointwise. intros o ep. rewrite g_triggers. reflexivity.
Qed.

Lemma view_basic_topTriggers (l : list Episode) (s : list Finding) :
  Basic.topTriggersOn (map g l) s = Basic.topTriggersOn l s.
Proof.
  unfold Basic.topTriggersOn, Basic.commonTriggers.
  rewrite view_basic_countTriggers, len_map. reflexivity.
Qed.

Lemma view_extended_topTriggers (l : list Episode) (s : list Finding) :
  Extended.topTriggersOn (map g l) s = Extended.topTriggersOn l s.
Proof.
  unfold Extended.topTriggersOn, Extended.common.
  rewrite view_extended_countTriggers, len_map. reflexivity.
Qed.

Lemma view_basic_dayOfWeek (l : list Episode) (s : list Finding) :
  Basic.dayOfWeekOn tz (map g l) s = Basic.dayOfWeekOn tz l s.
Proof.
  unfold Basic.dayOfWeekOn. rewrite len_map.
  fold_view ltac:(rewrite view_timeValue; reflexivity). reflexivity.
Qed.

Lemma view_extended_dayOfWeek (l : list Episode) (s : list Finding) :
  Extended.dayOfWeekOn tz (map g l) s = Extended.dayOfWeekOn tz l s.
Proof.
  unfold Extended.dayOfWeekOn. rewrite len_map.
  fold_view ltac:(change Extended.timeValue with Basic.timeValue;
                  rewrite view_timeValue; reflexivity).
  reflexivity.
Qed.

Lemma view_medicated (ep : Episode) : medicated (g ep) = medicated ep.
Proof. unfold medicated. rewrite g_medications. reflexivity. Qed.

Lemma view_basic_medicationDays_from (l : list Episode) (acc : Completion (list string)) :
  fold_left (fun acc ep => andThen acc (fun days => Basic.noteMedicationDay tz days ep))
            (map g l) acc
  = fold_left (fun acc ep => andThen acc (fun days => Basic.noteMedicationDay tz days ep))
              l acc.
Proof.
  rewrite fold_left_map_in. apply fold_left_pointwise.
  intros a ep. destruct a as [days | e]; [| reflexivity]. simpl.
  unfold Basic.noteMedicationDay. rewrite g_medications, view_when. reflexivity.
Qed.

Lemma view_basic_medication (l : list Episode) (s : list Finding) :
  Basic.medicationOveruseOn tz (map g l) s = Basic.medicationOveruseOn tz l s.
Proof.
  unfold Basic.medicationOveruseOn, Basic.medicationDays.
  rewrite view_basic_medicationDays_from. reflexivity.
Qed.

Lemma view_extended_medication (l : list Episode) (s : list Finding) :
  Extended.medicationOveruseOn (map g l) s = Extended.medicationOveruseOn l s.
Proof.
  unfold Extended.medicationOveruseOn, Extended.medicationDays.
  fold_view ltac:(rewrite g_medications, g_datetime; reflexivity). reflexivity.
Qed.

(** *** The basic variant, which reads the intensity as it is *)

Hypothesis g_intensity :
  forall ep, JS.toNumber (intensity (g ep)) = JS.toNumber (intensity ep).

Lemma view_basic_average (l : list Episode) :
  Basic.average (map g l) = Basic.average l.
Proof.
  unfold Basic.average. rewrite len_map.
  fold_view ltac:(rewrite g_intensity; reflexivity). reflexivity.
Qed.

Lemma view_basic_rising (eps : list Episode) (s : list Finding) :
  Basic.risingIntensityRule tz now (map g eps) s
  = Basic.risingIntensityRule tz now eps s.
Proof.
  unfold Basic.risingIntensityRule. cbv zeta.
  rewrite (filter_map_commute _ (fun ep => JS.dateGe (Basic.when tz ep)
                                                    (Basic.cutoffDate tz now 42)) g)
    by (intros ep; rewrite view_when; reflexivity).
  rewrite len_map.
  rewrite (filter_map_commute _ (fun ep => JS.dateLt (Basic.when tz ep)
                                                    (Basic.cutoffDate tz now 21)) g)
    by (intros ep; rewrite view_when; reflexivity).
  rewrite (filter_map_commute _ (fun ep => JS.dateGe (Basic.when tz ep)
                                                    (Basic.cutoffDate tz now 21)) g)
    by (intros ep; rewrite view_when; reflexivity).
  unfold Basic.risingIntensityOn.
  rewrite !len_map, !view_basic_average. reflexivity.
Qed.

Lemma view_basic_analysePatterns (eps : list Episode) :
  Basic.analysePatterns tz now (map g eps) = Basic.analysePatterns tz now eps.
Proof.
  unfold Basic.analysePatterns, Basic.medicationOveruseRule, Basic.dayOfWeekRule,
    Basic.timeOfDayRule, Basic.topTriggersRule. cbv zeta.
  rewrite !view_inLastDays, !len_map, view_basic_rising.
  rewrite view_basic_medication, view_basic_dayOfWeek, view_minutesOf,
    view_basic_topTriggers.
  reflexivity.
Qed.

(** *** The extended variant, which reads the intensity through
    [Number(ep.intensity || 0)] *)

Hypothesis g_number :
  forall ep, JS.numberOrZero (intensity (g ep)) = JS.numberOrZero (intensity ep).

Lemma view_weekAverage (l : list Episode) :
  Extended.weekAverage (map g l) = Extended.weekAverage l.
Proof.
  unfold Extended.weekAverage. rewrite len_map.
  fold_view ltac:(rewrite g_number; reflexivity). reflexivity.
Qed.

Lemma view_weekKey (ep : Episode) : Extended.weekKey tz (g ep) = Extended.weekKey tz ep.
Proof.
  unfold Extended.weekKey. change Extended.timeValue with Basic.timeValue.
  rewrite view_timeValue. reflexivity.
Qed.

(** The groups of [map g l] are the groups of [l], with [g] applied to
    their members. *)
Definition mapGroups (o : Extended.IdxObj (list Episode))
  : Extended.IdxObj (list Episode) :=
  map (fun e => (fst e, map g (snd e))) o.

Lemma idxGet_mapGroups (o : Extended.IdxObj (list Episode)) (k : Z) :
  Extended.idxGet (mapGroups o) k = option_map (map g) (Extended.idxGet o k).
Proof.
  induction o as [|[k0 v0] o IH]; simpl; [reflexivity |].
  destruct (k =? k0); [reflexivity | exact IH].
Qed.

Lemma idxSet_mapGroups (o : Extended.IdxObj (list Episode)) (k : Z)
    (v : list Episode) :
  Extended.idxSet (mapGroups o) k (map g v) = mapGroups (Extended.idxSet o k v).
Proof.
  induction o as [|[k0 v0] o IH]; simpl; [reflexivity |].
  destruct (k =? k0); simpl; [reflexivity | rewrite IH; reflexivity].
Qed.

Lemma groupBy_mapGroups (l : list Episode) (acc : Extended.IdxObj (list Episode)) :
  fold_left
    (fun acc item =>
       let key := Extended.weekKey tz item in
       Extended.idxSet acc key
         (match Extended.idxGet acc key with Some v => v | None => [] end ++ [item])%list)
    (map g l) (mapGroups acc)
  = mapGroups
      (fold_left
         (fun acc item =>
            let key := Extended.weekKey tz item in
            Extended.idxSet acc key
              (match Extended.idxGet acc key with Some v => v | None => [] end
               ++ [item])%list)
         l acc).
Proof.
  revert acc. induction l as [|x l IH]; intros acc; simpl; [reflexivity |].
  rewrite <- IH. f_equal.
  rewrite view_weekKey, idxGet_mapGroups, <- idxSet_mapGroups. f_equal.
  destruct (Extended.idxGet acc (Extended.weekKey tz x));
    simpl; [rewrite map_app |]; reflexivity.
Qed.

Lemma view_groupBy (l : list Episode) :
  Extended.groupBy (map g l) (Extended.weekKey tz)
  = mapGroups (Extended.groupBy l (Extended.weekKey tz)).
Proof. exact (groupBy_mapGroups l []). Qed.

Lemma view_idxEntries (o : Extended.IdxObj (list Episode)) :
  Extended.idxEntries (mapGroups o) = mapGroups (Extended.idxEntries o).
Proof.
  unfold Extended.idxEntries, mapGroups. apply sortBy_map. reflexivity.
Qed.

Lemma view_keys (o : Extended.IdxObj (list Episode)) :
  map fst (mapGroups o) = map fst o.
Proof. unfold mapGroups. rewrite map_map. reflexivity. Qed.

Lemma view_weeklyAverages (o : Extended.IdxObj (list Episode)) (wns : list Z) :
  Extended.weeklyAverages (mapGroups o) wns = Extended.weeklyAverages o wns.
Proof.
  induction wns as [|wn r IH]; simpl; [reflexivity |].
  rewrite idxGet_mapGroups, IH.
  destruct (Extended.idxGet o wn); simpl; [| reflexivity].
  rewrite view_weekAverage. reflexivity.
Qed.

Lemma view_extended_rising (eps : list Episode) (s : list Finding) :
  Extended.risingIntensityRule tz now (map g eps) s
  = Extended.risingIntensityRule tz now eps s.
Proof.
  unfold Extended.risingIntensityRule. cbv zeta.
  change Extended.inLastDays with Basic.inLastDays.
  rewrite view_inLastDays, len_map, view_groupBy, view_idxEntries, view_keys.
  unfold Extended.risingIntensityOn. rewrite view_weeklyAverages. reflexivity.
Qed.

Lemma view_bucketsBy (keyFn : Z -> Z) (l : list Episode) :
  Extended.bucketsBy tz keyFn (map g l) = Extended.bucketsBy tz keyFn l.
Proof.
  unfold Extended.bucketsBy.
  fold_view ltac:(change Extended.timeValue with Basic.timeValue;
                  rewrite view_timeValue, g_number; reflexivity).
  reflexivity.
Qed.

Lemma view_newestFirst (a b : Episode) :
  Extended.newestFirst tz (g a) (g b) = Extended.newestFirst tz a b.
Proof.
  unfold Extended.newestFirst. change Extended.when with Basic.when.
  rewrite !view_when. reflexivity.
Qed.

Lemma view_computeStreak (l : list Episode) :
  Extended.computeStreak tz (map g l) = Extended.computeStreak tz l.
Proof.
  unfold Extended.computeStreak. rewrite len_map, map_map.
  replace (map (fun x => Extended.dayString (g x)) l) with (map Extended.dayString l);
    [reflexivity |].
  apply map_ext. intros ep. unfold Extended.dayString. rewrite g_datetime. reflexivity.
Qed.

Lemma view_streak (eps : list Episode) (s : list Finding) :
  Extended.streakRule tz (map g eps) s = Extended.streakRule tz eps s.
Proof.
  unfold Extended.streakRule. cbv zeta.
  rewrite (sortBy_map _ (Extended.newestFirst tz) g) by apply view_newestFirst.
  rewrite view_computeStreak. reflexivity.
Qed.

Lemma view_weeklyChange (eps : list Episode) (s : list Finding) :
  Extended.weeklyChangeRule tz now (map g eps) s
  = Extended.weeklyChangeRule tz now eps s.
Proof.
  unfold Extended.weeklyChangeRule, Extended.weeklyChangeOn, Extended.lastWeek,
    Extended.prevWeek. cbv zeta.
  change Extended.inLastDays with Basic.inLastDays.
  rewrite view_inLastDays, len_map.
  rewrite (filter_map_commute _ (Extended.inPrevWeek tz now) g), len_map;
    [reflexivity |].
  intros ep. unfold Extended.inPrevWeek. change Extended.when with Basic.when.
  rewrite view_when. reflexivity.
Qed.

Lemma view_extended_analysePatterns (eps : list Episode) :
  Extended.analysePatterns tz now (map g eps) = Extended.analysePatterns tz now eps.
Proof.
  unfold Extended.analysePatterns. cbv zeta.
  rewrite len_map, view_extended_rising.
  destruct (JS.len eps =? 0); [reflexivity |].
  unfold Extended.dayOfWeekRule, Extended.timeOfDayRule, Extended.topTriggersRule.
  cbv zeta. change Extended.inLastDays with Basic.inLastDays.
  change Extended.minutesOf with Basic.minutesOf.
  rewrite !view_inLastDays, !len_map, view_extended_dayOfWeek, view_minutesOf,
    view_extended_topTriggers.
  destruct (Extended.risingIntensityRule tz now eps _) as [s4 | e]; [| reflexivity].
  cbn [andThen]. f_equal.
  rewrite view_weeklyChange, view_streak.
  unfold Extended.averageIntensityByWeekdayRule, Extended.averageIntensityByHourRule,
    Extended.medicationOveruseRule. cbv zeta.
  change Extended.inLastDays with Basic.inLastDays.
  rewrite !view_inLastDays.
  unfold Extended.averageIntensityByWeekdayOn, Extended.averageIntensityByHourOn.
  rewrite !len_map, !view_bucketsBy, view_extended_medication.
  reflexivity.
Qed.

End Views.

Definition withoutIntensity (dt : string) : Episode :=
  {| id := "n"; datetime := dt; intensity := None; durationMinutes := 30;
     triggers := None; medications := None; notes := None |}.

(** C6, at a concrete input (the clock reads 2023-11-14T22:13:20Z).  The
    older half holds an episode without intensity and one of intensity 4,
    the newer half one of intensity 5.  Were the absent intensity read as
    0 the older average would be 2 and the basic rule would fire; it reads
    [undefined], the average is [NaN], and the rule stays silent. *)
Lemma basic_absent_intensity_is_not_zero :
  let now := 1700000000000 in
  let eps := [ withoutIntensity "2023-10-14T12:00:00.000Z";
               withIntensity "2023-10-15T12:00:00.000Z" 4%float;
               withIntensity "2023-11-14T12:00:00.000Z" 5%float ] in
  PrimFloat.is_nan (avg1 0 now eps) = true
  /\ Basic.analysePatterns 0 now eps
     <> Basic.analysePatterns 0 now (map withDefaults eps)
  /\ (exists f, Basic.risingIntensityRule 0 now (map withDefaults eps) [] = [f]
                /\ JS.includes (message f) "(2.0)" = true)
  /\ Basic.risingIntensityRule 0 now eps [] = [].
Proof.
  cbv zeta. split; [vm_compute; reflexivity |].
  split; [vm_compute; discriminate |].
  split; [| vm_compute; reflexivity].
  eexists. split; vm_compute; reflexivity.
Qed.

Lemma basic_never_throws (tz : JS.Zone) (now : Z) (episodes : list Episode) :
  exists findings, Basic.analysePatterns tz now episodes = Normal findings.
Proof.
  unfold Basic.analysePatterns. cbv zeta.
  destruct (JS.len episodes =? 0); [eexists; reflexivity |].
  unfold Basic.medicationOveruseRule, Basic.medicationOveruseOn. cbv zeta.
  rewrite basic_medicationDays. eexists. reflexivity.
Qed.

Lemma extended_never_throws (tz : JS.Zone) (now : Z) (episodes : list Episode) :
  exists findings, Extended.analysePatterns tz now episodes = Normal findings.
Proof.
  unfold Extended.analysePatterns. cbv zeta.
  destruct (JS.len episodes =? 0); [eexists; reflexivity |].
  rewrite extended_rising. eexists. reflexivity.
Qed.

(** C6, as amended.  Neither variant of [analysePatterns] throws, whatever
    optional fields the episodes omit.  The extended variant treats an
    absent intensity as 0 and absent triggers and medications as empty
    collections in every rule: it returns the same findings when the
    absent fields are filled in with these values.  The basic variant
    treats absent triggers and medications as empty collections in every
    rule. *)
Theorem analysePatterns_absent_fields (tz : JS.Zone) (now : Z) (episodes : list Episode) :
  (exists findings, Basic.analysePatterns tz now episodes = Normal findings)
  /\ (exists findings, Extended.analysePatterns tz now episodes = Normal findings)
  /\ Extended.analysePatterns tz now (map withDefaults episodes)
     = Extended.analysePatterns tz now episodes
  /\ Basic.analysePatterns tz now (map withEmptyCollections episodes)
     = Basic.analysePatterns tz now episodes.
Proof.
  split; [apply basic_never_throws |].
  split; [apply extended_never_throws |].
  split.
  - apply view_extended_analysePatterns; try reflexivity.
    intros ep. unfold withDefaults. cbn [intensity].
    destruct (intensity ep); reflexivity.
  - apply view_basic_analysePatterns; reflexivity.
Qed.

(** * Further properties of the rules *)

(** ** What a call returns: one slot per rule *)

(** What a rule adds to the suggestions: nothing, or one finding whose
    title is among [titles]. *)
Definition adds (titles : list string) (added : list Finding) : Prop :=
  added = [] \/ exists f, added = [f] /\ In (title f) titles.

(** A rule reads nothing of the suggestions it is handed: it returns them
    followed by what it adds. *)
Definition appends (rule : list Finding -> list Finding) (titles : list string)
  : Prop :=
  (forall s, rule s = (s ++ rule [])%list) /\ adds titles (rule []).

Ltac appends_tac :=
  split;
  [ intros s; cbv zeta;
    repeat lazymatch goal with
           | |- (if ?c then _ else _) = _ => destruct c
           | |- match ?x with [] => _ | _ :: _ => _ end = _ => destruct x
           end;
    first [ reflexivity | symmetry; apply app_nil_r ]
  | cbv zeta;
    repeat lazymatch goal with
           | |- adds _ (if ?c then _ else _) => destruct c
           | |- adds _ (match ?x with [] => _ | _ :: _ => _ end) => destruct x
           end;
    first [ left; reflexivity
          | right; eexists; split; [reflexivity | cbn [title In]; tauto] ] ].

Section Slots.

Variables (tz : JS.Zone) (now : Z) (eps : list Episode).

Lemma basic_topTriggers_appends :
  appends (Basic.topTriggersRule tz now eps) ["Frequent triggers"].
Proof. unfold Basic.topTriggersRule, Basic.topTriggersOn. appends_tac. Qed.

Lemma basic_timeOfDay_appends :
  appends (Basic.timeOfDayRule tz now eps) ["Time‑of‑day pattern"].
Proof. unfold Basic.timeOfDayRule, Basic.timeOfDayOn. appends_tac. Qed.

Lemma basic_dayOfWeek_appends :
  appends (Basic.dayOfWeekRule tz now eps) ["Day‑of‑week trend"].
Proof. unfold Basic.dayOfWeekRule, Basic.dayOfWeekOn. appends_tac. Qed.

Lemma basic_rising_appends :
  appends (Basic.risingIntensityRule tz now eps) ["Rising intensity"].
Proof. unfold Basic.risingIntensityRule, Basic.risingIntensityOn. appends_tac. Qed.

Lemma extended_topTriggers_appends :
  appends (Extended.topTriggersRule tz now eps) ["Frequent triggers"].
Proof. unfold Extended.topTriggersRule, Extended.topTriggersOn. appends_tac. Qed.

Lemma extended_timeOfDay_appends :
  appends (Extended.timeOfDayRule tz now eps) ["Time‑of‑day cluster"].
Proof. unfold Extended.timeOfDayRule, Extended.timeOfDayOn. appends_tac. Qed.

Lemma extended_dayOfWeek_appends :
  appends (Extended.dayOfWeekRule tz now eps) ["Day‑of‑week cluster"].
Proof. unfold Extended.dayOfWeekRule, Extended.dayOfWeekOn. appends_tac. Qed.

Lemma extended_medication_appends :
  appends (Extended.medicationOveruseRule tz now eps) ["Medication usage"].
Proof.
  unfold Extended.medicationOveruseRule, Extended.medicationOveruseOn. appends_tac.
Qed.

Lemma extended_byHour_appends :
  appends (Extended.averageIntensityByHourRule tz now eps) ["Peak intensity hour"].
Proof.
  unfold Extended.averageIntensityByHourRule, Extended.averageIntensityByHourOn.
  appends_tac.
Qed.

Lemma extended_byWeekday_appends :
  appends (Extended.averageIntensityByWeekdayRule tz now eps) ["Toughest day"].
Proof.
  unfold Extended.averageIntensityByWeekdayRule, Extended.averageIntensityByWeekdayOn.
  appends_tac.
Qed.

Lemma extended_streak_appends :
  appends (Extended.streakRule tz eps) ["Consistent tracking"].
Proof. unfold Extended.streakRule, Extended.streakOn. appends_tac. Qed.

Lemma extended_weeklyChange_appends :
  appends (Extended.weeklyChangeRule tz now eps)
          ["Increased frequency"; "Decreased frequency"].
Proof.
  unfold Extended.weeklyChangeRule, Extended.weeklyChangeOn. appends_tac.
Qed.

(** The medication rule of the basic variant and the rising-intensity rule
    of the extended one, which can end in an exception in principle, as
    the functions they are. *)
Definition basicMedicationRule (s : list Finding) : list Finding :=
  let days := collect _ medicated (utcDayKey tz) [] (Basic.inLastDays tz now eps 30) in
  if 10 <=? JS.len days then
    push s
      {| title := "Medication use";
         message := "You've taken migraine medication on "
           ++ JS.showZ (JS.len days)
           ++ " days in the last month. Overuse can sometimes worsen migraines – consider discussing your medication plan with a doctor." |}
  else s.

Definition extendedRisingRule (s : list Finding) : list Finding :=
  if gateExtended tz now eps
     && PrimFloat.ltb 0%float (prev3 tz now eps)
     && PrimFloat.leb (PrimFloat.mul (prev3 tz now eps) Extended.onePointTwo)
                      (last3 tz now eps)
  then
    push s
      {| title := "Rising intensity trend";
         message := "Your 3‑week average intensity has risen by over 20%. Consider consulting a healthcare provider or reviewing possible triggers." |}
  else s.

Lemma basic_medication_normal (s : list Finding) :
  Basic.medicationOveruseRule tz now eps s = Normal (basicMedicationRule s).
Proof.
  unfold Basic.medicationOveruseRule, Basic.medicationOveruseOn. cbv zeta.
  rewrite basic_medicationDays. reflexivity.
Qed.

Lemma extended_rising_normal (s : list Finding) :
  Extended.risingIntensityRule tz now eps s = Normal (extendedRisingRule s).
Proof. apply extended_rising. Qed.

Lemma basic_medication_appends : appends basicMedicationRule ["Medication use"].
Proof. unfold basicMedicationRule. appends_tac. Qed.

Lemma extended_rising_appends :
  appends extendedRisingRule ["Rising intensity trend"].
Proof. unfold extendedRisingRule. appends_tac. Qed.

(** What each variant returns on a non-empty list: the additions of its
    rules, one after the other. *)
Definition basicSlots : list (list Finding) :=
  [ Basic.topTriggersRule tz now eps [];
    Basic.timeOfDayRule tz now eps [];
    Basic.dayOfWeekRule tz now eps [];
    Basic.risingIntensityRule tz now eps [];
    basicMedicationRule [] ].

Definition extendedSlots : list (list Finding) :=
  [ Extended.topTriggersRule tz now eps [];
    Extended.timeOfDayRule tz now eps [];
    Extended.dayOfWeekRule tz now eps [];
    extendedRisingRule [];
    Extended.medicationOveruseRule tz now eps [];
    Extended.averageIntensityByHourRule tz now eps [];
    Extended.averageIntensityByWeekdayRule tz now eps [];
    Extended.streakRule tz eps [];
    Extended.weeklyChangeRule tz now eps [] ].

Lemma basic_analysePatterns_slots :
  Basic.analysePatterns tz now eps
  = Normal (if JS.len eps =? 0 then [] else List.concat basicSlots).
Proof.
  unfold Basic.analysePatterns. cbv zeta.
  destruct (JS.len eps =? 0); [reflexivity |].
  rewrite basic_medication_normal. f_equal.
  rewrite (proj1 basic_medication_appends),
    (proj1 basic_rising_appends), (proj1 basic_dayOfWeek_appends),
    (proj1 basic_timeOfDay_appends).
  unfold basicSlots. cbn [List.concat]. rewrite app_nil_r, <- !app_assoc. reflexivity.
Qed.

Lemma extended_analysePatterns_slots :
  Extended.analysePatterns tz now eps
  = Normal (if JS.len eps =? 0 then [] else List.concat extendedSlots).
Proof.
  unfold Extended.analysePatterns. cbv zeta.
  destruct (JS.len eps =? 0); [reflexivity |].
  rewrite extended_rising_normal. cbn [andThen]. f_equal.
  rewrite (proj1 extended_weeklyChange_appends),
    (proj1 extended_streak_appends), (proj1 extended_byWeekday_appends),
    (proj1 extended_byHour_appends), (proj1 extended_medication_appends),
    (proj1 extended_rising_appends), (proj1 extended_dayOfWeek_appends),
    (proj1 extended_timeOfDay_appends).
  unfold extendedSlots. cbn [List.concat]. rewrite app_nil_r, <- !app_assoc. reflexivity.
Qed.

End Slots.

(** The titles of the rules, in the order in which the rules run. *)
Definition basicTitles : list (list string) :=
  [ ["Frequent triggers"]; ["Time‑of‑day pattern"]; ["Day‑of‑week trend"];
    ["Rising intensity"]; ["Medication use"] ].

Definition extendedTitles : list (list string) :=
  [ ["Frequent triggers"]; ["Time‑of‑day cluster"]; ["Day‑of‑week cluster"];
    ["Rising intensity trend"]; ["Medication usage"]; ["Peak intensity hour"];
    ["Toughest day"]; ["Consistent tracking"];
    ["Increased frequency"; "Decreased frequency"] ].

Lemma adds_nothing (titles : list (list string)) :
  Forall2 adds titles (map (fun _ => []) titles).
Proof. induction titles; constructor; [left; reflexivity | assumption]. Qed.

Lemma concat_nothing {A B} (l : list A) : List.concat (map (fun _ => @nil B) l) = [].
Proof. induction l; simpl; auto. Qed.

(** X1.  The basic variant returns without an exception; what it returns is
    the concatenation of five slots, one per rule in the order top
    triggers, time of day, day of week, rising intensity, medication,
    where each slot is empty or holds one finding with the title of its
    rule.  So there are at most five findings, no title occurs twice, and
    the order of the findings is the order of the rules.  On the empty
    list every slot is empty. *)
Theorem basic_findings_in_rule_order (tz : JS.Zone) (now : Z) (episodes : list Episode) :
  exists slots,
    Basic.analysePatterns tz now episodes = Normal (List.concat slots)
    /\ Forall2 adds basicTitles slots
    /\ (episodes = [] -> List.concat slots = []).
Proof.
  rewrite basic_analysePatterns_slots.
  destruct (JS.len episodes =? 0) eqn:E.
  - exists (map (fun _ => []) basicTitles).
    split; [reflexivity |]. split; [apply adds_nothing | reflexivity].
  - exists (basicSlots tz now episodes).
    split; [reflexivity |]. split.
    + repeat apply Forall2_cons; try apply Forall2_nil.
      * apply (proj2 (basic_topTriggers_appends tz now episodes)).
      * apply (proj2 (basic_timeOfDay_appends tz now episodes)).
      * apply (proj2 (basic_dayOfWeek_appends tz now episodes)).
      * apply (proj2 (basic_rising_appends tz now episodes)).
      * apply (proj2 (basic_medication_appends tz now episodes)).
    + intros ->. discriminate E.
Qed.

(** X2.  The same for the extended variant and its nine rules, in the
    order top triggers, time of day, day of week, rising intensity,
    medication, peak hour, toughest day, streak, weekly change; the slot of
    the weekly-change rule holds at most one of its two findings. *)
Theorem extended_findings_in_rule_order (tz : JS.Zone) (now : Z) (episodes : list Episode) :
  exists slots,
    Extended.analysePatterns tz now episodes = Normal (List.concat slots)
    /\ Forall2 adds extendedTitles slots
    /\ (episodes = [] -> List.concat slots = []).
Proof.
  rewrite extended_analysePatterns_slots.
  destruct (JS.len episodes =? 0) eqn:E.
  - exists (map (fun _ => []) extendedTitles).
    split; [reflexivity |]. split; [apply adds_nothing | reflexivity].
  - exists (extendedSlots tz now episodes).
    split; [reflexivity |]. split.
    + repeat apply Forall2_cons; try apply Forall2_nil.
      * apply (proj2 (extended_topTriggers_appends tz now episodes)).
      * apply (proj2 (extended_timeOfDay_appends tz now episodes)).
      * apply (proj2 (extended_dayOfWeek_appends tz now episodes)).
      * apply (proj2 (extended_rising_appends tz now episodes)).
      * apply (proj2 (extended_medication_appends tz now episodes)).
      * apply (proj2 (extended_byHour_appends tz now episodes)).
      * apply (proj2 (extended_byWeekday_appends tz now episodes)).
      * apply (proj2 (extended_streak_appends tz episodes)).
      * apply (proj2 (extended_weeklyChange_appends tz now episodes)).
    + intros ->. discriminate E.
Qed.

(** ** The streak finding in what a call returns *)

Definition isStreakFinding (f : Finding) : bool :=
  String.eqb (title f) "Consistent tracking".

Lemma adds_filtered (titles : list string) (p : Finding -> bool) (l : list Finding) :
  adds titles l ->
  (forall f, In (title f) titles -> p f = false) ->
  filter p l = [].
Proof.
  intros [-> | (f & -> & T)] N; [reflexivity |].
  simpl. rewrite (N f T). reflexivity.
Qed.

Lemma adds_kept (titles : list string) (p : Finding -> bool) (l : list Finding) :
  adds titles l ->
  (forall f, In (title f) titles -> p f = true) ->
  filter p l = l.
Proof.
  intros [-> | (f & -> & T)] N; [reflexivity |].
  simpl. rewrite (N f T). reflexivity.
Qed.

Ltac other_title :=
  let f := fresh "f" in
  let T := fresh "T" in
  intros f T; unfold isStreakFinding; cbn [In] in T;
  repeat (destruct T as [T | T]; [rewrite <- T; reflexivity |]); destruct T.

(** X3.  The findings titled "Consistent tracking" in what the extended
    variant returns are what the streak rule adds, which is computed from
    the zone and the episodes alone: the reference instant [now] has no
    part in it, and no other rule emits that title. *)
Theorem streak_finding_ignores_now (tz : JS.Zone) (now : Z) (episodes : list Episode) :
  exists findings,
    Extended.analysePatterns tz now episodes = Normal findings
    /\ filter isStreakFinding findings = Extended.streakRule tz episodes [].
Proof.
  rewrite extended_analysePatterns_slots.
  eexists. split; [reflexivity |].
  destruct (JS.len episodes =? 0) eqn:E.
  - apply len_zero in E. subst episodes. reflexivity.
  - unfold extendedSlots. cbn [List.concat]. rewrite !filter_app.
    rewrite (adds_filtered _ _ _ (proj2 (extended_topTriggers_appends tz now episodes)))
      by other_title.
    rewrite (adds_filtered _ _ _ (proj2 (extended_timeOfDay_appends tz now episodes)))
      by other_title.
    rewrite (adds_filtered _ _ _ (proj2 (extended_dayOfWeek_appends tz now episodes)))
      by other_title.
    rewrite (adds_filtered _ _ _ (proj2 (extended_rising_appends tz now episodes)))
      by other_title.
    rewrite (adds_filtered _ _ _ (proj2 (extended_medication_appends tz now episodes)))
      by other_title.
    rewrite (adds_filtered _ _ _ (proj2 (extended_byHour_appends tz now episodes)))
      by other_title.
    rewrite (adds_filtered _ _ _ (proj2 (extended_byWeekday_appends tz now episodes)))
      by other_title.
    rewrite (adds_filtered _ _ _ (proj2 (extended_weeklyChange_appends tz now episodes)))
      by other_title.
    rewrite (adds_kept _ _ _ (proj2 (extended_streak_appends tz episodes)))
      by other_title.
    cbn [filter app]. rewrite app_nil_r. reflexivity.
Qed.

(** ** Windows within windows *)

Section WindowsCompose.

Variables (tz : JS.Zone) (now : Z) (episodes : list Episode).

Lemma filter_split {A} (p q r : A -> bool) (l : list A) :
  (forall x, r x = p x || q x) -> (forall x, p x && q x = false) ->
  Permutation (filter r l) (filter p l ++ filter q l).
Proof.
  intros R D. induction l as [|x l IH]; simpl; [constructor |].
  rewrite R. specialize (D x).
  destruct (p x), (q x); simpl in *; try discriminate.
  - apply perm_skip, IH.
  - rewrite IH. apply Permutation_middle.
  - exact IH.
Qed.

Lemma filter_twice {A} (p q : A -> bool) (l : list A) :
  filter p (filter q l) = filter (fun x => q x && p x) l.
Proof.
  induction l as [|x l IH]; simpl; [reflexivity |].
  destruct (q x); simpl; [destruct (p x) |]; rewrite IH; reflexivity.
Qed.

Lemma inWindow_spec (days : Z) (ep : Episode) :
  Basic.inWindow tz now days ep
  = match Basic.when tz ep with
    | Some t => daysBefore tz now days <=? t
    | None => false
    end.
Proof. unfold Basic.inWindow, JS.dateGe. rewrite basic_cutoff. reflexivity. Qed.

Lemma inPrevWeek_spec (ep : Episode) :
  Extended.inPrevWeek tz now ep
  = match Basic.when tz ep with
    | Some t => (daysBefore tz now 14 <=? t) && (t <? daysBefore tz now 7)
    | None => false
    end.
Proof.
  unfold Extended.inPrevWeek, JS.dateGe, JS.dateLt. cbv zeta.
  rewrite !extended_cutoff. change Extended.when with Basic.when.
  destruct (Basic.when tz ep); reflexivity.
Qed.

End WindowsCompose.

(** X4.  The two windows of the weekly-change rule split the 14-day
    window: every episode of the last 14 days is in exactly one of them,
    so the two counts the rule compares add up to the size of the 14-day
    window. *)
Theorem weekly_windows_split_fortnight (tz : JS.Zone) (now : Z) (episodes : list Episode) :
  Permutation (Extended.inLastDays tz now episodes 14)
              (Extended.lastWeek tz now episodes ++ Extended.prevWeek tz now episodes)
  /\ JS.len (Extended.inLastDays tz now episodes 14)
     = JS.len (Extended.lastWeek tz now episodes)
       + JS.len (Extended.prevWeek tz now episodes).
Proof.
  assert (Permutation (Extended.inLastDays tz now episodes 14)
            (Extended.lastWeek tz now episodes ++ Extended.prevWeek tz now episodes))
    as P.
  { unfold Extended.lastWeek, Extended.prevWeek, Extended.inLastDays.
    apply filter_split; intros ep;
      change Extended.inWindow with Basic.inWindow;
      rewrite !inWindow_spec, inPrevWeek_spec;
      destruct (Basic.when tz ep) as [t|]; try reflexivity;
      pose proof (daysBefore_mono tz now 7 14 ltac:(lia));
      destruct (daysBefore tz now 14 <=? t) eqn:A,
               (daysBefore tz now 7 <=? t) eqn:B,
               (t <? daysBefore tz now 7) eqn:C; try reflexivity; lia. }
  split; [exact P |].
  unfold JS.len. rewrite (Permutation_length P), length_app. lia.
Qed.

(** X5.  Windows are nested: for [d1 <= d2] the window of the last [d1]
    days is the window of the last [d2] days filtered once more, so every
    episode the 7-day window holds is in the 30-day window and every
    episode of that is in the 42-day window, and the sizes grow with the
    number of days. *)
Theorem windows_nested (tz : JS.Zone) (now : Z) (episodes : list Episode) (d1 d2 : Z) :
  d1 <= d2 ->
  Basic.inLastDays tz now episodes d1
  = filter (Basic.inWindow tz now d1) (Basic.inLastDays tz now episodes d2)
  /\ (forall ep, In ep (Basic.inLastDays tz now episodes d1) ->
                 In ep (Basic.inLastDays tz now episodes d2))
  /\ JS.len (Basic.inLastDays tz now episodes d1)
     <= JS.len (Basic.inLastDays tz now episodes d2).
Proof.
  intros D.
  assert (Basic.inLastDays tz now episodes d1
          = filter (Basic.inWindow tz now d1) (Basic.inLastDays tz now episodes d2))
    as E.
  { unfold Basic.inLastDays. rewrite filter_twice. apply filter_ext.
    intros ep. rewrite !inWindow_spec.
    destruct (Basic.when tz ep) as [t|]; [| reflexivity].
    pose proof (daysBefore_mono tz now d1 d2 D).
    destruct (daysBefore tz now d1 <=? t) eqn:A,
             (daysBefore tz now d2 <=? t) eqn:B; try reflexivity; lia. }
  split; [exact E |]. split.
  - intros ep. rewrite E, filter_In. tauto.
  - rewrite E. unfold JS.len. apply inj_le, filter_length_le.
Qed.

(** X5 at a concrete input: the 7-day and the 30-day window. *)
Lemma windows_nested_witness :
  7 <= 30
  /\ JS.len (Basic.inLastDays 0 1700000000000 unsorted 7)
     <= JS.len (Basic.inLastDays 0 1700000000000 unsorted 30).
Proof.
  split; [lia |].
  exact (proj2 (proj2 (windows_nested 0 1700000000000 unsorted 7 30 ltac:(lia)))).
Defined.

(** ** The time-of-day rule: what it names *)

(** The characters of a clock time: two digits, a colon, two digits. *)
Definition clock (hh mm : Z) : string :=
  JS.str [ JS.chr (48 + hh / 10); JS.chr (48 + hh mod 10); ":"%char;
           JS.chr (48 + mm / 10); JS.chr (48 + mm mod 10) ].

Lemma formatTime_all :
  forallb (fun m => String.eqb (Basic.formatTime m) (clock (m / 60) (m mod 60)))
          (map Z.of_nat (seq 0 1440)) = true.
Proof. vm_compute. reflexivity. Qed.

(** X6.  [formatTime] renders every minute of the day as a clock time:
    for [0 <= m < 1440] the result is the five characters [HH:MM], the hour
    [m / 60] (below 24) and the minute [m mod 60] with two digits each. *)
Theorem formatTime_clock (m : Z) :
  0 <= m < 1440 ->
  Basic.formatTime m = clock (m / 60) (m mod 60)
  /\ String.length (Basic.formatTime m) = 5%nat
  /\ 0 <= m / 60 < 24 /\ 0 <= m mod 60 < 60.
Proof.
  intros R.
  assert (Basic.formatTime m = clock (m / 60) (m mod 60)) as E.
  { pose proof formatTime_all as A. rewrite forallb_forall in A.
    apply String.eqb_eq, A, (below 1440). lia. }
  split; [exact E |]. split; [rewrite E; reflexivity |].
  split; [split; [apply Z.div_pos; lia | apply Z.div_lt_upper_bound; lia] |].
  apply Z.mod_pos_bound. lia.
Qed.

(** X6 at 23:05. *)
Lemma formatTime_clock_witness :
  0 <= 1385 < 1440 /\ Basic.formatTime 1385 = "23:05".
Proof.
  split; [lia |]. exact (proj1 (formatTime_clock 1385 ltac:(lia))).
Defined.

(** X7.  On a non-empty 30-day window the sweep of the time-of-day rule
    ends with a count between 1 and the size of the window and with a
    start that is the minute of the day of one of the window's episodes,
    hence between 00:00 and 23:59: the start named by either variant is a
    real clock time (the basic variant names it to the minute, the
    extended variant names its hour, which is below 24). *)
Theorem timeOfDay_start_is_an_episode_time (tz : JS.Zone) (now : Z) (episodes : list Episode) :
  Basic.inLastDays tz now episodes 30 <> [] ->
  let recent := Basic.inLastDays tz now episodes 30 in
  let st := Sweep.run (Basic.minutesOf tz recent) in
  1 <= Sweep.maxCount st <= JS.len recent
  /\ (exists ep, In ep recent
                 /\ Sweep.windowStartTime st = Basic.minuteOfDay tz ep)
  /\ 0 <= Sweep.windowStartTime st < 1440
  /\ 0 <= Sweep.windowStartTime st / 60 < 24.
Proof.
  intros NE. cbv zeta.
  destruct (sweep_bounds tz _ NE) as (B & I).
  split; [exact B |].
  pose proof (minutesOf_range tz _ _ I) as R.
  split.
  - unfold Basic.minutesOf in I. rewrite sortBy_In, in_map_iff in I.
    destruct I as (ep & E & I). exists ep. auto.
  - split; [exact R |].
    split; [apply Z.div_pos; lia | apply Z.div_lt_upper_bound; lia].
Qed.

(** X7 at a concrete input: the three unsorted episodes. *)
Lemma timeOfDay_start_is_an_episode_time_witness :
  Basic.inLastDays 0 1700000000000 unsorted 30 <> []
  /\ 0 <= Sweep.windowStartTime
            (Sweep.run (Basic.minutesOf 0 (Basic.inLastDays 0 1700000000000 unsorted 30)))
        < 1440.
Proof.
  assert (Basic.inLastDays 0 1700000000000 unsorted 30 <> []) as NE
    by (vm_compute; discriminate).
  split; [exact NE |].
  exact (proj1 (proj2 (proj2
           (timeOfDay_start_is_an_episode_time 0 1700000000000 unsorted NE)))).
Defined.

(** X8.  With one or two episodes in the 30-day window the time-of-day
    rule of either variant always emits its finding: the threshold, the
    ceiling of two fifths of the size, is then 1, and the sweep always
    counts at least one episode. *)
Theorem timeOfDay_fires_on_small_windows (tz : JS.Zone) (now : Z) (episodes : list Episode)
    (suggestions : list Finding) :
  0 < JS.len (Basic.inLastDays tz now episodes 30) <= 2 ->
  (exists f, Basic.timeOfDayRule tz now episodes suggestions = push suggestions f
             /\ title f = "Time‑of‑day pattern")
  /\ (exists f, Extended.timeOfDayRule tz now episodes suggestions = push suggestions f
                /\ title f = "Time‑of‑day cluster").
Proof.
  intros L.
  set (recent := Basic.inLastDays tz now episodes 30) in *.
  assert (recent <> []) as NE by (intros E; rewrite E in L; cbn in L; lia).
  destruct (sweep_bounds tz _ NE) as (B & _). cbv zeta in B.
  assert (JS.len (Basic.minutesOf tz recent) = JS.len recent) as LEN
    by (unfold JS.len; rewrite minutesOf_length; reflexivity).
  assert ((JS.len recent =? 0) = false) as NZ by (apply Z.eqb_neq; lia).
  assert ((JS.ceilTwoFifths (JS.len recent)
           <=? Sweep.maxCount (Sweep.run (Basic.minutesOf tz recent))) = true) as T.
  { apply Z.leb_le.
    pose proof (ceilDiv_spec (2 * JS.len recent) 5 ltac:(lia)).
    unfold JS.ceilTwoFifths. lia. }
  split.
  - unfold Basic.timeOfDayRule, Basic.timeOfDayOn. cbv zeta. fold recent.
    rewrite NZ, LEN, T. eexists. split; reflexivity.
  - unfold Extended.timeOfDayRule, Extended.timeOfDayOn. cbv zeta.
    change (Extended.inLastDays tz now episodes 30) with recent.
    change (Extended.minutesOf tz recent) with (Basic.minutesOf tz recent).
    rewrite NZ, LEN, T. eexists. split; reflexivity.
Qed.

(** X8 at a concrete input: one episode, a month's window. *)
Lemma timeOfDay_fires_on_small_windows_witness :
  0 < JS.len (Basic.inLastDays 0 1700000000000
                [episodeAt "2023-11-12T09:30:00.000Z"] 30) <= 2
  /\ exists f, Basic.timeOfDayRule 0 1700000000000
                 [episodeAt "2023-11-12T09:30:00.000Z"] []
               = push [] f
               /\ title f = "Time‑of‑day pattern".
Proof.
  assert (0 < JS.len (Basic.inLastDays 0 1700000000000
                        [episodeAt "2023-11-12T09:30:00.000Z"] 30) <= 2) as L
    by (vm_compute; split; [reflexivity | discriminate]).
  split; [exact L |].
  exact (proj1 (timeOfDay_fires_on_small_windows 0 1700000000000
                  [episodeAt "2023-11-12T09:30:00.000Z"] [] L)).
Defined.

(** ** The day-of-week rule *)

(** The number of episodes of a window that fall on weekday [d] (0 is
    Sunday) in local time. *)
Definition onWeekday (tz : JS.Zone) (recent : list Episode) (d : Z) : Z :=
  JS.len (filter (fun ep => JS.getDay tz (Basic.timeValue tz ep) =? d) recent).

(** [d] is the weekday with the most episodes, the earliest in the week
    among those that have as many. *)
Definition busiestWeekday (tz : JS.Zone) (recent : list Episode) (d : Z) : Prop :=
  0 <= d < 7
  /\ (forall d', 0 <= d' < 7 -> onWeekday tz recent d' <= onWeekday tz recent d)
  /\ (forall d', 0 <= d' < d -> onWeekday tz recent d' < onWeekday tz recent d).

Section DayOfWeek.

Variable tz : JS.Zone.

Lemma getDay_range (t : Z) : 0 <= JS.getDay tz t < 7.
Proof. unfold JS.getDay, JS.WeekDay. apply Z.mod_pos_bound. lia. Qed.

Lemma onWeekday_nonneg (recent : list Episode) (d : Z) : 0 <= onWeekday tz recent d.
Proof. unfold onWeekday, JS.len. lia. Qed.

Lemma onWeekday_cons (ep : Episode) (recent : list Episode) (d : Z) :
  onWeekday tz (ep :: recent) d
  = (if JS.getDay tz (Basic.timeValue tz ep) =? d then 1 else 0)
    + onWeekday tz recent d.
Proof.
  unfold onWeekday, JS.len. cbn [filter].
  destruct (JS.getDay tz (Basic.timeValue tz ep) =? d);
    cbn [List.length]; lia.
Qed.

(** The busiest weekday is determined by the window. *)
Lemma busiestWeekday_unique (recent : list Episode) (d d' : Z) :
  busiestWeekday tz recent d -> busiestWeekday tz recent d' -> d = d'.
Proof.
  intros (R & M & F) (R' & M' & F').
  destruct (Z.lt_trichotomy d d') as [L | [E | L]]; [| exact E |].
  - specialize (F' d ltac:(lia)). specialize (M d' R'). lia.
  - specialize (F d' ltac:(lia)). specialize (M' d R). lia.
Qed.

Lemma incrAt_length (counts : list Z) (k : nat) :
  List.length (Basic.incrAt counts k) = List.length counts.
Proof.
  revert k. induction counts as [|c r IH]; intros k; [reflexivity |].
  destruct k; simpl; [reflexivity | rewrite IH; reflexivity].
Qed.

Lemma incrAt_nth (counts : list Z) (k j : nat) :
  (k < List.length counts)%nat ->
  nth j (Basic.incrAt counts k) 0
  = nth j counts 0 + (if Nat.eqb k j then 1 else 0).
Proof.
  revert k j. induction counts as [|c r IH]; intros k j L; simpl in L; [lia |].
  destruct k, j; simpl; try lia.
  apply IH. lia.
Qed.

Definition countDays (recent : list Episode) (counts : list Z) : list Z :=
  fold_left
    (fun counts ep => Basic.incrAt counts (Z.to_nat (JS.getDay tz (Basic.timeValue tz ep))))
    recent counts.

Lemma countDays_length (recent : list Episode) (counts : list Z) :
  List.length (countDays recent counts) = List.length counts.
Proof.
  revert counts. induction recent as [|ep r IH]; intros counts; [reflexivity |].
  unfold countDays in *. simpl. rewrite IH. apply incrAt_length.
Qed.

Lemma countDays_nth (recent : list Episode) (counts : list Z) (j : nat) :
  List.length counts = 7%nat ->
  nth j (countDays recent counts) 0
  = nth j counts 0 + onWeekday tz recent (Z.of_nat j).
Proof.
  revert counts. induction recent as [|ep r IH]; intros counts L.
  - unfold countDays, onWeekday, JS.len. simpl. lia.
  - unfold countDays in *. simpl. rewrite IH by (rewrite incrAt_length; exact L).
    pose proof (getDay_range (Basic.timeValue tz ep)) as R.
    rewrite incrAt_nth by lia. rewrite onWeekday_cons.
    destruct (Nat.eqb_spec (Z.to_nat (JS.getDay tz (Basic.timeValue tz ep))) j) as [E | N].
    + assert ((JS.getDay tz (Basic.timeValue tz ep) =? Z.of_nat j) = true) as ->
        by (apply Z.eqb_eq; lia). lia.
    + assert ((JS.getDay tz (Basic.timeValue tz ep) =? Z.of_nat j) = false) as ->
        by (apply Z.eqb_neq; lia). lia.
Qed.

Lemma fold_max_spec (l : list Z) (c : Z) :
  (fold_left Z.max l c = c \/ In (fold_left Z.max l c) l)
  /\ c <= fold_left Z.max l c
  /\ (forall x, In x l -> x <= fold_left Z.max l c).
Proof.
  revert c. induction l as [|y l IH]; intros c; simpl.
  - split; [left; reflexivity |]. split; [lia | intros x []].
  - destruct (IH (Z.max c y)) as (I & B & U).
    split; [| split].
    + destruct I as [E | I]; [| right; right; exact I].
      rewrite E. destruct (Z.max_spec c y) as [(_ & ->) | (_ & ->)]; auto.
    + lia.
    + intros x [<- | X]; [lia | exact (U x X)].
Qed.

Lemma maxOf_spec (l : list Z) :
  l <> [] -> In (Basic.maxOf l) l /\ (forall x, In x l -> x <= Basic.maxOf l).
Proof.
  destruct l as [|c r]; [congruence |]. intros _. unfold Basic.maxOf.
  destruct (fold_max_spec r c) as (I & B & U).
  split.
  - destruct I as [-> | I]; [left; reflexivity | right; exact I].
  - intros x [<- | X]; [exact B | exact (U x X)].
Qed.

Lemma indexOf_spec (l : list Z) (m : Z) :
  In m l ->
  (Basic.indexOf l m < List.length l)%nat
  /\ nth (Basic.indexOf l m) l 0 = m
  /\ (forall j, (j < Basic.indexOf l m)%nat -> nth j l 0 <> m).
Proof.
  induction l as [|c r IH]; [intros [] |]. intros I. simpl.
  destruct (c =? m) eqn:E.
  - apply Z.eqb_eq in E. simpl. split; [lia |]. split; [exact E | intros j J; lia].
  - apply Z.eqb_neq in E. destruct I as [-> | I]; [congruence |].
    destruct (IH I) as (L & N & F). simpl.
    split; [lia |]. split; [exact N |].
    intros [|j] J; [exact E | apply F; lia].
Qed.

(** The weekday the basic variant picks: the first index of the largest of
    the seven counters. *)
Definition basicDayIndex (recent : list Episode) : nat :=
  let counts := countDays recent (repeat 0 7) in
  Basic.indexOf counts (Basic.maxOf counts).

Lemma basicDayIndex_busiest (recent : list Episode) :
  busiestWeekday tz recent (Z.of_nat (basicDayIndex recent))
  /\ Basic.maxOf (countDays recent (repeat 0 7))
     = onWeekday tz recent (Z.of_nat (basicDayIndex recent)).
Proof.
  unfold basicDayIndex. cbv zeta.
  set (counts := countDays recent (repeat 0 7)).
  assert (List.length counts = 7%nat) as L
    by (unfold counts; rewrite countDays_length; reflexivity).
  assert (forall j, (j < 7)%nat -> nth j counts 0 = onWeekday tz recent (Z.of_nat j)) as N.
  { intros j J. unfold counts. rewrite countDays_nth by reflexivity.
    do 7 (destruct j as [|j]; [reflexivity |]). lia. }
  destruct (maxOf_spec counts) as (I & U); [destruct counts; [discriminate L | congruence] |].
  destruct (indexOf_spec counts _ I) as (B & E & F).
  set (d := Basic.indexOf counts (Basic.maxOf counts)) in *.
  assert (onWeekday tz recent (Z.of_nat d) = Basic.maxOf counts) as D
    by (rewrite <- N by lia; exact E).
  split; [| symmetry; exact D].
  unfold busiestWeekday. rewrite D.
  split; [lia |]. split.
  - intros d' R. rewrite <- (Z2Nat.id d') by lia. rewrite <- N by lia.
    apply U, nth_In. lia.
  - intros d' R. rewrite <- (Z2Nat.id d') by lia. rewrite <- N by lia.
    assert (nth (Z.to_nat d') counts 0 <= Basic.maxOf counts) by (apply U, nth_In; lia).
    assert (nth (Z.to_nat d') counts 0 <> Basic.maxOf counts) by (apply F; lia).
    lia.
Qed.

End DayOfWeek.

(** *** Objects keyed by an index *)

Section IdxFacts.

Context {V : Type}.

Lemma idxSet_keys (o : Extended.IdxObj V) (k : Z) (v : V) :
  map fst (Extended.idxSet o k v)
  = if existsb (Z.eqb k) (map fst o) then map fst o else (map fst o ++ [k])%list.
Proof.
  induction o as [|[k0 v0] o IH]; simpl; [reflexivity |].
  destruct (k =? k0) eqn:E; simpl.
  - apply Z.eqb_eq in E. subst. reflexivity.
  - rewrite IH. destruct (existsb (Z.eqb k) (map fst o)); reflexivity.
Qed.

Lemma idxSet_NoDup (o : Extended.IdxObj V) (k : Z) (v : V) :
  NoDup (map fst o) -> NoDup (map fst (Extended.idxSet o k v)).
Proof.
  intros N. rewrite idxSet_keys.
  destruct (existsb (Z.eqb k) (map fst o)) eqn:E; [exact N |].
  assert (~ In k (map fst o)) as NI.
  { intros I. assert (existsb (Z.eqb k) (map fst o) = true) as T.
    { apply existsb_exists. exists k. split; [exact I | apply Z.eqb_refl]. }
    congruence. }
  clear E. induction N as [|a l NA N IH]; simpl.
  - constructor; [intros [] | constructor].
  - constructor.
    + rewrite in_app_iff. simpl in *. intuition.
    + apply IH. simpl in NI. tauto.
Qed.

Lemma idxSet_length (o : Extended.IdxObj V) (k : Z) (v : V) :
  (List.length (Extended.idxSet o k v) <= S (List.length o))%nat.
Proof.
  induction o as [|[k0 v0] o IH]; simpl; [lia |].
  destruct (k =? k0); simpl; lia.
Qed.

Lemma idxGet_In (o : Extended.IdxObj V) (k : Z) (v : V) :
  NoDup (map fst o) -> (In (k, v) o <-> Extended.idxGet o k = Some v).
Proof.
  induction o as [|[k0 v0] o IH]; simpl; intros N.
  - split; [intros [] | discriminate].
  - inversion N as [|? ? NI N']; subst.
    destruct (k =? k0) eqn:E.
    + apply Z.eqb_eq in E. subst k0. split.
      * intros [P | I]; [congruence |].
        exfalso. apply NI. apply (in_map fst) in I. exact I.
      * intros P. left. congruence.
    + apply Z.eqb_neq in E. rewrite <- (IH N'). split.
      * intros [P | I]; [congruence | exact I].
      * auto.
Qed.

(** [Object.entries] of such an object: its properties, in ascending
    order of their index. *)
Lemma insertBy_key_sorted (x : Z * V) (l : list (Z * V)) :
  StronglySorted (fun a b => fst a <= fst b) l ->
  StronglySorted (fun a b => fst a <= fst b)
    (JS.insertBy (fun a b => Some (fst a - fst b)) x l).
Proof.
  induction 1 as [|y l S IH F]; simpl.
  - constructor; constructor.
  - destruct (0 <? fst x - fst y) eqn:C.
    + apply Z.ltb_lt in C. constructor; [exact IH |].
      apply Forall_forall. intros z I.
      apply (Permutation_in _ (insertBy_perm _ x l)) in I.
      destruct I as [<- | I]; [lia |].
      rewrite Forall_forall in F. apply F, I.
    + apply Z.ltb_ge in C. constructor; [constructor; assumption |].
      constructor; [lia |].
      rewrite Forall_forall in F |- *. intros z I. specialize (F z I). lia.
Qed.

Lemma idxEntries_sorted (o : Extended.IdxObj V) :
  StronglySorted (fun a b => fst a <= fst b) (Extended.idxEntries o).
Proof.
  unfold Extended.idxEntries. induction o as [|x o IH]; simpl; [constructor |].
  apply insertBy_key_sorted, IH.
Qed.

Lemma idxEntries_In (o : Extended.IdxObj V) (e : Z * V) :
  In e (Extended.idxEntries o) <-> In e o.
Proof. apply sortBy_In. Qed.

Lemma idxEntries_NoDup (o : Extended.IdxObj V) :
  NoDup (map fst o) -> NoDup (map fst (Extended.idxEntries o)).
Proof.
  apply Permutation_NoDup, Permutation_map. symmetry. apply sortBy_perm.
Qed.

(** In a list sorted by distinct keys, what comes before an entry has a
    smaller key and what comes after has a larger one. *)
Lemma sorted_split (l1 l2 : list (Z * V)) (e : Z * V) :
  StronglySorted (fun a b => fst a <= fst b) (l1 ++ e :: l2) ->
  NoDup (map fst (l1 ++ e :: l2)) ->
  (forall a, In a l1 -> fst a < fst e) /\ (forall b, In b l2 -> fst e < fst b).
Proof.
  induction l1 as [|x l1 IH]; simpl; intros S N.
  - inversion S as [|? ? S' F]; subst. inversion N as [|? ? NI N']; subst.
    split; [intros a [] |]. intros b I.
    rewrite Forall_forall in F. specialize (F b I).
    assert (fst e <> fst b) by (intros E; apply NI; rewrite E; apply in_map, I).
    lia.
  - inversion S as [|? ? S' F]; subst. inversion N as [|? ? NI N']; subst.
    destruct (IH S' N') as (A & B). split; [| exact B].
    intros a [<- | I]; [| exact (A a I)].
    rewrite Forall_forall in F. specialize (F e ltac:(apply in_elt)).
    assert (fst x <> fst e).
    { intros E. apply NI. rewrite E, map_app. apply in_elt. }
    lia.
Qed.

End IdxFacts.

(** The [reduce] that picks the entry with the largest count, the first
    one among equals. *)
Definition pickMax (max : option Z * Z) (entry : Z * Z) : option Z * Z :=
  if snd max <? snd entry then (Some (fst entry), snd entry) else max.

Lemma pickMax_spec (l : list (Z * Z)) (acc : option Z * Z) :
  (fold_left pickMax l acc = acc /\ forall e, In e l -> snd e <= snd acc)
  \/ exists l1 k c l2,
       l = (l1 ++ (k, c) :: l2)%list
       /\ fold_left pickMax l acc = (Some k, c)
       /\ snd acc < c
       /\ (forall e, In e l1 -> snd e < c)
       /\ (forall e, In e l2 -> snd e <= c).
Proof.
  revert acc. induction l as [|[k0 c0] l IH]; intros acc; simpl.
  - left. split; [reflexivity | intros e []].
  - assert (pickMax acc (k0, c0) = if snd acc <? c0 then (Some k0, c0) else acc)
      as -> by reflexivity.
    destruct (snd acc <? c0) eqn:C.
    + apply Z.ltb_lt in C.
      destruct (IH (Some k0, c0)) as [(E & U) | (l1 & k & c & l2 & -> & E & B & L & U)].
      * right. exists [], k0, c0, l. simpl in *.
        split; [reflexivity |]. split; [exact E |]. split; [exact C |].
        split; [intros e [] | exact U].
      * right. exists ((k0, c0) :: l1), k, c, l2. simpl in *.
        split; [reflexivity |]. split; [exact E |]. split; [lia |].
        split; [| exact U]. intros e [<- | I]; [simpl; lia | exact (L e I)].
    + apply Z.ltb_ge in C.
      destruct (IH acc) as [(E & U) | (l1 & k & c & l2 & -> & E & B & L & U)].
      * left. split; [exact E |]. intros e [<- | I]; [exact C | exact (U e I)].
      * right. exists ((k0, c0) :: l1), k, c, l2. simpl in *.
        split; [reflexivity |]. split; [exact E |]. split; [exact B |].
        split; [| exact U]. intros e [<- | I]; [simpl; lia | exact (L e I)].
Qed.

Section DayOfWeekExtended.

Variable tz : JS.Zone.

(** The counters of the extended variant. *)
Definition weekdayCountsOf (recent : list Episode) : Extended.IdxObj Z :=
  fold_left
    (fun counts ep =>
       let day := JS.getDay tz (Extended.timeValue tz ep) in
       Extended.idxSet counts day
         (match Extended.idxGet counts day with Some n => n | None => 0 end + 1))
    recent [].

Lemma onWeekday_snoc (recent : list Episode) (ep : Episode) (d : Z) :
  onWeekday tz (recent ++ [ep]) d
  = onWeekday tz recent d
    + (if JS.getDay tz (Basic.timeValue tz ep) =? d then 1 else 0).
Proof.
  unfold onWeekday, JS.len. rewrite filter_app, length_app. cbn [filter].
  destruct (JS.getDay tz (Basic.timeValue tz ep) =? d); cbn [List.length]; lia.
Qed.

Lemma weekdayCountsOf_snoc (recent : list Episode) (ep : Episode) :
  weekdayCountsOf (recent ++ [ep])
  = let day := JS.getDay tz (Extended.timeValue tz ep) in
    Extended.idxSet (weekdayCountsOf recent) day
      (match Extended.idxGet (weekdayCountsOf recent) day with
       | Some n => n | None => 0 end + 1).
Proof. unfold weekdayCountsOf. rewrite fold_left_app. reflexivity. Qed.

Lemma weekdayCountsOf_NoDup (recent : list Episode) :
  NoDup (map fst (weekdayCountsOf recent)).
Proof.
  induction recent as [|ep recent IH] using rev_ind; [constructor |].
  rewrite weekdayCountsOf_snoc. apply idxSet_NoDup, IH.
Qed.

Lemma weekdayCountsOf_get (recent : list Episode) (d : Z) :
  Extended.idxGet (weekdayCountsOf recent) d
  = if onWeekday tz recent d =? 0 then None else Some (onWeekday tz recent d).
Proof.
  induction recent as [|ep recent IH] using rev_ind; [reflexivity |].
  rewrite weekdayCountsOf_snoc, onWeekday_snoc. cbv zeta.
  change (Extended.timeValue tz ep) with (Basic.timeValue tz ep).
  set (day := JS.getDay tz (Basic.timeValue tz ep)).
  pose proof (onWeekday_nonneg tz recent d) as P.
  rewrite idxGet_idxSet. rewrite (Z.eqb_sym day d).
  destruct (d =? day) eqn:E.
  - apply Z.eqb_eq in E. subst d. rewrite IH.
    assert ((onWeekday tz recent day + 1 =? 0) = false) as -> by (apply Z.eqb_neq; lia).
    destruct (onWeekday tz recent day =? 0) eqn:Z0; [| reflexivity].
    apply Z.eqb_eq in Z0. rewrite Z0. reflexivity.
  - rewrite Z.add_0_r. exact IH.
Qed.

Lemma onWeekday_outside (recent : list Episode) (k : Z) :
  ~ 0 <= k < 7 -> onWeekday tz recent k = 0.
Proof.
  intros O. induction recent as [|ep r IH]; [reflexivity |].
  rewrite onWeekday_cons, IH.
  pose proof (getDay_range tz (Basic.timeValue tz ep)) as R.
  destruct (JS.getDay tz (Basic.timeValue tz ep) =? k) eqn:E; [| reflexivity].
  apply Z.eqb_eq in E. lia.
Qed.

(** The weekday the extended variant picks is the busiest one, the
    earliest among equals, with its count. *)
Lemma extended_pick_busiest (recent : list Episode) :
  recent <> [] ->
  exists d, fold_left pickMax (Extended.idxEntries (weekdayCountsOf recent)) (None, 0)
            = (Some d, onWeekday tz recent d)
            /\ busiestWeekday tz recent d
            /\ 1 <= onWeekday tz recent d.
Proof.
  intros NE.
  set (o := weekdayCountsOf recent).
  assert (forall k c, In (k, c) (Extended.idxEntries o)
                      <-> 0 < c /\ c = onWeekday tz recent k) as M.
  { intros k c. rewrite idxEntries_In. unfold o.
    rewrite (idxGet_In _ _ _ (weekdayCountsOf_NoDup recent)).
    rewrite weekdayCountsOf_get.
    pose proof (onWeekday_nonneg tz recent k).
    destruct (onWeekday tz recent k =? 0) eqn:Z0.
    - apply Z.eqb_eq in Z0. split; [discriminate | lia].
    - apply Z.eqb_neq in Z0. split.
      + intros E. injection E as <-. lia.
      + intros (_ & ->). reflexivity. }
  assert (forall d', 0 <= d' < 7 -> 0 < onWeekday tz recent d' ->
                     In (d', onWeekday tz recent d') (Extended.idxEntries o)) as I7.
  { intros d' _ P. apply M. auto. }
  destruct (pickMax_spec (Extended.idxEntries o) (None, 0))
    as [(_ & U) | (l1 & k & c & l2 & L & E & B & Lt & Le)].
  - exfalso. destruct recent as [|ep r]; [congruence |].
    pose proof (getDay_range tz (Basic.timeValue tz ep)) as R.
    assert (0 < onWeekday tz (ep :: r) (JS.getDay tz (Basic.timeValue tz ep))) as P.
    { rewrite onWeekday_cons, Z.eqb_refl.
      pose proof (onWeekday_nonneg tz r (JS.getDay tz (Basic.timeValue tz ep))). lia. }
    specialize (U _ (I7 _ R P)). simpl in U. lia.
  - assert (In (k, c) (Extended.idxEntries o)) as Ik by (rewrite L; apply in_elt).
    apply M in Ik. destruct Ik as (Pc & Ec).
    destruct (sorted_split l1 l2 (k, c)) as (Lo & Hi).
    { rewrite <- L. apply idxEntries_sorted. }
    { rewrite <- L. apply idxEntries_NoDup, weekdayCountsOf_NoDup. }
    simpl in Lo, Hi.
    assert (forall d', In (d', onWeekday tz recent d') (l1 ++ (k, c) :: l2) ->
              (d' < k -> onWeekday tz recent d' < c)
              /\ onWeekday tz recent d' <= c) as Cmp.
    { intros d' I. apply in_app_or in I. destruct I as [I | [I | I]].
      - specialize (Lt _ I). simpl in Lt. lia.
      - injection I as -> <-. lia.
      - specialize (Le _ I). specialize (Hi _ I). simpl in *. lia. }
    assert (0 <= k < 7) as Rk.
    { destruct (Z.lt_ge_cases k 0) as [N | N];
        [| destruct (Z.lt_ge_cases k 7) as [N' | N']; [lia |]];
        exfalso; rewrite (onWeekday_outside recent k) in Ec by lia; lia. }
    exists k. rewrite E, Ec. split; [reflexivity |].
    split; [| lia].
    split; [exact Rk |]. split.
    + intros d' R. pose proof (onWeekday_nonneg tz recent d') as P.
      destruct (Z.eq_dec (onWeekday tz recent d') 0) as [Z0 | NZ]; [lia |].
      rewrite <- Ec. apply Cmp. rewrite <- L. apply I7; [exact R | lia].
    + intros d' R. pose proof (onWeekday_nonneg tz recent d') as P.
      destruct (Z.eq_dec (onWeekday tz recent d') 0) as [Z0 | NZ]; [lia |].
      rewrite <- Ec. apply Cmp; [| lia]. rewrite <- L. apply I7; [lia | lia].
Qed.

End DayOfWeekExtended.

(** X9. The day-of-week rule of both variants names the weekday with the
    most episodes of the 30-day window, the earliest one of the week on a
    tie, and fires exactly when the window is not empty and that weekday
    holds at least two fifths of it (rounded up); the share it prints
    is that count over the size of the window.  The two variants differ
    in their wording only. *)
Theorem dayOfWeek_names_busiest_weekday
  (tz : JS.Zone) (now : Z) (episodes : list Episode) (s : list Finding) :
  let recent := Basic.inLastDays tz now episodes 30 in
  let total := JS.len recent in
  exists d,
    busiestWeekday tz recent d
    /\ (recent <> [] -> 1 <= onWeekday tz recent d)
    /\ let share :=
         JS.showRounded
           (PrimFloat.mul
              (PrimFloat.div (JS.ofZ (onWeekday tz recent d)) (JS.ofZ total))
              (JS.ofZ 100)) in
       let name := nth (Z.to_nat d) weekdays "undefined" in
       let fires :=
         negb (total =? 0)
         && (JS.ceilTwoFifths total <=? onWeekday tz recent d) in
       Basic.dayOfWeekRule tz now episodes s
       = (if fires then
            push s {| title := "Day‑of‑week trend";
                      message := "About " ++ share
                        ++ "% of recent episodes occur on " ++ name
                        ++ "s. There may be something about those days worth investigating." |}
          else s)
       /\ Extended.dayOfWeekRule tz now episodes s
          = (if fires then
               push s {| title := "Day‑of‑week cluster";
                         message := "About " ++ share
                           ++ "% of your episodes happen on " ++ name
                           ++ ". Reflect on factors specific to that day." |}
             else s).
Proof.
  intros recent total.
  destruct (basicDayIndex_busiest tz recent) as (B & M).
  exists (Z.of_nat (basicDayIndex tz recent)).
  split; [exact B |].
  assert (recent <> [] -> 1 <= onWeekday tz recent (Z.of_nat (basicDayIndex tz recent))) as P.
  { intros NE. destruct (extended_pick_busiest tz recent NE) as (d' & _ & B' & P).
    rewrite (busiestWeekday_unique tz recent _ _ B B'). exact P. }
  split; [exact P |].
  cbv zeta. rewrite Nat2Z.id.
  unfold Basic.dayOfWeekRule, Extended.dayOfWeekRule, Basic.dayOfWeekOn,
    Extended.dayOfWeekOn.
  change (Extended.inLastDays tz now episodes 30) with recent.
  fold recent. fold total.
  destruct (total =? 0) eqn:Z0; cbn [negb andb]; [split; reflexivity |].
  assert (recent <> []) as NE.
  { intros E. apply len_zero in E. unfold total in Z0. congruence. }
  split.
  - fold (countDays tz recent (repeat 0 7)).
    change (Basic.indexOf (countDays tz recent (repeat 0 7))
              (Basic.maxOf (countDays tz recent (repeat 0 7))))
      with (basicDayIndex tz recent).
    rewrite M. reflexivity.
  - fold (weekdayCountsOf tz recent).
    change (fold_left _ (Extended.idxEntries (weekdayCountsOf tz recent)) (None, 0))
      with (fold_left pickMax (Extended.idxEntries (weekdayCountsOf tz recent)) (None, 0)).
    destruct (extended_pick_busiest tz recent NE) as (d' & -> & B' & _).
    rewrite <- (busiestWeekday_unique tz recent _ _ B B').
    cbn [fst snd]. rewrite Nat2Z.id. reflexivity.
Qed.

(** *** [groupBy] *)

Section GroupBy.

Context {A : Type}.

Variable keyFn : A -> Z.

(** The group an item joins. *)
Definition groupOf (acc : Extended.IdxObj (list A)) (k : Z) : list A :=
  match Extended.idxGet acc k with Some g => g | None => [] end.

Lemma groupBy_snoc (array : list A) (item : A) :
  Extended.groupBy (array ++ [item]) keyFn
  = Extended.idxSet (Extended.groupBy array keyFn) (keyFn item)
      (groupOf (Extended.groupBy array keyFn) (keyFn item) ++ [item])%list.
Proof. unfold Extended.groupBy. rewrite fold_left_app. reflexivity. Qed.

Lemma groupBy_NoDup (array : list A) :
  NoDup (map fst (Extended.groupBy array keyFn)).
Proof.
  induction array as [|item array IH] using rev_ind; [constructor |].
  rewrite groupBy_snoc. apply idxSet_NoDup, IH.
Qed.

Lemma groupBy_get (array : list A) (k : Z) :
  Extended.idxGet (Extended.groupBy array keyFn) k
  = match filter (fun item => keyFn item =? k) array with
    | [] => None
    | g => Some g
    end.
Proof.
  induction array as [|item array IH] using rev_ind; [reflexivity |].
  rewrite groupBy_snoc, idxGet_idxSet, filter_app. cbn [filter].
  rewrite (Z.eqb_sym k). destruct (keyFn item =? k) eqn:E.
  - apply Z.eqb_eq in E. subst k. unfold groupOf. rewrite IH.
    destruct (filter _ array); reflexivity.
  - rewrite app_nil_r. exact IH.
Qed.

Lemma concat_idxSet (o : Extended.IdxObj (list A)) (k : Z) (item : A) :
  Permutation
    (List.concat (map snd (Extended.idxSet o k (groupOf o k ++ [item])%list)))
    (List.concat (map snd o) ++ [item])%list.
Proof.
  unfold groupOf. induction o as [|[k0 g0] o IH]; simpl.
  - reflexivity.
  - destruct (k =? k0); simpl.
    + rewrite <- !app_assoc. apply Permutation_app_head, Permutation_app_comm.
    + rewrite <- app_assoc. apply Permutation_app_head, IH.
Qed.

Lemma groupBy_concat (array : list A) :
  Permutation (List.concat (map snd (Extended.groupBy array keyFn))) array.
Proof.
  induction array as [|item array IH] using rev_ind; [reflexivity |].
  rewrite groupBy_snoc, concat_idxSet. apply Permutation_app_tail, IH.
Qed.

Lemma groupBy_keys (array : list A) (k : Z) :
  In k (map fst (Extended.groupBy array keyFn))
  -> exists item, In item array /\ keyFn item = k.
Proof.
  intros I. destruct (idxGet_key _ _ I) as (g & G).
  rewrite groupBy_get in G.
  destruct (filter (fun item => keyFn item =? k) array) as [|x f] eqn:F;
    [discriminate |].
  assert (In x (filter (fun item => keyFn item =? k) array)) as X
    by (rewrite F; left; reflexivity).
  apply filter_In in X. destruct X as (X & E). apply Z.eqb_eq in E. eauto.
Qed.

Lemma groupBy_length (array : list A) (keys : list Z) :
  (forall item, In item array -> In (keyFn item) keys) ->
  (List.length (Extended.groupBy array keyFn) <= List.length keys)%nat.
Proof.
  intros C. rewrite <- (length_map fst).
  apply NoDup_incl_length; [apply groupBy_NoDup |].
  intros k I. destruct (groupBy_keys _ _ I) as (item & I' & <-). apply C, I'.
Qed.

End GroupBy.

(** X10.  [groupBy] partitions: the groups have distinct keys; the group
    under a key holds exactly the items with that key, in the order of
    the array, and a key no item has is absent (no group is empty); put
    together, the groups hold the items of the array, each as often as
    the array does. *)
Theorem groupBy_partitions {A} (array : list A) (keyFn : A -> Z) :
  NoDup (map fst (Extended.groupBy array keyFn))
  /\ (forall k,
        Extended.idxGet (Extended.groupBy array keyFn) k
        = match filter (fun item => keyFn item =? k) array with
          | [] => None
          | g => Some g
          end)
  /\ Permutation (List.concat (map snd (Extended.groupBy array keyFn))) array.
Proof.
  split; [apply groupBy_NoDup |].
  split; [apply groupBy_get | apply groupBy_concat].
Qed.

(** X11.  The extended rising-intensity rule adds nothing unless the
    episodes of the 42-day window fall into at least six different week
    numbers; in particular it adds nothing when the window holds fewer
    than six episodes. *)
Theorem rising_needs_six_weeks
  (tz : JS.Zone) (now : Z) (episodes : list Episode) (s : list Finding) (weeks : list Z) :
  (forall ep, In ep (Extended.inLastDays tz now episodes 42) ->
              In (Extended.weekKey tz ep) weeks) ->
  (List.length weeks < 6)%nat ->
  Extended.risingIntensityRule tz now episodes s = Normal s.
Proof.
  intros C L. rewrite extended_rising.
  assert (gateExtended tz now episodes = false) as ->; [| reflexivity].
  unfold gateExtended. apply andb_false_iff. right. apply Z.leb_gt.
  unfold weekNumbersOf, weekGroupsOf, JS.len.
  rewrite sortBy_length, length_map.
  unfold Extended.idxEntries. rewrite sortBy_length.
  pose proof (groupBy_length (Extended.weekKey tz) _ weeks C). lia.
Qed.

(** X11 at a concrete input: three episodes of one week. *)
Lemma rising_needs_six_weeks_witness :
  (forall ep, In ep (Extended.inLastDays 0 1700000000000 unsorted 42) ->
              In (Extended.weekKey 0 ep) [45; 46])
  /\ (List.length [45; 46] < 6)%nat
  /\ Extended.risingIntensityRule 0 1700000000000 unsorted [] = Normal [].
Proof.
  assert (forall ep, In ep (Extended.inLastDays 0 1700000000000 unsorted 42) ->
                     In (Extended.weekKey 0 ep) [45; 46]) as C.
  { assert (Extended.inLastDays 0 1700000000000 unsorted 42 = unsorted) as ->
      by (vm_compute; reflexivity).
    intros ep [<- | [<- | [<- | []]]]; vm_compute; tauto. }
  assert (List.length [45; 46] < 6)%nat as L by (simpl; lia).
  split; [exact C |]. split; [exact L |].
  exact (rising_needs_six_weeks 0 1700000000000 unsorted [] [45; 46] C L).
Defined.

(** *** Comparing doubles *)

Lemma SFcompare_Lt_trans (x y z : spec_float) :
  SFcompare x y = Some Lt -> SFcompare y z = Some Lt -> SFcompare x z = Some Lt.
Proof.
  destruct x as [sx | sx | | sx mx ex], y as [sy | sy | | sy my ey],
           z as [sz | sz | | sz mz ez];
    simpl; try discriminate; try (intros; reflexivity);
    repeat match goal with s : bool |- _ => destruct s end;
    simpl; try discriminate; try (intros; reflexivity);
    change (Pos.compare_cont Eq mx my) with (Pos.compare mx my);
    change (Pos.compare_cont Eq my mz) with (Pos.compare my mz);
    change (Pos.compare_cont Eq mx mz) with (Pos.compare mx mz);
    destruct (Z.compare_spec ex ey), (Z.compare_spec ey ez), (Z.compare_spec ex ez);
    try discriminate; try (intros; reflexivity); try lia;
    destruct (Pos.compare_spec mx my), (Pos.compare_spec my mz),
             (Pos.compare_spec mx mz);
    simpl; try discriminate; try (intros; reflexivity); lia.
Qed.

Lemma SFcompare_irrefl (x : spec_float) : SFcompare x x <> Some Lt.
Proof.
  destruct x as [s | s | | s m e]; simpl; try discriminate.
  - destruct s; discriminate.
  - rewrite Z.compare_refl.
    change (Pos.compare_cont Eq m m) with (Pos.compare m m).
    rewrite Pos.compare_refl. destruct s; discriminate.
Qed.

Lemma ltb_Lt (x y : JS.num) :
  PrimFloat.ltb x y = true <-> SFcompare (Prim2SF x) (Prim2SF y) = Some Lt.
Proof.
  rewrite ltb_spec. unfold SFltb.
  destruct (SFcompare (Prim2SF x) (Prim2SF y)) as [[| |]|]; split;
    congruence.
Qed.

Lemma ltb_trans (x y z : JS.num) :
  PrimFloat.ltb x y = true -> PrimFloat.ltb y z = true -> PrimFloat.ltb x z = true.
Proof. rewrite !ltb_Lt. apply SFcompare_Lt_trans. Qed.

Lemma ltb_irrefl (x : JS.num) : PrimFloat.ltb x x = false.
Proof.
  destruct (PrimFloat.ltb x x) eqn:E; [| reflexivity].
  apply ltb_Lt in E. destruct (SFcompare_irrefl _ E).
Qed.

(** The [reduce] of the two mean-intensity rules returns an entry no
    other entry exceeds. *)
Lemma highest_spec (averages : list Extended.Mean) (first : Extended.Mean) :
  In (Extended.highest averages first) (first :: averages)
  /\ forall e, In e (first :: averages) ->
               PrimFloat.ltb (Extended.avg (Extended.highest averages first))
                             (Extended.avg e) = false.
Proof.
  unfold Extended.highest.
  assert (forall seen, In first seen ->
            (forall e, In e seen ->
                       PrimFloat.ltb (Extended.avg first) (Extended.avg e) = false) ->
            let m := fold_left
                       (fun max entry =>
                          if PrimFloat.ltb (Extended.avg max) (Extended.avg entry)
                          then entry else max) averages first in
            In m (seen ++ averages)
            /\ forall e, In e (seen ++ averages) ->
                         PrimFloat.ltb (Extended.avg m) (Extended.avg e) = false) as G.
  { revert first. induction averages as [|entry averages IH]; intros first seen I U.
    - simpl. rewrite app_nil_r. auto.
    - cbn [fold_left]. cbv zeta.
      replace (seen ++ entry :: averages)%list with ((seen ++ [entry]) ++ averages)%list
        by (rewrite <- app_assoc; reflexivity).
      destruct (PrimFloat.ltb (Extended.avg first) (Extended.avg entry)) eqn:C.
      + apply IH.
        * apply in_or_app. right. left. reflexivity.
        * intros e Ie. apply in_app_or in Ie. destruct Ie as [Ie | [<- | []]].
          -- destruct (PrimFloat.ltb (Extended.avg entry) (Extended.avg e)) eqn:C';
               [| reflexivity].
             specialize (U e Ie). rewrite (ltb_trans _ _ _ C C') in U. discriminate.
          -- apply ltb_irrefl.
      + apply IH.
        * apply in_or_app. left. exact I.
        * intros e Ie. apply in_app_or in Ie. destruct Ie as [Ie | [<- | []]].
          -- apply U, Ie.
          -- exact C. }
  apply (G [first]).
  - left. reflexivity.
  - intros e [<- | []]. apply ltb_irrefl.
Qed.

(** *** The buckets of the mean-intensity rules *)

Section Buckets.

Variable tz : JS.Zone.
Variable keyFn : Z -> Z.

(** The episodes of [recent] logged under the key [k] (an hour, a
    weekday), in the order of [recent]. *)
Definition loggedAt (recent : list Episode) (k : Z) : list Episode :=
  filter (fun ep => keyFn (Extended.timeValue tz ep) =? k) recent.

Definition bucketOf (g : list Episode) : Extended.Bucket :=
  {| Extended.sum :=
       fold_left (fun sum ep => PrimFloat.add sum (JS.numberOrZero (intensity ep)))
                 g 0%float;
     Extended.count := JS.len g |}.

Lemma bucketsBy_snoc (recent : list Episode) (ep : Episode) :
  Extended.bucketsBy tz keyFn (recent ++ [ep])
  = let buckets := Extended.bucketsBy tz keyFn recent in
    let k := keyFn (Extended.timeValue tz ep) in
    let b := match Extended.idxGet buckets k with
             | Some b => b
             | None => {| Extended.sum := 0%float; Extended.count := 0 |}
             end in
    Extended.idxSet buckets k
      {| Extended.sum :=
           PrimFloat.add (Extended.sum b) (JS.numberOrZero (intensity ep));
         Extended.count := Extended.count b + 1 |}.
Proof. unfold Extended.bucketsBy. rewrite fold_left_app. reflexivity. Qed.

Lemma bucketsBy_NoDup (recent : list Episode) :
  NoDup (map fst (Extended.bucketsBy tz keyFn recent)).
Proof.
  induction recent as [|ep recent IH] using rev_ind; [constructor |].
  rewrite bucketsBy_snoc. apply idxSet_NoDup, IH.
Qed.

Lemma bucketsBy_get (recent : list Episode) (k : Z) :
  Extended.idxGet (Extended.bucketsBy tz keyFn recent) k
  = match loggedAt recent k with
    | [] => None
    | g => Some (bucketOf g)
    end.
Proof.
  induction recent as [|ep recent IH] using rev_ind; [reflexivity |].
  rewrite bucketsBy_snoc. cbv zeta. rewrite idxGet_idxSet.
  unfold loggedAt in *. rewrite filter_app. cbn [filter].
  rewrite (Z.eqb_sym k). destruct (keyFn (Extended.timeValue tz ep) =? k) eqn:E.
  - apply Z.eqb_eq in E. subst k. rewrite IH.
    destruct (filter _ recent) as [|x g]; [reflexivity |].
    cbn [app]. f_equal. unfold bucketOf. cbn [Extended.sum Extended.count].
    rewrite app_comm_cons, fold_left_app. cbn [fold_left].
    f_equal. unfold JS.len. rewrite length_app. cbn [List.length]. lia.
  - rewrite app_nil_r. exact IH.
Qed.

(** The entry of a key in the list of means. *)
Definition meanAt (recent : list Episode) (k : Z) : Extended.Mean :=
  {| Extended.key := k;
     Extended.avg := Extended.weekAverage (loggedAt recent k);
     Extended.samples := JS.len (loggedAt recent k) |}.

Lemma meansOf_In (recent : list Episode) (m : Extended.Mean) :
  In m (Extended.meansOf (Extended.bucketsBy tz keyFn recent))
  <-> exists k, loggedAt recent k <> [] /\ m = meanAt recent k.
Proof.
  unfold Extended.meansOf. rewrite in_map_iff. split.
  - intros ([k b] & <- & I). exists k.
    apply (proj1 (idxEntries_In _ _)) in I.
    apply (proj1 (idxGet_In _ _ _ (bucketsBy_NoDup recent))) in I.
    rewrite bucketsBy_get in I.
    destruct (loggedAt recent k) as [|x g] eqn:G; [discriminate |].
    injection I as <-. split; [discriminate |].
    unfold meanAt. rewrite G. reflexivity.
  - intros (k & NE & ->). exists (k, bucketOf (loggedAt recent k)). split.
    + reflexivity.
    + apply (proj2 (idxEntries_In _ _)).
      apply (proj2 (idxGet_In _ _ _ (bucketsBy_NoDup recent))).
      rewrite bucketsBy_get. destruct (loggedAt recent k); [congruence | reflexivity].
Qed.

(** The [reduce] starts from the first entry and meets it again as its
    first element, which changes nothing. *)
Lemma highest_whole (first : Extended.Mean) (rest : list Extended.Mean) :
  Extended.highest (first :: rest) first = Extended.highest rest first.
Proof. unfold Extended.highest. cbn [fold_left]. rewrite ltb_irrefl. reflexivity. Qed.

(** What the [reduce] picks: a key under which episodes were logged, and
    no key has a higher mean. *)
Lemma highest_mean (recent : list Episode) (first : Extended.Mean)
    (rest : list Extended.Mean) :
  Extended.meansOf (Extended.bucketsBy tz keyFn recent) = first :: rest ->
  exists k,
    loggedAt recent k <> []
    /\ Extended.highest (first :: rest) first = meanAt recent k
    /\ forall k', loggedAt recent k' <> [] ->
         PrimFloat.ltb (Extended.weekAverage (loggedAt recent k))
                       (Extended.weekAverage (loggedAt recent k')) = false.
Proof.
  intros E.
  destruct (highest_spec (first :: rest) first) as (I & U).
  assert (In (Extended.highest (first :: rest) first) (first :: rest)) as I'
    by (destruct I as [<- | I]; [left; reflexivity | exact I]).
  assert (In (Extended.highest (first :: rest) first)
             (Extended.meansOf (Extended.bucketsBy tz keyFn recent))) as I''
    by (rewrite E; exact I').
  apply meansOf_In in I''. destruct I'' as (k & NE & M).
  exists k. split; [exact NE |]. split; [exact M |].
  intros k' NE'.
  specialize (U (meanAt recent k')). rewrite M in U. apply U.
  right. rewrite <- E. apply meansOf_In. eauto.
Qed.

Lemma loggedAt_key (recent : list Episode) (k : Z) :
  loggedAt recent k <> [] -> exists ep, In ep recent /\ keyFn (Extended.timeValue tz ep) = k.
Proof.
  intros NE. destruct (loggedAt recent k) as [|x g] eqn:G; [congruence |].
  assert (In x (loggedAt recent k)) as X by (rewrite G; left; reflexivity).
  apply filter_In in X. destruct X as (X & E). apply Z.eqb_eq in E. eauto.
Qed.

End Buckets.

Lemma getHours_range (tz : JS.Zone) (t : Z) : 0 <= JS.getHours tz t < 24.
Proof. unfold JS.getHours. apply Z.mod_pos_bound. lia. Qed.

(** X12.  When the peak-hour rule adds its finding, the hour it names is
    an hour of the day at which at least three episodes of the 30-day
    window were logged, whose mean intensity (absent intensities counted
    as 0) is at least 6, and no hour of the window has a higher mean;
    otherwise the rule adds nothing. *)
Theorem peak_hour_is_supported
  (tz : JS.Zone) (now : Z) (episodes : list Episode) (s : list Finding) :
  let recent := Extended.inLastDays tz now episodes 30 in
  let at_ := loggedAt tz (JS.getHours tz) recent in
  Extended.averageIntensityByHourRule tz now episodes s = s
  \/ exists h,
       0 <= h < 24
       /\ 3 <= JS.len (at_ h)
       /\ PrimFloat.leb 6%float (Extended.weekAverage (at_ h)) = true
       /\ (forall h', at_ h' <> [] ->
             PrimFloat.ltb (Extended.weekAverage (at_ h))
                           (Extended.weekAverage (at_ h')) = false)
       /\ Extended.averageIntensityByHourRule tz now episodes s
          = push s
              {| title := "Peak intensity hour";
                 message := "Episodes logged around " ++ Extended.pad h
                   ++ ":00 tend to be more intense. Planning rest or adjustments then might help." |}.
Proof.
  intros recent at_.
  unfold Extended.averageIntensityByHourRule, Extended.averageIntensityByHourOn.
  fold recent.
  destruct (JS.len recent =? 0); [left; reflexivity |].
  destruct (Extended.meansOf (Extended.bucketsBy tz (JS.getHours tz) recent))
    as [|first rest] eqn:E; [left; reflexivity |].
  cbv beta iota zeta. rewrite <- highest_whole.
  destruct (highest_mean tz (JS.getHours tz) recent first rest E) as (h & NE & -> & U).
  cbn [Extended.avg Extended.samples Extended.key meanAt].
  fold (at_ h).
  destruct (PrimFloat.leb 6 (Extended.weekAverage (at_ h))) eqn:A;
    [| left; reflexivity].
  destruct (3 <=? JS.len (at_ h)) eqn:B; [| left; reflexivity].
  right. exists h. cbn [andb].
  destruct (loggedAt_key tz _ recent h NE) as (ep & _ & <-).
  split; [apply getHours_range |].
  split; [apply Z.leb_le, B |].
  split; [exact A |]. split; [exact U | reflexivity].
Qed.

(** X13.  When the toughest-day rule adds its finding, the weekday it
    names is one on which at least three episodes of the 30-day window
    fell, whose mean intensity (absent intensities counted as 0) is at
    least 6, and no weekday of the window has a higher mean; otherwise
    the rule adds nothing. *)
Theorem toughest_day_is_supported
  (tz : JS.Zone) (now : Z) (episodes : list Episode) (s : list Finding) :
  let recent := Extended.inLastDays tz now episodes 30 in
  let on := loggedAt tz (JS.getDay tz) recent in
  Extended.averageIntensityByWeekdayRule tz now episodes s = s
  \/ exists d,
       0 <= d < 7
       /\ 3 <= JS.len (on d)
       /\ PrimFloat.leb 6%float (Extended.weekAverage (on d)) = true
       /\ (forall d', on d' <> [] ->
             PrimFloat.ltb (Extended.weekAverage (on d))
                           (Extended.weekAverage (on d')) = false)
       /\ Extended.averageIntensityByWeekdayRule tz now episodes s
          = push s
              {| title := "Toughest day";
                 message := "Your migraines tend to be most intense on "
                   ++ nth (Z.to_nat d) weekdays "undefined"
                   ++ ". Consider easing your schedule on those days." |}.
Proof.
  intros recent on.
  unfold Extended.averageIntensityByWeekdayRule, Extended.averageIntensityByWeekdayOn.
  fold recent.
  destruct (JS.len recent =? 0); [left; reflexivity |].
  destruct (Extended.meansOf (Extended.bucketsBy tz (JS.getDay tz) recent))
    as [|first rest] eqn:E; [left; reflexivity |].
  cbv beta iota zeta. rewrite <- highest_whole.
  destruct (highest_mean tz (JS.getDay tz) recent first rest E) as (d & NE & -> & U).
  cbn [Extended.avg Extended.samples Extended.key meanAt].
  fold (on d).
  destruct (PrimFloat.leb 6 (Extended.weekAverage (on d))) eqn:A;
    [| left; reflexivity].
  destruct (3 <=? JS.len (on d)) eqn:B; [| left; reflexivity].
  right. exists d. cbn [andb].
  destruct (loggedAt_key tz _ recent d NE) as (ep & _ & <-).
  split; [apply getDay_range |].
  split; [apply Z.leb_le, B |].
  split; [exact A |]. split; [exact U | reflexivity].
Qed.

(** *** The size of a set filled by a [forEach] *)

Lemma setAdd_length (l : list string) (x : string) :
  (List.length (JS.setAdd l x) <= S (List.length l))%nat.
Proof.
  unfold JS.setAdd. destruct (JS.setHas l x); [lia |].
  rewrite length_app. simpl. lia.
Qed.

Lemma collect_length {A} (test : A -> bool) (keyOf : A -> string)
    (l : list A) (acc : list string) :
  (List.length (collect A test keyOf acc l)
   <= List.length acc + List.length (filter test l))%nat.
Proof.
  revert acc. induction l as [|a l IH]; intros acc; simpl; [lia |].
  unfold collect in *. simpl. destruct (test a); simpl.
  - specialize (IH (JS.setAdd acc (keyOf a))).
    pose proof (setAdd_length acc (keyOf a)). lia.
  - apply IH.
Qed.

(** X14.  The medication rule of either variant adds nothing unless at
    least ten episodes of the 30-day window list a medication: the days
    it counts are days of such episodes, at most one per episode. *)
Theorem medication_needs_ten_medicated_episodes
  (tz : JS.Zone) (now : Z) (episodes : list Episode) (s : list Finding) :
  JS.len (filter medicated (Basic.inLastDays tz now episodes 30)) < 10 ->
  Basic.medicationOveruseRule tz now episodes s = Normal s
  /\ Extended.medicationOveruseRule tz now episodes s = s.
Proof.
  intros L. split.
  - rewrite basic_medication_normal. unfold basicMedicationRule. cbv zeta.
    pose proof (collect_length medicated (utcDayKey tz)
                  (Basic.inLastDays tz now episodes 30) []) as B.
    destruct (10 <=? _) eqn:C; [| reflexivity].
    apply Z.leb_le in C. unfold JS.len in *. simpl in B. lia.
  - unfold Extended.medicationOveruseRule, Extended.medicationOveruseOn. cbv zeta.
    rewrite extended_medicationDays.
    change (Extended.inLastDays tz now episodes 30)
      with (Basic.inLastDays tz now episodes 30).
    pose proof (collect_length medicated storedDayKey
                  (Basic.inLastDays tz now episodes 30) []) as B.
    destruct (10 <=? _) eqn:C; [| reflexivity].
    apply Z.leb_le in C. unfold JS.len in *. simpl in B. lia.
Qed.

(** X14 at a concrete input: nine medicated episodes, on nine days. *)
Lemma medication_needs_ten_medicated_episodes_witness :
  JS.len (filter medicated
            (Basic.inLastDays 0 1700000000000 (tl nineLocalDays) 30)) < 10
  /\ Basic.medicationOveruseRule 0 1700000000000 (tl nineLocalDays) [] = Normal []
  /\ Extended.medicationOveruseRule 0 1700000000000 (tl nineLocalDays) [] = [].
Proof.
  assert (JS.len (filter medicated
                    (Basic.inLastDays 0 1700000000000 (tl nineLocalDays) 30)) < 10)
    as L by (vm_compute; reflexivity).
  split; [exact L |].
  exact (medication_needs_ten_medicated_episodes
           0 1700000000000 (tl nineLocalDays) [] L).
Defined.

(** *** The streak *)

(** The day a day string denotes, as a number of days since the epoch. *)
Definition dayNumber (tz : JS.Zone) (s : string) : Z :=
  match JS.parseDate tz s with Some t => t / JS.msPerDay | None => 0 end.

(** A day string that [Date] reads as the start of a UTC day, as the
    first ten characters of a stored [toISOString] are. *)
Definition wholeDay (tz : JS.Zone) (s : string) : Prop :=
  exists n, JS.parseDate tz s = Some (n * JS.msPerDay).

Definition wholeDays (tz : JS.Zone) (eps : list Episode) : Prop :=
  forall ep, In ep eps -> wholeDay tz (Extended.dayString ep).

(** Two day strings for the same day are the same string. *)
Definition distinctDays (tz : JS.Zone) (eps : list Episode) : Prop :=
  forall a b, In a eps -> In b eps ->
    JS.parseDate tz (Extended.dayString a) = JS.parseDate tz (Extended.dayString b) ->
    Extended.dayString a = Extended.dayString b.

(** The days on which the episodes were logged. *)
Definition loggedDays (tz : JS.Zone) (eps : list Episode) : list Z :=
  map (fun ep => dayNumber tz (Extended.dayString ep)) eps.

(** [k] days in a row were logged up to [latest], the last logged day,
    and the day before them was not. *)
Definition runEndingAt (days : list Z) (latest k : Z) : Prop :=
  In latest days
  /\ (forall d, In d days -> d <= latest)
  /\ 1 <= k
  /\ (forall i, 0 <= i < k -> In (latest - i) days)
  /\ ~ In (latest - k) days.

(** The number of steps of one day at the head of a list of days. *)
Fixpoint steps (days : list Z) : Z :=
  match days with
  | a :: ((b :: _) as r) => if a - b =? 1 then 1 + steps r else 0
  | _ => 0
  end.

Section Streak.

Variable tz : JS.Zone.

Lemma dayNumber_whole (s : string) (n : Z) :
  JS.parseDate tz s = Some (n * JS.msPerDay) -> dayNumber tz s = n.
Proof.
  intros E. unfold dayNumber. rewrite E. apply Z.div_mul. discriminate.
Qed.

Lemma latestFirst_whole (x y : string) :
  wholeDay tz x -> wholeDay tz y ->
  JS.positive (Extended.latestFirst tz x y) = (dayNumber tz x <? dayNumber tz y).
Proof.
  intros (nx & Ex) (ny & Ey). unfold Extended.latestFirst.
  rewrite (dayNumber_whole _ _ Ex), (dayNumber_whole _ _ Ey), Ex, Ey.
  simpl. unfold JS.msPerDay.
  destruct (nx <? ny) eqn:C; [apply Z.ltb_lt in C; apply Z.ltb_lt
                             | apply Z.ltb_ge in C; apply Z.ltb_ge]; lia.
Qed.

Definition later (x y : string) : Prop := dayNumber tz y <= dayNumber tz x.

Lemma insertBy_later (x : string) (l : list string) :
  wholeDay tz x -> Forall (wholeDay tz) l ->
  StronglySorted later l ->
  StronglySorted later (JS.insertBy (Extended.latestFirst tz) x l).
Proof.
  intros Vx V S. induction S as [|y l S IH F]; simpl.
  - constructor; constructor.
  - inversion V as [|? ? Vy V']; subst.
    rewrite (latestFirst_whole x y Vx Vy).
    destruct (dayNumber tz x <? dayNumber tz y) eqn:C.
    + apply Z.ltb_lt in C. constructor; [exact (IH V') |].
      apply Forall_forall. intros z I.
      apply (Permutation_in _ (insertBy_perm _ x l)) in I.
      destruct I as [<- | I]; [unfold later; lia |].
      rewrite Forall_forall in F. apply F, I.
    + apply Z.ltb_ge in C. constructor; [constructor; assumption |].
      constructor; [exact C |].
      rewrite Forall_forall in F |- *. intros z I. specialize (F z I).
      unfold later in *. lia.
Qed.

Lemma sortBy_later (l : list string) :
  Forall (wholeDay tz) l ->
  StronglySorted later (JS.sortBy (Extended.latestFirst tz) l).
Proof.
  induction 1 as [|x l Vx V IH]; simpl; [constructor |].
  apply insertBy_later; [exact Vx | | exact IH].
  apply Forall_forall. intros y I. apply sortBy_In in I.
  rewrite Forall_forall in V. apply V, I.
Qed.

(** Without two strings for one day, the sorted days strictly decrease. *)
Lemma later_strictly (l : list string) :
  StronglySorted later l -> NoDup l ->
  (forall a b, In a l -> In b l -> dayNumber tz a = dayNumber tz b -> a = b) ->
  StronglySorted (fun x y => y < x) (map (dayNumber tz) l).
Proof.
  induction 1 as [|x l S IH F]; intros N J; simpl; [constructor |].
  inversion N as [|? ? NI N']; subst.
  constructor.
  - apply IH; [exact N' |]. intros a b Ia Ib. apply J; right; assumption.
  - apply Forall_forall. intros d I. apply in_map_iff in I.
    destruct I as (y & <- & I).
    rewrite Forall_forall in F. specialize (F y I). unfold later in F.
    assert (dayNumber tz x <> dayNumber tz y).
    { intros E. apply NI. rewrite (J x y (or_introl eq_refl) (or_intror I) E).
      exact I. }
    lia.
Qed.

Lemma streakWalk_cons (a b : string) (r : list string) (streak : Z) :
  Extended.streakWalk tz (a :: b :: r) streak
  = match JS.dateSub (JS.parseDate tz a) (JS.parseDate tz b) with
    | Some diff => if diff =? JS.msPerDay
                   then Extended.streakWalk tz (b :: r) (streak + 1)
                   else streak
    | None => streak
    end.
Proof. reflexivity. Qed.

Lemma steps_cons (a b : Z) (r : list Z) :
  steps (a :: b :: r) = if a - b =? 1 then 1 + steps (b :: r) else 0.
Proof. reflexivity. Qed.

(** The walk of [computeStreak] counts the steps of one day. *)
Lemma streakWalk_steps (l : list string) (streak : Z) :
  Forall (wholeDay tz) l ->
  Extended.streakWalk tz l streak = streak + steps (map (dayNumber tz) l).
Proof.
  intros V. revert streak.
  induction V as [|a l Va V IH]; intros streak; [simpl; lia |].
  destruct V as [|b r Vb V]; [simpl; lia |].
  rewrite streakWalk_cons. cbn [map]. rewrite steps_cons.
  destruct Va as (na & Ea). destruct (Vb) as (nb & Eb).
  rewrite (dayNumber_whole _ _ Ea), (dayNumber_whole _ _ Eb), Ea, Eb.
  cbn [JS.dateSub].
  assert ((na * JS.msPerDay - nb * JS.msPerDay =? JS.msPerDay) = (na - nb =? 1)) as ->.
  { unfold JS.msPerDay.
    destruct (na - nb =? 1) eqn:C; [apply Z.eqb_eq in C; apply Z.eqb_eq
                                   | apply Z.eqb_neq in C; apply Z.eqb_neq]; lia. }
  destruct (na - nb =? 1); [| lia].
  rewrite IH. cbn [map]. rewrite (dayNumber_whole _ _ Eb). lia.
Qed.

End Streak.

(** On strictly decreasing days, the steps of one day at the head are the
    run that ends at the first day. *)
Lemma steps_run (d0 : Z) (rest : list Z) :
  StronglySorted (fun x y => y < x) (d0 :: rest) ->
  runEndingAt (d0 :: rest) d0 (1 + steps (d0 :: rest)).
Proof.
  revert d0. induction rest as [|d1 rest IH]; intros d0 S.
  - simpl. unfold runEndingAt. simpl.
    split; [auto |]. split; [intros d [<- | []]; lia |]. split; [lia |].
    split; [intros i R; left; lia | intros [E | []]; lia].
  - inversion S as [|? ? S' F]; subst.
    destruct (IH d1 S') as (_ & M & K & R & O).
    assert (forall d, In d (d1 :: rest) -> d < d0) as B
      by (rewrite Forall_forall in F; exact F).
    pose proof (B d1 (or_introl eq_refl)) as B1.
    cbn [steps]. cbn [steps] in K, R, O.
    set (k' := 1 + match rest with
                   | [] => 0
                   | b :: _ => if d1 - b =? 1 then 1 + steps rest else 0
                   end) in *.
    unfold runEndingAt.
    split; [left; reflexivity |].
    split; [intros d [<- | I]; [lia | specialize (B d I); lia] |].
    destruct (d0 - d1 =? 1) eqn:C.
    + apply Z.eqb_eq in C.
      split; [lia |]. split.
      * intros i Ri. destruct (Z.eq_dec i 0) as [-> | NZ].
        -- left. lia.
        -- right. replace (d0 - i) with (d1 - (i - 1)) by lia. apply R. lia.
      * intros [E | I]; [lia |].
        apply O. replace (d1 - k') with (d0 - (1 + k')) by lia. exact I.
    + apply Z.eqb_neq in C.
      split; [lia |]. split.
      * intros i Ri. left. lia.
      * intros [E | I]; [lia |].
        specialize (M _ I). lia.
Qed.

Section StreakRule.

Variable tz : JS.Zone.

Lemma setOf_collect (l : list string) :
  JS.setOf l = collect string (fun _ => true) (fun x => x) [] l.
Proof. reflexivity. Qed.

Lemma setOf_In (l : list string) (x : string) : In x (JS.setOf l) <-> In x l.
Proof.
  rewrite setOf_collect, collect_In. split.
  - intros [[] | (y & I & _ & <-)]. exact I.
  - intros I. right. exists x. auto.
Qed.

Lemma setOf_NoDup (l : list string) : NoDup (JS.setOf l).
Proof. rewrite setOf_collect. apply collect_NoDup. constructor. Qed.

Lemma computeStreak_run (eps : list Episode) :
  eps <> [] -> wholeDays tz eps -> distinctDays tz eps ->
  exists latest,
    runEndingAt (loggedDays tz eps) latest (Extended.computeStreak tz eps).
Proof.
  intros NE W D. unfold Extended.computeStreak.
  assert ((JS.len eps =? 0) = false) as ->.
  { destruct (JS.len eps =? 0) eqn:Z0; [| reflexivity].
    apply len_zero in Z0. congruence. }
  cbv zeta.
  set (strings := JS.setOf (map Extended.dayString eps)).
  set (sorted := JS.sortBy (Extended.latestFirst tz) strings).
  assert (forall x, In x sorted <-> exists ep, In ep eps /\ Extended.dayString ep = x) as M.
  { intros x. unfold sorted. rewrite sortBy_In. unfold strings.
    rewrite setOf_In, in_map_iff. split; intros (ep & A & B); eauto. }
  assert (Forall (wholeDay tz) strings) as V.
  { apply Forall_forall. intros x I.
    assert (In x sorted) as I' by (apply sortBy_In; exact I).
    apply M in I'. destruct I' as (ep & I' & <-). apply W, I'. }
  assert (Forall (wholeDay tz) sorted) as V'.
  { apply Forall_forall. intros x I. apply sortBy_In in I.
    rewrite Forall_forall in V. apply V, I. }
  rewrite (streakWalk_steps tz sorted 1 V').
  assert (StronglySorted (fun x y => y < x) (map (dayNumber tz) sorted)) as S.
  { apply later_strictly.
    - apply sortBy_later, V.
    - apply (Permutation_NoDup (l := strings));
        [symmetry; apply sortBy_perm | apply setOf_NoDup].
    - intros a b Ia Ib E.
      pose proof Ia as Ia'. pose proof Ib as Ib'.
      apply M in Ia. apply M in Ib.
      destruct Ia as (ea & Ia & <-). destruct Ib as (eb & Ib & <-).
      apply D; [exact Ia | exact Ib |].
      destruct (W ea Ia) as (na & Ea). destruct (W eb Ib) as (nb & Eb).
      rewrite (dayNumber_whole _ _ _ Ea), (dayNumber_whole _ _ _ Eb) in E.
      rewrite Ea, Eb, E. reflexivity. }
  assert (forall d, In d (map (dayNumber tz) sorted) <-> In d (loggedDays tz eps)) as L.
  { intros d. unfold loggedDays. rewrite !in_map_iff. split.
    - intros (x & <- & I). apply M in I. destruct I as (ep & I & <-). eauto.
    - intros (ep & <- & I). exists (Extended.dayString ep). split; [reflexivity |].
      apply M. eauto. }
  destruct (map (dayNumber tz) sorted) as [|d0 rest] eqn:E.
  - exfalso. destruct eps as [|ep eps]; [congruence |].
    apply (proj2 (L (dayNumber tz (Extended.dayString ep)))).
    unfold loggedDays. left. reflexivity.
  - exists d0. destruct (steps_run d0 rest S) as (A & B & C & R & O).
    unfold runEndingAt.
    split; [apply L, A |]. split; [intros d I; apply B, L, I |].
    split; [exact C |]. split.
    + intros i Ri. apply L, R, Ri.
    + intros I. apply O, L, I.
Qed.

Lemma runEndingAt_unique (days : list Z) (a b k k' : Z) :
  runEndingAt days a k -> runEndingAt days b k' -> a = b /\ k = k'.
Proof.
  intros (Ia & Ma & Ka & Ra & Oa) (Ib & Mb & Kb & Rb & Ob).
  pose proof (Ma _ Ib). pose proof (Mb _ Ia).
  assert (a = b) as -> by lia. split; [reflexivity |].
  destruct (Z.lt_trichotomy k k') as [L | [E | L]]; [| exact E |].
  - exfalso. apply Oa, Rb. lia.
  - exfalso. apply Ob, Ra. lia.
Qed.

End StreakRule.

(** X15.  When the day strings of the episodes are read as whole days
    and no two of them stand for the same day, [computeStreak] returns
    the length of the run of consecutive logged days that ends at the
    most recent logged day, whatever the order of the episodes, and the
    streak rule fires exactly when that run has at least three days and
    reports its length. *)
Theorem streak_is_latest_run
  (tz : JS.Zone) (episodes : list Episode) (s : list Finding) :
  episodes <> [] -> wholeDays tz episodes -> distinctDays tz episodes ->
  exists latest k,
    runEndingAt (loggedDays tz episodes) latest k
    /\ Extended.computeStreak tz episodes = k
    /\ Extended.streakRule tz episodes s
       = if 3 <=? k then
           push s
             {| title := "Consistent tracking";
                message := "Great job! You've logged episodes for " ++ JS.showZ k
                  ++ " consecutive days. Keeping track consistently helps identify patterns." |}
         else s.
Proof.
  intros NE W D.
  destruct (computeStreak_run tz episodes NE W D) as (latest & R).
  exists latest, (Extended.computeStreak tz episodes).
  split; [exact R |]. split; [reflexivity |].
  unfold Extended.streakRule, Extended.streakOn. cbv zeta.
  set (sorted := JS.sortBy (Extended.newestFirst tz) episodes).
  assert (forall ep, In ep sorted <-> In ep episodes) as M
    by (intros ep; apply sortBy_In).
  assert (sorted <> []) as NE'.
  { destruct episodes as [|ep r]; [congruence |].
    intros E. pose proof (proj2 (M ep) (or_introl eq_refl)) as I.
    rewrite E in I. destruct I. }
  assert (wholeDays tz sorted) as W' by (intros ep I; apply W, M, I).
  assert (distinctDays tz sorted) as D'
    by (intros a b Ia Ib; apply D; apply M; assumption).
  destruct (computeStreak_run tz sorted NE' W' D') as (latest' & R').
  assert (runEndingAt (loggedDays tz episodes) latest'
            (Extended.computeStreak tz sorted)) as R''.
  { assert (forall d, In d (loggedDays tz sorted) <-> In d (loggedDays tz episodes)) as L.
    { intros d. unfold loggedDays. rewrite !in_map_iff.
      split; intros (ep & E & I); exists ep; (split; [exact E | apply M, I]). }
    destruct R' as (A & B & C & R1 & O).
    unfold runEndingAt.
    split; [apply L, A |]. split; [intros d I; apply B, L, I |].
    split; [exact C |]. split.
    - intros i Ri. apply L, R1, Ri.
    - intros I. apply O, L, I. }
  destruct (runEndingAt_unique _ _ _ _ _ R R'') as (_ & <-).
  reflexivity.
Qed.

(** X15 at a concrete input: episodes logged on 12, 14 and 13 November
    2023, in this order, are a run of three days. *)
Lemma streak_is_latest_run_witness :
  unsorted <> [] /\ wholeDays 0 unsorted /\ distinctDays 0 unsorted
  /\ exists latest k,
    runEndingAt (loggedDays 0 unsorted) latest k
    /\ Extended.computeStreak 0 unsorted = k
    /\ Extended.streakRule 0 unsorted []
       = if 3 <=? k then
           push []
             {| title := "Consistent tracking";
                message := "Great job! You've logged episodes for " ++ JS.showZ k
                  ++ " consecutive days. Keeping track consistently helps identify patterns." |}
         else [].
Proof.
  assert (unsorted <> []) as NE by discriminate.
  assert (wholeDays 0 unsorted) as W.
  { intros ep [<- | [<- | [<- | []]]];
      [exists 19673 | exists 19675 | exists 19674]; vm_compute; reflexivity. }
  assert (distinctDays 0 unsorted) as D.
  { intros a b [<- | [<- | [<- | []]]] [<- | [<- | [<- | []]]];
      vm_compute; intros E; try reflexivity; discriminate E. }
  split; [exact NE |]. split; [exact W |]. split; [exact D |].
  exact (streak_is_latest_run 0 unsorted [] NE W D).
Defined.

(** ** What a call reads of the history *)

Section SixWeeks.

Variables (tz : JS.Zone) (now : Z) (episodes : list Episode).

(** The episodes of the last 42 days. *)
Definition sixWeeksOf : list Episode := Basic.inLastDays tz now episodes 42.

Lemma window_of_sixWeeks (days : Z) :
  days <= 42 ->
  Basic.inLastDays tz now sixWeeksOf days = Basic.inLastDays tz now episodes days.
Proof.
  intros D. unfold sixWeeksOf, Basic.inLastDays. rewrite filter_twice.
  apply filter_ext. intros ep. rewrite !inWindow_spec.
  destruct (Basic.when tz ep) as [t|]; [| reflexivity].
  pose proof (daysBefore_mono tz now days 42 D).
  destruct (daysBefore tz now 42 <=? t) eqn:A,
           (daysBefore tz now days <=? t) eqn:B; try reflexivity; lia.
Qed.

Lemma prevWeek_of_sixWeeks :
  Extended.prevWeek tz now sixWeeksOf = Extended.prevWeek tz now episodes.
Proof.
  unfold Extended.prevWeek, sixWeeksOf, Basic.inLastDays. rewrite filter_twice.
  apply filter_ext. intros ep. rewrite inWindow_spec, inPrevWeek_spec.
  destruct (Basic.when tz ep) as [t|]; [| reflexivity].
  pose proof (daysBefore_mono tz now 14 42 ltac:(lia)).
  destruct (daysBefore tz now 42 <=? t) eqn:A,
           (daysBefore tz now 14 <=? t) eqn:B,
           (t <? daysBefore tz now 7) eqn:C; try reflexivity; lia.
Qed.

Lemma basicSlots_sixWeeks :
  basicSlots tz now sixWeeksOf = basicSlots tz now episodes.
Proof.
  unfold basicSlots, basicMedicationRule, Basic.topTriggersRule, Basic.timeOfDayRule,
    Basic.dayOfWeekRule, Basic.risingIntensityRule. cbv zeta.
  change (filter (fun ep => JS.dateGe (Basic.when tz ep) (Basic.cutoffDate tz now 42))
                 sixWeeksOf)
    with (Basic.inLastDays tz now sixWeeksOf 42).
  change (filter (fun ep => JS.dateGe (Basic.when tz ep) (Basic.cutoffDate tz now 42))
                 episodes)
    with (Basic.inLastDays tz now episodes 42).
  rewrite !window_of_sixWeeks by lia. reflexivity.
Qed.

Lemma extendedSlots_sixWeeks :
  extendedSlots tz now sixWeeksOf
  = [ Extended.topTriggersRule tz now episodes [];
      Extended.timeOfDayRule tz now episodes [];
      Extended.dayOfWeekRule tz now episodes [];
      extendedRisingRule tz now episodes [];
      Extended.medicationOveruseRule tz now episodes [];
      Extended.averageIntensityByHourRule tz now episodes [];
      Extended.averageIntensityByWeekdayRule tz now episodes [];
      Extended.streakRule tz sixWeeksOf [];
      Extended.weeklyChangeRule tz now episodes [] ].
Proof.
  unfold extendedSlots, extendedRisingRule, gateExtended, last3, prev3, weeklyAvgOf,
    weekNumbersOf, weekGroupsOf,
    Extended.topTriggersRule, Extended.timeOfDayRule,
    Extended.dayOfWeekRule, Extended.medicationOveruseRule,
    Extended.averageIntensityByHourRule, Extended.averageIntensityByWeekdayRule,
    Extended.weeklyChangeRule, Extended.lastWeek.
  cbv zeta. rewrite prevWeek_of_sixWeeks.
  change Extended.inLastDays with Basic.inLastDays.
  rewrite !window_of_sixWeeks by lia. reflexivity.
Qed.

End SixWeeks.

(** X16.  The basic variant reads nothing of the history but the
    episodes of the last 42 days: called on those alone it returns the
    same findings.  Older episodes, and episodes whose date cannot be
    read, have no effect on the result. *)
Theorem basic_reads_last_six_weeks (tz : JS.Zone) (now : Z) (episodes : list Episode) :
  Basic.analysePatterns tz now (Basic.inLastDays tz now episodes 42)
  = Basic.analysePatterns tz now episodes.
Proof.
  rewrite !basic_analysePatterns_slots.
  fold (sixWeeksOf tz now episodes). rewrite basicSlots_sixWeeks.
  destruct (JS.len episodes =? 0) eqn:E.
  - apply len_zero in E. subst episodes. reflexivity.
  - destruct (JS.len (sixWeeksOf tz now episodes) =? 0) eqn:E'; [| reflexivity].
    apply len_zero in E'.
    rewrite <- basicSlots_sixWeeks, E'. reflexivity.
Qed.

Definition notStreakFinding (f : Finding) : bool := negb (isStreakFinding f).

Ltac other_than_streak :=
  let f := fresh "f" in
  let T := fresh "T" in
  intros f T; unfold notStreakFinding, isStreakFinding; cbn [In] in T;
  repeat (destruct T as [T | T]; [rewrite <- T; reflexivity |]); destruct T.

(** X17.  In the extended variant only the streak rule reads episodes
    older than 42 days: called on the episodes of the last 42 days alone,
    it returns the same findings apart from the one titled "Consistent
    tracking". *)
Theorem extended_reads_last_six_weeks (tz : JS.Zone) (now : Z) (episodes : list Episode) :
  exists findings recentFindings,
    Extended.analysePatterns tz now episodes = Normal findings
    /\ Extended.analysePatterns tz now (Extended.inLastDays tz now episodes 42)
       = Normal recentFindings
    /\ filter notStreakFinding recentFindings = filter notStreakFinding findings.
Proof.
  rewrite !extended_analysePatterns_slots.
  eexists. eexists. split; [reflexivity |]. split; [reflexivity |].
  change (Extended.inLastDays tz now episodes 42) with (sixWeeksOf tz now episodes).
  assert (filter notStreakFinding (List.concat (extendedSlots tz now (sixWeeksOf tz now episodes)))
          = filter notStreakFinding (List.concat (extendedSlots tz now episodes))) as S.
  { rewrite extendedSlots_sixWeeks. unfold extendedSlots.
    cbn [List.concat]. rewrite !filter_app.
    rewrite (adds_filtered _ _ _ (proj2 (extended_streak_appends tz episodes)))
      by other_than_streak.
    rewrite (adds_filtered _ _ _
               (proj2 (extended_streak_appends tz (sixWeeksOf tz now episodes))))
      by other_than_streak.
    reflexivity. }
  destruct (JS.len episodes =? 0) eqn:E.
  - apply len_zero in E. subst episodes. reflexivity.
  - destruct (JS.len (sixWeeksOf tz now episodes) =? 0) eqn:E'; [| exact S].
    apply len_zero in E'. rewrite <- S, E'. reflexivity.
Qed.

(** ** The order of the episodes *)

Lemma filter_perm {A} (p : A -> bool) (l l' : list A) :
  Permutation l l' -> Permutation (filter p l) (filter p l').
Proof.
  induction 1 as [| x l l' P IH | x y l | l l' l'' P IH P' IH']; simpl.
  - constructor.
  - destruct (p x); [apply perm_skip |]; exact IH.
  - destruct (p x), (p y); try reflexivity. apply perm_swap.
  - etransitivity; eassumption.
Qed.

Lemma len_perm {A} (l l' : list A) : Permutation l l' -> JS.len l = JS.len l'.
Proof. intros P. unfold JS.len. rewrite (Permutation_length P). reflexivity. Qed.

Lemma sorted_perm_eq (l l' : list Z) :
  StronglySorted Z.le l -> StronglySorted Z.le l' -> Permutation l l' -> l = l'.
Proof.
  intros S. revert l'. induction S as [|x l S IH F]; intros l' S' P.
  - apply Permutation_nil in P. congruence.
  - destruct S' as [|y l' S' F'].
    + apply Permutation_sym, Permutation_nil in P. discriminate.
    + assert (x = y) as <-.
      { rewrite Forall_forall in F, F'.
        assert (In y (x :: l)) as Iy
          by (apply (Permutation_in _ (Permutation_sym P)); left; reflexivity).
        assert (In x (y :: l')) as Ix
          by (apply (Permutation_in _ P); left; reflexivity).
        destruct Iy as [E | Iy]; [congruence |].
        destruct Ix as [E | Ix]; [congruence |].
        specialize (F _ Iy). specialize (F' _ Ix). lia. }
      f_equal. apply IH; [exact S' |]. exact (Permutation_cons_inv P).
Qed.

Lemma sortBy_ascending_perm (l l' : list Z) :
  Permutation l l' -> JS.sortBy JS.ascending l = JS.sortBy JS.ascending l'.
Proof.
  intros P. apply sorted_perm_eq; try apply SweepFacts.sortBy_sorted.
  rewrite !sortBy_perm. exact P.
Qed.

Lemma collect_perm {A} (test : A -> bool) (keyOf : A -> string) (l l' : list A) :
  Permutation l l' ->
  JS.len (collect A test keyOf [] l) = JS.len (collect A test keyOf [] l').
Proof.
  intros P. apply len_perm, NoDup_Permutation;
    try (apply collect_NoDup; constructor).
  intros d. rewrite !collect_In.
  split; (intros [[] | (x & I & T & K)]; right; exists x; split; [| auto]).
  - exact (Permutation_in _ P I).
  - exact (Permutation_in _ (Permutation_sym P) I).
Qed.

Section Order.

Variable tz : JS.Zone.

Lemma onWeekday_perm (recent recent' : list Episode) (d : Z) :
  Permutation recent recent' -> onWeekday tz recent d = onWeekday tz recent' d.
Proof. intros P. unfold onWeekday. apply len_perm, filter_perm, P. Qed.

Lemma busiestWeekday_perm (recent recent' : list Episode) (d : Z) :
  Permutation recent recent' ->
  busiestWeekday tz recent d -> busiestWeekday tz recent' d.
Proof.
  intros P (R & M & F). unfold busiestWeekday.
  split; [exact R |].
  split; intros d' R'; rewrite <- !(onWeekday_perm _ _ _ P); auto.
Qed.

Lemma minutesOf_perm (recent recent' : list Episode) :
  Permutation recent recent' -> Basic.minutesOf tz recent = Basic.minutesOf tz recent'.
Proof.
  intros P. unfold Basic.minutesOf. apply sortBy_ascending_perm, Permutation_map, P.
Qed.

Lemma basic_dayOfWeekOn_perm (recent recent' : list Episode) (s : list Finding) :
  Permutation recent recent' ->
  Basic.dayOfWeekOn tz recent s = Basic.dayOfWeekOn tz recent' s.
Proof.
  intros P. unfold Basic.dayOfWeekOn. rewrite <- (len_perm _ _ P).
  destruct (JS.len recent =? 0); [reflexivity |]. cbv zeta.
  fold (countDays tz recent (repeat 0 7)).
  fold (countDays tz recent' (repeat 0 7)).
  change (Basic.indexOf (countDays tz recent (repeat 0 7))
            (Basic.maxOf (countDays tz recent (repeat 0 7))))
    with (basicDayIndex tz recent).
  change (Basic.indexOf (countDays tz recent' (repeat 0 7))
            (Basic.maxOf (countDays tz recent' (repeat 0 7))))
    with (basicDayIndex tz recent').
  destruct (basicDayIndex_busiest tz recent) as (B & ->).
  destruct (basicDayIndex_busiest tz recent') as (B' & ->).
  assert (basicDayIndex tz recent = basicDayIndex tz recent') as <-.
  { apply Nat2Z.inj.
    exact (busiestWeekday_unique tz recent' _ _
             (busiestWeekday_perm _ _ _ P B) B'). }
  rewrite <- (onWeekday_perm _ _ _ P). reflexivity.
Qed.

Lemma extended_dayOfWeekOn_perm (recent recent' : list Episode) (s : list Finding) :
  Permutation recent recent' ->
  Extended.dayOfWeekOn tz recent s = Extended.dayOfWeekOn tz recent' s.
Proof.
  intros P. unfold Extended.dayOfWeekOn. rewrite <- (len_perm _ _ P).
  destruct (JS.len recent =? 0) eqn:Z0; [reflexivity |]. cbv zeta.
  assert (recent <> []) as NE.
  { intros E. apply len_zero in E. congruence. }
  assert (recent' <> []) as NE'.
  { intros E. subst recent'. apply Permutation_sym, Permutation_nil in P.
    congruence. }
  fold (weekdayCountsOf tz recent). fold (weekdayCountsOf tz recent').
  change (fold_left _ (Extended.idxEntries (weekdayCountsOf tz recent)) (None, 0))
    with (fold_left pickMax (Extended.idxEntries (weekdayCountsOf tz recent)) (None, 0)).
  change (fold_left _ (Extended.idxEntries (weekdayCountsOf tz recent')) (None, 0))
    with (fold_left pickMax (Extended.idxEntries (weekdayCountsOf tz recent')) (None, 0)).
  destruct (extended_pick_busiest tz recent NE) as (d & -> & B & _).
  destruct (extended_pick_busiest tz recent' NE') as (d' & -> & B' & _).
  rewrite <- (busiestWeekday_unique tz recent' _ _
                (busiestWeekday_perm _ _ _ P B) B').
  rewrite <- (onWeekday_perm _ _ _ P). reflexivity.
Qed.

End Order.

(** X18.  The order in which the episodes are stored has no effect on
    what the time-of-day, day-of-week and medication rules of either
    variant and the weekly-change rule add: the first sorts what it reads,
    the others only count. *)
Theorem order_of_episodes_is_irrelevant
  (tz : JS.Zone) (now : Z) (episodes episodes' : list Episode) (s : list Finding) :
  Permutation episodes episodes' ->
  Basic.timeOfDayRule tz now episodes s = Basic.timeOfDayRule tz now episodes' s
  /\ Extended.timeOfDayRule tz now episodes s
     = Extended.timeOfDayRule tz now episodes' s
  /\ Basic.dayOfWeekRule tz now episodes s = Basic.dayOfWeekRule tz now episodes' s
  /\ Extended.dayOfWeekRule tz now episodes s
     = Extended.dayOfWeekRule tz now episodes' s
  /\ Basic.medicationOveruseRule tz now episodes s
     = Basic.medicationOveruseRule tz now episodes' s
  /\ Extended.medicationOveruseRule tz now episodes s
     = Extended.medicationOveruseRule tz now episodes' s
  /\ Extended.weeklyChangeRule tz now episodes s
     = Extended.weeklyChangeRule tz now episodes' s.
Proof.
  intros P.
  assert (forall days, Permutation (Basic.inLastDays tz now episodes days)
                                   (Basic.inLastDays tz now episodes' days)) as W
    by (intros days; apply filter_perm, P).
  repeat split.
  - unfold Basic.timeOfDayRule. cbv zeta.
    rewrite (len_perm _ _ (W 30)), (minutesOf_perm tz _ _ (W 30)). reflexivity.
  - unfold Extended.timeOfDayRule. cbv zeta.
    change Extended.inLastDays with Basic.inLastDays.
    change Extended.minutesOf with Basic.minutesOf.
    rewrite (len_perm _ _ (W 30)), (minutesOf_perm tz _ _ (W 30)). reflexivity.
  - unfold Basic.dayOfWeekRule. apply basic_dayOfWeekOn_perm, W.
  - unfold Extended.dayOfWeekRule. apply extended_dayOfWeekOn_perm, (W 30).
  - rewrite !basic_medication_normal. unfold basicMedicationRule. cbv zeta.
    rewrite (collect_perm medicated (utcDayKey tz) _ _ (W 30)). reflexivity.
  - unfold Extended.medicationOveruseRule, Extended.medicationOveruseOn. cbv zeta.
    rewrite !extended_medicationDays.
    change Extended.inLastDays with Basic.inLastDays.
    rewrite (collect_perm medicated storedDayKey _ _ (W 30)). reflexivity.
  - unfold Extended.weeklyChangeRule, Extended.weeklyChangeOn, Extended.lastWeek,
      Extended.prevWeek. cbv zeta.
    change Extended.inLastDays with Basic.inLastDays.
    rewrite (len_perm _ _ (W 7)).
    rewrite (len_perm _ _ (filter_perm (Extended.inPrevWeek tz now) _ _ P)).
    reflexivity.
Qed.

(** X18 at a concrete input: three episodes and the same three in the
    reverse order. *)
Lemma order_of_episodes_is_irrelevant_witness :
  Permutation unsorted (rev unsorted)
  /\ Basic.timeOfDayRule 0 1700000000000 unsorted []
     = Basic.timeOfDayRule 0 1700000000000 (rev unsorted) [].
Proof.
  assert (Permutation unsorted (rev unsorted)) as P by apply Permutation_rev.
  split; [exact P |].
  exact (proj1 (order_of_episodes_is_irrelevant
                  0 1700000000000 unsorted (rev unsorted) [] P)).
Defined.

(** ** [capitalize] *)

(** X19.  The two variants of [capitalize] agree on every string: the
    guard of the extended one only spares the empty string two calls that
    return the empty string anyway. *)
Theorem capitalize_variants_agree (s : string) :
  Extended.capitalize s = Basic.capitalize s.
Proof. destruct s; reflexivity. Qed.

(** ** The rising-intensity rule: what it compares *)

(** The episodes whose date is valid and passes a test, in their order. *)
Fixpoint datedWhere (tz : JS.Zone) (test : Z -> bool) (episodes : list Episode)
  : list Episode :=
  match episodes with
  | [] => []
  | ep :: rest =>
      match JS.parseDate tz (datetime ep) with
      | Some t => if test t then ep :: datedWhere tz test rest
                  else datedWhere tz test rest
      | None => datedWhere tz test rest
      end
  end.

(** The mean of a list of numbers, summed from the left as [reduce] sums
    them, in doubles. *)
Fixpoint sumFrom (acc : JS.num) (xs : list JS.num) : JS.num :=
  match xs with
  | [] => acc
  | x :: rest => sumFrom (PrimFloat.add acc x) rest
  end.

Definition mean (xs : list JS.num) : JS.num :=
  PrimFloat.div (sumFrom 0%float xs) (JS.ofZ (JS.len xs)).

(** The intensities the basic variant sums ([ep.intensity], which is
    [undefined] when absent) and those the extended variant sums
    ([Number(ep.intensity || 0)]). *)
Definition intensities (eps : list Episode) : list JS.num :=
  map (fun ep => JS.toNumber (intensity ep)) eps.
Definition intensitiesOrZero (eps : list Episode) : list JS.num :=
  map (fun ep => JS.numberOrZero (intensity ep)) eps.

(** Of a list of weekly means, the mean of the last three and the mean of
    the three before them; none when there are fewer than six. *)
Definition lastAndPrevious (means : list JS.num) : option (JS.num * JS.num) :=
  match rev means with
  | c :: b :: a :: f :: e :: d :: _ => Some (mean [a; b; c], mean [d; e; f])
  | _ => None
  end.

(** The week numbers of a window increase with the dates of its episodes;
    they do not when the window holds the turn of a year. *)
Definition weeksFollowDates (tz : JS.Zone) (window : list Episode) : Prop :=
  forall a b, In a window -> In b window ->
    Extended.weekKey tz a < Extended.weekKey tz b ->
    Extended.timeValue tz a < Extended.timeValue tz b.

(** Every episode of the week numbered [k] is dated before every episode
    of the week numbered [k']. *)
Definition weekBefore (tz : JS.Zone) (window : list Episode) (k k' : Z) : Prop :=
  forall a b, In a window -> In b window ->
    Extended.weekKey tz a = k -> Extended.weekKey tz b = k' ->
    Extended.timeValue tz a < Extended.timeValue tz b.

Lemma datedWhere_filter (tz : JS.Zone) (test : Z -> bool) (p : Episode -> bool)
    (episodes : list Episode) :
  (forall ep, p ep = match JS.parseDate tz (datetime ep) with
                     | Some t => test t
                     | None => false
                     end) ->
  filter p episodes = datedWhere tz test episodes.
Proof.
  intros P. induction episodes as [|ep rest IH]; [reflexivity |].
  cbn [filter datedWhere]. rewrite (P ep), IH.
  destruct (JS.parseDate tz (datetime ep)) as [t|]; [destruct (test t) |];
    reflexivity.
Qed.

Lemma sumFrom_fold {A} (f : A -> JS.num) (l : list A) (acc : JS.num) :
  fold_left (fun sum x => PrimFloat.add sum (f x)) l acc = sumFrom acc (map f l).
Proof.
  revert acc. induction l as [|x l IH]; intros acc; [reflexivity |]. apply IH.
Qed.

Lemma basic_average_mean (window : list Episode) :
  Basic.average window = mean (intensities window).
Proof.
  unfold Basic.average, mean, intensities. rewrite sumFrom_fold, len_map. reflexivity.
Qed.

Lemma weekAverage_mean (eps : list Episode) :
  Extended.weekAverage eps = mean (intensitiesOrZero eps).
Proof.
  unfold Extended.weekAverage, mean, intensitiesOrZero.
  rewrite sumFrom_fold, len_map. reflexivity.
Qed.

Lemma last_six {A} (l : list A) :
  (6 <= List.length l)%nat ->
  exists pre d e f a b c, l = (pre ++ [d; e; f; a; b; c])%list.
Proof.
  intros L. exists (firstn (List.length l - 6) l).
  pose proof (firstn_skipn (List.length l - 6) l) as E.
  pose proof (length_skipn (List.length l - 6) l) as S.
  destruct (skipn (List.length l - 6) l) as [|d [|e [|f [|a [|b [|c [|x r]]]]]]];
    simpl in S; try lia.
  exists d, e, f, a, b, c. symmetry. exact E.
Qed.

Lemma lastAndPrevious_short (l : list JS.num) :
  (List.length l < 6)%nat -> lastAndPrevious l = None.
Proof.
  intros L. unfold lastAndPrevious. rewrite <- length_rev in L.
  destruct (rev l) as [|c [|b [|a [|f [|e [|d r]]]]]]; simpl in L; try reflexivity; lia.
Qed.

Lemma lastAndPrevious_six (pre : list JS.num) (d e f a b c : JS.num) :
  let l := (pre ++ [d; e; f; a; b; c])%list in
  lastAndPrevious l = Some (mean [a; b; c], mean [d; e; f])
  /\ Extended.meanOfThree (Extended.lastThree l) = mean [a; b; c]
  /\ Extended.meanOfThree (Extended.previousThree l) = mean [d; e; f].
Proof.
  cbv zeta. split; [| split].
  - unfold lastAndPrevious. rewrite rev_app_distr. reflexivity.
  - unfold Extended.lastThree. rewrite length_app. cbn [List.length].
    replace (List.length pre + 6 - 3)%nat with (List.length pre + 3)%nat by lia.
    rewrite skipn_app, skipn_all2 by lia.
    replace (List.length pre + 3 - List.length pre)%nat with 3%nat by lia.
    reflexivity.
  - unfold Extended.previousThree. rewrite length_app. cbn [List.length].
    replace (List.length pre + 6 - 6)%nat with (List.length pre + 0)%nat by lia.
    rewrite skipn_app, skipn_all2 by lia.
    replace (List.length pre + 0 - List.length pre)%nat with 0%nat by lia.
    reflexivity.
Qed.

Lemma sorted_strictly (l : list Z) :
  StronglySorted Z.le l -> NoDup l -> StronglySorted Z.lt l.
Proof.
  induction 1 as [|x l S IH F]; intros N; [constructor |].
  inversion N as [|? ? NI N']; subst.
  constructor; [exact (IH N') |].
  rewrite Forall_forall in F |- *. intros y I. specialize (F y I).
  assert (x <> y) by (intros ->; exact (NI I)). lia.
Qed.

Lemma two_elements {A} (l : list A) (a b : A) :
  In a l -> In b l -> a <> b -> 2 <= JS.len l.
Proof.
  unfold JS.len. destruct l as [|x [|y r]]; simpl.
  - intros [].
  - intros [<- | []] [<- | []] N. congruence.
  - intros _ _ _. lia.
Qed.

Lemma idxGet_Some_key {V} (o : Extended.IdxObj V) (k : Z) (v : V) :
  Extended.idxGet o k = Some v -> In k (map fst o).
Proof.
  induction o as [|[k0 v0] o IH]; simpl; [discriminate |].
  destruct (k =? k0) eqn:E; [apply Z.eqb_eq in E; auto | auto].
Qed.

Section RisingMeaning.

Variables (tz : JS.Zone) (now : Z) (episodes : list Episode).

Lemma window_dated (days : Z) :
  Basic.inLastDays tz now episodes days
  = datedWhere tz (fun t => daysBefore tz now days <=? t) episodes.
Proof.
  apply datedWhere_filter. intros ep.
  unfold Basic.inWindow, JS.dateGe, Basic.when. rewrite basic_cutoff. reflexivity.
Qed.

(** *** The extended variant *)

Lemma weekGroups_length :
  List.length (weekNumbersOf tz now episodes)
  = List.length (weekGroupsOf tz now episodes).
Proof.
  unfold weekNumbersOf. rewrite sortBy_length, length_map.
  unfold Extended.idxEntries. apply sortBy_length.
Qed.

Lemma weekNumbersOf_NoDup : NoDup (weekNumbersOf tz now episodes).
Proof.
  unfold weekNumbersOf.
  apply (Permutation_NoDup (l := map fst (weekGroupsOf tz now episodes))).
  - symmetry. rewrite sortBy_perm. apply Permutation_map, sortBy_perm.
  - apply groupBy_NoDup.
Qed.

Lemma weekNumbersOf_sorted : StronglySorted Z.lt (weekNumbersOf tz now episodes).
Proof.
  apply sorted_strictly; [apply SweepFacts.sortBy_sorted | apply weekNumbersOf_NoDup].
Qed.

Lemma weekNumbersOf_In (k : Z) :
  In k (weekNumbersOf tz now episodes)
  <-> exists ep, In ep (Basic.inLastDays tz now episodes 42)
                 /\ Extended.weekKey tz ep = k.
Proof.
  unfold weekNumbersOf. rewrite sortBy_In, idxEntries_keys. unfold weekGroupsOf.
  change (Extended.inLastDays tz now episodes 42)
    with (Basic.inLastDays tz now episodes 42).
  split.
  - apply groupBy_keys.
  - intros (ep & I & <-).
    pose proof (groupBy_get (Extended.weekKey tz)
                  (Basic.inLastDays tz now episodes 42) (Extended.weekKey tz ep)) as G.
    destruct (filter _ (Basic.inLastDays tz now episodes 42)) as [|x g] eqn:F.
    + exfalso.
      assert (In ep (filter (fun item => Extended.weekKey tz item =? Extended.weekKey tz ep)
                            (Basic.inLastDays tz now episodes 42))) as X
        by (apply filter_In; split; [exact I | apply Z.eqb_refl]).
      rewrite F in X. destruct X.
    + exact (idxGet_Some_key _ _ _ G).
Qed.

(** The mean of the week numbered [k]. *)
Definition weekMeanOf (window : list Episode) (k : Z) : JS.num :=
  mean (intensitiesOrZero (filter (fun ep => Extended.weekKey tz ep =? k) window)).

Lemma weeklyAvgOf_means :
  weeklyAvgOf tz now episodes
  = map (weekMeanOf (Basic.inLastDays tz now episodes 42))
        (weekNumbersOf tz now episodes).
Proof.
  unfold weeklyAvgOf, meansOfWeeks. apply map_ext. intros k.
  unfold weekGroupsOf, weekMeanOf. rewrite groupBy_get, weekAverage_mean.
  change (Extended.inLastDays tz now episodes 42)
    with (Basic.inLastDays tz now episodes 42).
  destruct (filter _ (Basic.inLastDays tz now episodes 42)); reflexivity.
Qed.

Lemma extended_rising_means (suggestions : list Finding) :
  Extended.risingIntensityRule tz now episodes suggestions
  = Normal
      match lastAndPrevious
              (map (weekMeanOf (Basic.inLastDays tz now episodes 42))
                   (weekNumbersOf tz now episodes)) with
      | Some (last3, prev3) =>
          if PrimFloat.ltb 0%float prev3
             && PrimFloat.leb (PrimFloat.mul prev3 Extended.onePointTwo) last3
          then
            push suggestions
              {| title := "Rising intensity trend";
                 message := "Your 3‑week average intensity has risen by over 20%. Consider consulting a healthcare provider or reviewing possible triggers." |}
          else suggestions
      | None => suggestions
      end.
Proof.
  rewrite extended_rising. unfold gateExtended, prev3, last3.
  rewrite weeklyAvgOf_means.
  set (means := map _ (weekNumbersOf tz now episodes)).
  assert (List.length means = List.length (weekNumbersOf tz now episodes)) as LM
    by (unfold means; apply length_map).
  destruct (Nat.lt_ge_cases (List.length means) 6) as [S | L].
  - rewrite (lastAndPrevious_short means S).
    assert ((6 <=? JS.len (weekNumbersOf tz now episodes)) = false) as ->
      by (apply Z.leb_gt; unfold JS.len; lia).
    rewrite andb_false_r. reflexivity.
  - assert ((6 <=? JS.len (weekNumbersOf tz now episodes)) = true) as ->
      by (apply Z.leb_le; unfold JS.len; lia).
    assert ((3 <=? JS.len (Extended.inLastDays tz now episodes 42)) = true) as ->.
    { apply Z.leb_le. unfold JS.len.
      pose proof (groupBy_length (Extended.weekKey tz)
                    (Extended.inLastDays tz now episodes 42)
                    (map (Extended.weekKey tz) (Extended.inLastDays tz now episodes 42))
                    (fun item I => in_map _ _ _ I)) as G.
      rewrite length_map in G. fold (weekGroupsOf tz now episodes) in G.
      rewrite <- weekGroups_length in G. lia. }
    destruct (last_six means L) as (pre & d & e & f & a & b & c & ->).
    destruct (lastAndPrevious_six pre d e f a b c) as (-> & -> & ->).
    reflexivity.
Qed.

Lemma weeks_in_time_order :
  weeksFollowDates tz (Basic.inLastDays tz now episodes 42) ->
  StronglySorted (weekBefore tz (Basic.inLastDays tz now episodes 42))
                 (weekNumbersOf tz now episodes).
Proof.
  intros H. pose proof weekNumbersOf_sorted as S.
  induction S as [|k l S IH F]; constructor; [exact IH |].
  rewrite Forall_forall in F |- *. intros k' I a b Ia Ib <- <-.
  apply H; [exact Ia | exact Ib | exact (F _ I)].
Qed.

(** *** The basic variant *)

Lemma firstWindow_dated :
  firstWindow tz now episodes
  = datedWhere tz (fun t => (daysBefore tz now 42 <=? t) && (t <? daysBefore tz now 21))
               episodes.
Proof.
  unfold firstWindow, Basic.inLastDays. rewrite filter_twice.
  apply datedWhere_filter. intros ep.
  unfold Basic.inWindow, JS.dateGe, JS.dateLt, Basic.when. rewrite !basic_cutoff.
  destruct (JS.parseDate tz (datetime ep)); reflexivity.
Qed.

Lemma secondWindow_dated :
  secondWindow tz now episodes
  = datedWhere tz (fun t => daysBefore tz now 21 <=? t) episodes.
Proof.
  unfold secondWindow, Basic.inLastDays. rewrite filter_twice.
  apply datedWhere_filter. intros ep.
  unfold Basic.inWindow, JS.dateGe, Basic.when. rewrite !basic_cutoff.
  destruct (JS.parseDate tz (datetime ep)) as [t|]; [| reflexivity].
  pose proof (daysBefore_mono tz now 21 42 ltac:(lia)).
  destruct (daysBefore tz now 42 <=? t) eqn:A,
           (daysBefore tz now 21 <=? t) eqn:B; try reflexivity; lia.
Qed.

(** Two non-empty halves make a window of two episodes at least: the
    first test of the rule never decides. *)
Lemma halves_make_two :
  firstWindow tz now episodes <> [] -> secondWindow tz now episodes <> [] ->
  2 <= JS.len (Basic.inLastDays tz now episodes 42).
Proof.
  unfold firstWindow, secondWindow.
  set (recent := Basic.inLastDays tz now episodes 42).
  intros F S.
  destruct (filter _ recent) as [|a fr] eqn:EF in F; [congruence |].
  destruct (filter (fun ep => JS.dateGe _ _) recent) as [|b sr] eqn:ES in S;
    [congruence |].
  assert (In a (filter (fun ep => JS.dateLt (Basic.when tz ep) (Basic.cutoffDate tz now 21))
                       recent)) as Ia by (rewrite EF; left; reflexivity).
  assert (In b (filter (fun ep => JS.dateGe (Basic.when tz ep) (Basic.cutoffDate tz now 21))
                       recent)) as Ib by (rewrite ES; left; reflexivity).
  apply filter_In in Ia. apply filter_In in Ib.
  destruct Ia as (Ia & La). destruct Ib as (Ib & Gb).
  apply (two_elements recent a b Ia Ib). intros ->.
  apply dateLt_spec in La. apply dateGe_spec in Gb.
  destruct La as (t & E & L). destruct Gb as (t' & E' & G).
  rewrite E in E'. injection E' as <-. lia.
Qed.

Lemma basic_rising_means (suggestions : list Finding) :
  let older := firstWindow tz now episodes in
  let newer := secondWindow tz now episodes in
  let previous := mean (intensities older) in
  let recent := mean (intensities newer) in
  Basic.risingIntensityRule tz now episodes suggestions
  = match older, newer with
    | _ :: _, _ :: _ =>
        if PrimFloat.leb (PrimFloat.mul previous Basic.onePointTwo) recent then
          push suggestions
            {| title := "Rising intensity";
               message := "Your average migraine intensity over the last three weeks ("
                 ++ JS.toFixed1 recent
                 ++ ") is noticeably higher than the preceding three weeks ("
                 ++ JS.toFixed1 previous
                 ++ "). It may be worth discussing this with a healthcare professional." |}
        else suggestions
    | _, _ => suggestions
    end.
Proof.
  cbv zeta. rewrite basic_rising. unfold gateBasic, avg1, avg2.
  rewrite !basic_average_mean.
  pose proof halves_make_two as T.
  destruct (firstWindow tz now episodes) as [|a fr] eqn:EF.
  - cbn [JS.len List.length Z.of_nat Z.eqb negb andb]. rewrite andb_false_r.
    reflexivity.
  - destruct (secondWindow tz now episodes) as [|b sr] eqn:ES.
    + cbn [JS.len List.length Z.of_nat Z.eqb negb andb]. rewrite andb_false_r.
      reflexivity.
    + assert ((2 <=? JS.len (Basic.inLastDays tz now episodes 42)) = true) as ->
        by (apply Z.leb_le, T; discriminate).
      assert ((JS.len (a :: fr) =? 0) = false) as ->
        by (apply Z.eqb_neq; unfold JS.len; simpl; lia).
      assert ((JS.len (b :: sr) =? 0) = false) as ->
        by (apply Z.eqb_neq; unfold JS.len; simpl; lia).
      reflexivity.
Qed.

End RisingMeaning.

(** C2, at concrete inputs (the zone is UTC).  First, with the clock at
    2023-11-14T22:13:20Z: six weekly episodes with intensities 2, 2, 2, 5,
    5, 5 make the extended variant emit its finding, whose message shows
    neither average; two episodes of intensity 0, one in each half, give
    the basic variant a previous average of 0, which is not positive, and
    it emits its finding all the same.  Second, with the clock at
    2024-01-20T12:00Z: six weekly episodes whose intensity falls from 6 in
    December to 2 in January have the week numbers 50, 51, 52, 1, 2, 3;
    the three most recent weeks have the mean 2 and the three before them
    the mean 6, and the extended variant emits its finding: it takes the
    weeks of December, which have the highest numbers, for the recent
    ones. *)
Lemma rising_intensity_variants_differ :
  let weekly :=
    [ withIntensity "2023-10-10T12:00:00.000Z" 2%float;
      withIntensity "2023-10-17T12:00:00.000Z" 2%float;
      withIntensity "2023-10-24T12:00:00.000Z" 2%float;
      withIntensity "2023-10-31T12:00:00.000Z" 5%float;
      withIntensity "2023-11-07T12:00:00.000Z" 5%float;
      withIntensity "2023-11-14T12:00:00.000Z" 5%float ] in
  let zeros :=
    [ withIntensity "2023-10-15T12:00:00.000Z" 0%float;
      withIntensity "2023-11-14T12:00:00.000Z" 0%float ] in
  let december :=
    [ withIntensity "2023-12-11T12:00:00.000Z" 6%float;
      withIntensity "2023-12-18T12:00:00.000Z" 6%float;
      withIntensity "2023-12-25T12:00:00.000Z" 6%float ] in
  let january :=
    [ withIntensity "2024-01-01T12:00:00.000Z" 2%float;
      withIntensity "2024-01-08T12:00:00.000Z" 2%float;
      withIntensity "2024-01-15T12:00:00.000Z" 2%float ] in
  (lastAndPrevious (map (weekMeanOf 0 weekly) [41; 42; 43; 44; 45; 46])
   = Some (5%float, 2%float)
   /\ exists f, Extended.risingIntensityRule 0 1700000000000 weekly [] = Normal [f]
                /\ JS.includes (message f) "2.0" = false
                /\ JS.includes (message f) "5.0" = false)
  /\ (mean (intensities [withIntensity "2023-10-15T12:00:00.000Z" 0%float]) = 0%float
      /\ PrimFloat.ltb 0%float 0%float = false
      /\ exists f, Basic.risingIntensityRule 0 1700000000000 zeros [] = [f]
                   /\ JS.includes (message f) "(0.0)" = true)
  /\ (datedWhere 0 (fun t => daysBefore 0 1705752000000 42 <=? t) (december ++ january)
      = (december ++ january)%list
      /\ map (Extended.weekKey 0) (december ++ january) = [50; 51; 52; 1; 2; 3]
      /\ map (Extended.timeValue 0) (december ++ january)
         = [1702296000000; 1702900800000; 1703505600000;
            1704110400000; 1704715200000; 1705320000000]
      /\ mean (map (weekMeanOf 0 (december ++ january)) [1; 2; 3]) = 2%float
      /\ mean (map (weekMeanOf 0 (december ++ january)) [50; 51; 52]) = 6%float
      /\ exists f, Extended.risingIntensityRule 0 1705752000000 (december ++ january) []
                   = Normal [f]
                   /\ title f = "Rising intensity trend").
Proof.
  cbv zeta. split; [| split].
  - split; [vm_compute; reflexivity |].
    eexists. split; [vm_compute; reflexivity |]. split; vm_compute; reflexivity.
  - split; [vm_compute; reflexivity |].
    split; [vm_compute; reflexivity |].
    eexists. split; [vm_compute; reflexivity |]. vm_compute. reflexivity.
  - split; [vm_compute; reflexivity |].
    split; [vm_compute; reflexivity |].
    split; [vm_compute; reflexivity |].
    split; [vm_compute; reflexivity |].
    split; [vm_compute; reflexivity |].
    eexists. split; [vm_compute; reflexivity |]. vm_compute. reflexivity.
Qed.

(** C2, as amended.  Extended variant: the episodes of the 42-day window
    (those dated at or after the cutoff 42 days before [now]) are put into
    weeks by the week number the rule computes; with fewer than six weeks
    the rule emits nothing; otherwise, [last3] being the mean of the mean
    intensities (an absent intensity counting as 0) of the last three
    weeks and [prev3] that of the three weeks before them, it emits its
    finding if and only if [prev3 > 0] and [last3 >= prev3 * 1.2].  When
    the week numbers of the window increase with the dates of its episodes
    the weeks are in the order of time, so that these are the three most
    recent weeks and the three preceding them.  The message is a fixed
    text that shows no average.  Basic variant: the older half holds the
    episodes dated from the cutoff 42 days before [now] on and before the
    cutoff 21 days before [now], the newer half those dated from the
    cutoff 21 days before [now] on; when a half is empty the rule emits
    nothing; when neither is and the mean intensity of the older half is
    positive, the rule emits its finding if and only if the mean of the
    newer half is at least 1.2 times that of the older, and the message
    shows both means as [toFixed(1)] renders them, a number with one
    decimal (["2.0"] and ["5.0"] for 2 and 5). *)
Theorem rising_intensity_rule (tz : JS.Zone) (now : Z) (episodes : list Episode)
    (suggestions : list Finding) :
  let window := datedWhere tz (fun t => daysBefore tz now 42 <=? t) episodes in
  let older :=
    datedWhere tz (fun t => (daysBefore tz now 42 <=? t) && (t <? daysBefore tz now 21))
               episodes in
  let newer := datedWhere tz (fun t => daysBefore tz now 21 <=? t) episodes in
  let previous := mean (intensities older) in
  let recent := mean (intensities newer) in
  (exists weeks,
     NoDup weeks
     /\ (forall k, In k weeks
                   <-> exists ep, In ep window /\ Extended.weekKey tz ep = k)
     /\ (weeksFollowDates tz window -> StronglySorted (weekBefore tz window) weeks)
     /\ Extended.risingIntensityRule tz now episodes suggestions
        = Normal
            match lastAndPrevious (map (weekMeanOf tz window) weeks) with
            | Some (last3, prev3) =>
                if PrimFloat.ltb 0%float prev3
                   && PrimFloat.leb (PrimFloat.mul prev3 Extended.onePointTwo) last3
                then
                  push suggestions
                    {| title := "Rising intensity trend";
                       message := "Your 3‑week average intensity has risen by over 20%. Consider consulting a healthcare provider or reviewing possible triggers." |}
                else suggestions
            | None => suggestions
            end)
  /\ (older = [] \/ newer = [] ->
      Basic.risingIntensityRule tz now episodes suggestions = suggestions)
  /\ (older <> [] -> newer <> [] -> PrimFloat.ltb 0%float previous = true ->
      Basic.risingIntensityRule tz now episodes suggestions
      = if PrimFloat.leb (PrimFloat.mul previous Basic.onePointTwo) recent then
          push suggestions
            {| title := "Rising intensity";
               message := "Your average migraine intensity over the last three weeks ("
                 ++ JS.toFixed1 recent
                 ++ ") is noticeably higher than the preceding three weeks ("
                 ++ JS.toFixed1 previous
                 ++ "). It may be worth discussing this with a healthcare professional." |}
        else suggestions)
  /\ (forall x n,
        JS.scaled 10 (PrimFloat.abs x) = Some n ->
        exists sign digit,
          JS.toFixed1 x = sign ++ JS.showZ (n / 10) ++ "." ++ digit
          /\ String.length digit = 1%nat)
  /\ JS.toFixed1 2%float = "2.0" /\ JS.toFixed1 5%float = "5.0".
Proof.
  cbv zeta.
  rewrite <- (window_dated tz now episodes 42), <- firstWindow_dated,
    <- secondWindow_dated.
  split; [| split; [| split; [| split; [| split; reflexivity]]]].
  - exists (weekNumbersOf tz now episodes).
    split; [apply weekNumbersOf_NoDup |].
    split; [apply weekNumbersOf_In |].
    split; [apply weeks_in_time_order | apply extended_rising_means].
  - intros E. rewrite basic_rising_means. cbv zeta.
    destruct E as [-> | ->]; [reflexivity |].
    destruct (firstWindow tz now episodes); reflexivity.
  - intros O N _. rewrite basic_rising_means. cbv zeta.
    destruct (firstWindow tz now episodes); [congruence |].
    destruct (secondWindow tz now episodes); [congruence |]. reflexivity.
  - apply toFixed1_one_decimal.
Qed.

(** The six weekly episodes of October and November 2023 are a window
    whose week numbers increase with the dates. *)
Example weeks_follow_dates_within_a_year :
  weeksFollowDates 0
    [ withIntensity "2023-10-10T12:00:00.000Z" 2%float;
      withIntensity "2023-10-17T12:00:00.000Z" 2%float;
      withIntensity "2023-10-24T12:00:00.000Z" 2%float;
      withIntensity "2023-10-31T12:00:00.000Z" 5%float;
      withIntensity "2023-11-07T12:00:00.000Z" 5%float;
      withIntensity "2023-11-14T12:00:00.000Z" 5%float ].
Proof.
  intros a b [<- | [<- | [<- | [<- | [<- | [<- | []]]]]]]
             [<- | [<- | [<- | [<- | [<- | [<- | []]]]]]];
    vm_compute; intros C; (reflexivity || discriminate C).
Qed.

(** The basic variant on the example of the specification: halves with
    means 2 and 5. *)
Example rising_intensity_two_and_five :
  let now := 1700000000000 in
  let halves := [ withIntensity "2023-10-15T12:00:00.000Z" 2%float;
                  withIntensity "2023-11-14T12:00:00.000Z" 5%float ] in
  exists f, Basic.risingIntensityRule 0 now halves [] = [f]
            /\ JS.includes (message f) "(2.0)" = true
            /\ JS.includes (message f) "(5.0)" = true.
Proof.
  cbv zeta. eexists.
  split; [vm_compute; reflexivity |]. split; vm_compute; reflexivity.
Qed.

(** ** The streak and the history *)

(** Two histories show the same day strings. *)
Definition sameDays (eps eps' : list Episode) : Prop :=
  forall s, In s (map Extended.dayString eps) <-> In s (map Extended.dayString eps').

Section StreakHistory.

Variable tz : JS.Zone.

Lemma runEndingAt_same (days days' : list Z) (latest k : Z) :
  (forall d, In d days <-> In d days') ->
  runEndingAt days latest k -> runEndingAt days' latest k.
Proof.
  intros L (A & B & C & R & O). unfold runEndingAt.
  split; [apply L, A |]. split; [intros d I; apply B, L, I |].
  split; [exact C |]. split.
  - intros i Ri. apply L, R, Ri.
  - intros I. apply O, L, I.
Qed.

Lemma loggedDays_strings (eps : list Episode) (d : Z) :
  In d (loggedDays tz eps)
  <-> exists s, In s (map Extended.dayString eps) /\ dayNumber tz s = d.
Proof.
  unfold loggedDays. rewrite in_map_iff. split.
  - intros (ep & E & I). exists (Extended.dayString ep).
    split; [apply in_map, I | exact E].
  - intros (s & I & E). apply in_map_iff in I. destruct I as (ep & <- & I). eauto.
Qed.

Lemma sameDays_logged (eps eps' : list Episode) :
  sameDays eps eps' ->
  forall d, In d (loggedDays tz eps) <-> In d (loggedDays tz eps').
Proof.
  intros S d. rewrite !loggedDays_strings.
  split; intros (s & I & E); exists s; (split; [apply S, I | exact E]).
Qed.

Lemma sameDays_whole (eps eps' : list Episode) :
  sameDays eps eps' -> wholeDays tz eps -> wholeDays tz eps'.
Proof.
  intros S W ep I.
  assert (In (Extended.dayString ep) (map Extended.dayString eps)) as I'
    by (apply S, in_map, I).
  apply in_map_iff in I'. destruct I' as (ep' & E & I'). rewrite <- E. apply W, I'.
Qed.

Lemma sameDays_distinct (eps eps' : list Episode) :
  sameDays eps eps' -> distinctDays tz eps -> distinctDays tz eps'.
Proof.
  intros S D a b Ia Ib.
  assert (In (Extended.dayString a) (map Extended.dayString eps)) as Ia'
    by (apply S, in_map, Ia).
  assert (In (Extended.dayString b) (map Extended.dayString eps)) as Ib'
    by (apply S, in_map, Ib).
  apply in_map_iff in Ia'. destruct Ia' as (a' & Ea & Ia').
  apply in_map_iff in Ib'. destruct Ib' as (b' & Eb & Ib').
  rewrite <- Ea, <- Eb. apply D; assumption.
Qed.

Lemma sameDays_nonempty (eps eps' : list Episode) :
  sameDays eps eps' -> eps <> [] -> eps' <> [].
Proof.
  intros S NE ->. destruct eps as [|ep r]; [congruence |].
  destruct (proj1 (S (Extended.dayString ep)) (or_introl eq_refl)).
Qed.

Lemma sameDays_sorted (cmp : Episode -> Episode -> option Z) (eps : list Episode) :
  sameDays eps (JS.sortBy cmp eps).
Proof.
  intros s. rewrite !in_map_iff.
  split; intros (ep & E & I); exists ep; (split; [exact E | apply (sortBy_In cmp), I]).
Qed.

(** The streak rule reports the run that ends at the last logged day. *)
Lemma streakRule_run (eps : list Episode) (s : list Finding) (latest k : Z) :
  eps <> [] -> wholeDays tz eps -> distinctDays tz eps ->
  runEndingAt (loggedDays tz eps) latest k ->
  Extended.streakRule tz eps s
  = if 3 <=? k then
      push s
        {| title := "Consistent tracking";
           message := "Great job! You've logged episodes for " ++ JS.showZ k
             ++ " consecutive days. Keeping track consistently helps identify patterns." |}
    else s.
Proof.
  intros NE W D R.
  unfold Extended.streakRule, Extended.streakOn. cbv zeta.
  pose proof (sameDays_sorted (Extended.newestFirst tz) eps) as S.
  destruct (computeStreak_run tz _ (sameDays_nonempty _ _ S NE)
              (sameDays_whole _ _ S W) (sameDays_distinct _ _ S D)) as (latest' & R').
  apply (runEndingAt_same _ (loggedDays tz eps)) in R'.
  - destruct (runEndingAt_unique _ _ _ _ _ R R') as (_ & <-). reflexivity.
  - intros d. symmetry. apply sameDays_logged, S.
Qed.

(** What a call returns under the title of the streak rule is what the
    streak rule adds. *)
Lemma streak_findings_of_call (now : Z) (episodes : list Episode) :
  exists findings,
    Extended.analysePatterns tz now episodes = Normal findings
    /\ filter isStreakFinding findings = Extended.streakRule tz episodes [].
Proof.
  rewrite extended_analysePatterns_slots.
  eexists. split; [reflexivity |].
  destruct (JS.len episodes =? 0) eqn:E.
  - apply len_zero in E. subst episodes. reflexivity.
  - unfold extendedSlots. cbn [List.concat]. rewrite !filter_app.
    rewrite (adds_filtered _ _ _ (proj2 (extended_topTriggers_appends tz now episodes)))
      by other_title.
    rewrite (adds_filtered _ _ _ (proj2 (extended_timeOfDay_appends tz now episodes)))
      by other_title.
    rewrite (adds_filtered _ _ _ (proj2 (extended_dayOfWeek_appends tz now episodes)))
      by other_title.
    rewrite (adds_filtered _ _ _ (proj2 (extended_rising_appends tz now episodes)))
      by other_title.
    rewrite (adds_filtered _ _ _ (proj2 (extended_medication_appends tz now episodes)))
      by other_title.
    rewrite (adds_filtered _ _ _ (proj2 (extended_byHour_appends tz now episodes)))
      by other_title.
    rewrite (adds_filtered _ _ _ (proj2 (extended_byWeekday_appends tz now episodes)))
      by other_title.
    rewrite (adds_filtered _ _ _ (proj2 (extended_weeklyChange_appends tz now episodes)))
      by other_title.
    rewrite (adds_kept _ _ _ (proj2 (extended_streak_appends tz episodes)))
      by other_title.
    cbn [filter app]. rewrite app_nil_r. reflexivity.
Qed.

End StreakHistory.

(** C10.  For a history whose day strings are read as whole days, no two
    of them standing for the same day: what a call returns under the title
    "Consistent tracking" is the same for every reference instant and for
    every history that shows the same day strings; and when the run of
    consecutive logged days that ends at the last logged day has three
    days or more, the finding is returned, with the length of the run,
    however long before the reference instant the run ended. *)
Theorem streak_depends_on_logged_days_only
  (tz : JS.Zone) (episodes episodes' : list Episode) (now now' : Z) :
  episodes <> [] -> wholeDays tz episodes -> distinctDays tz episodes ->
  sameDays episodes episodes' ->
  exists findings findings',
    Extended.analysePatterns tz now episodes = Normal findings
    /\ Extended.analysePatterns tz now' episodes' = Normal findings'
    /\ filter isStreakFinding findings' = filter isStreakFinding findings
    /\ forall latest k,
         runEndingAt (loggedDays tz episodes) latest k ->
         (3 <= k ->
          filter isStreakFinding findings
          = [ {| title := "Consistent tracking";
                 message := "Great job! You've logged episodes for " ++ JS.showZ k
                   ++ " consecutive days. Keeping track consistently helps identify patterns." |} ])
         /\ (k < 3 -> filter isStreakFinding findings = []).
Proof.
  intros NE W D S.
  destruct (streak_findings_of_call tz now episodes) as (findings & E & F).
  destruct (streak_findings_of_call tz now' episodes') as (findings' & E' & F').
  exists findings, findings'.
  split; [exact E |]. split; [exact E' |].
  destruct (computeStreak_run tz episodes NE W D) as (latest0 & R0).
  rewrite F, F'.
  rewrite (streakRule_run tz episodes [] latest0 _ NE W D R0).
  rewrite (streakRule_run tz episodes' [] latest0 (Extended.computeStreak tz episodes)
             (sameDays_nonempty _ _ S NE) (sameDays_whole tz _ _ S W)
             (sameDays_distinct tz _ _ S D)
             (runEndingAt_same _ _ _ _ (sameDays_logged tz _ _ S) R0)).
  split; [reflexivity |].
  intros latest k R.
  destruct (runEndingAt_unique _ _ _ _ _ R R0) as (_ & <-).
  split; intros K.
  - apply Z.leb_le in K. rewrite K. reflexivity.
  - apply Z.leb_gt in K. rewrite K. reflexivity.
Qed.

(** C10 at a concrete input: episodes logged on 12, 14 and 13 November
    2023, read at the clock of 2023-11-14T22:13:20Z and, in the reverse
    order, at the clock of 2030-03-17T17:46:40Z, more than six years after
    the run ended, give the finding for three consecutive days both
    times. *)
Lemma streak_depends_on_logged_days_only_witness :
  unsorted <> [] /\ wholeDays 0 unsorted /\ distinctDays 0 unsorted
  /\ sameDays unsorted (rev unsorted)
  /\ exists findings findings',
       Extended.analysePatterns 0 1700000000000 unsorted = Normal findings
       /\ Extended.analysePatterns 0 1900000000000 (rev unsorted) = Normal findings'
       /\ filter isStreakFinding findings' = filter isStreakFinding findings
       /\ filter isStreakFinding findings
          = [ {| title := "Consistent tracking";
                 message := "Great job! You've logged episodes for 3 consecutive days. Keeping track consistently helps identify patterns." |} ].
Proof.
  assert (unsorted <> []) as NE by discriminate.
  assert (wholeDays 0 unsorted) as W.
  { intros ep [<- | [<- | [<- | []]]];
      [exists 19673 | exists 19675 | exists 19674]; vm_compute; reflexivity. }
  assert (distinctDays 0 unsorted) as D.
  { intros a b [<- | [<- | [<- | []]]] [<- | [<- | [<- | []]]];
      vm_compute; intros E; try reflexivity; discriminate E. }
  assert (sameDays unsorted (rev unsorted)) as S.
  { intros s. rewrite map_rev. apply in_rev. }
  split; [exact NE |]. split; [exact W |]. split; [exact D |]. split; [exact S |].
  destruct (streak_depends_on_logged_days_only
              0 unsorted (rev unsorted) 1700000000000 1900000000000 NE W D S)
    as (findings & findings' & E & E' & F & K).
  exists findings, findings'.
  split; [exact E |]. split; [exact E' |]. split; [exact F |].
  assert (runEndingAt (loggedDays 0 unsorted) 19675 3) as R.
  { unfold runEndingAt.
    assert (loggedDays 0 unsorted = [19673; 19675; 19674]) as ->
      by (vm_compute; reflexivity).
    split; [simpl; tauto |].
    split; [intros d [<- | [<- | [<- | []]]]; lia |].
    split; [lia |]. split.
    - intros i Ri.
      assert (i = 0 \/ i = 1 \/ i = 2) as [-> | [-> | ->]] by lia; simpl; tauto.
    - simpl. intros [C | [C | [C | []]]]; discriminate C. }
  exact (proj1 (K 19675 3 R) ltac:(lia)).
Defined.
